(** * Reminder due-rule and monitor loop of [ava_voice_ai/api/reminders.py]

    A shallow embedding of [is_reminder_due], of the background task
    [monitor_reminders], of the three monitor endpoints
    ([start_reminder_monitoring], [stop_reminder_monitoring],
    [get_monitoring_status]) and of the seven request handlers
    ([get_reminders], [create_reminder], [update_reminder],
    [delete_reminder], [get_due_reminders], [snooze_reminder],
    [complete_reminder]), followed by the properties of the
    specification that concern them and by further properties of the
    code.

    Conventions of the embedding.
    - Python [int] is unbounded: [Z].
    - Python [str] is [string]; the texts handled here ("HH:MM", weekday
      names) are ASCII, and [int(...)] is modelled on ASCII input (Unicode
      decimal digits and the interpreter's limit on the number of digits
      of a literal are outside the model).
    - [datetime] values are naive (no [tzinfo]), as [datetime.now()]
      returns them.
    - [asyncio.sleep] takes any integer below the range of a float and
      raises [OverflowError] on the others.
    - Effects are explicit: a reader/state/exception monad [M] over an
      environment [Env] (the wall clock, the reminder store, the control
      requests that arrive while the task is suspended) and a state
      [State] (the two module globals, the table of asyncio tasks, and the
      observable trace of log lines, store calls and sleeps). *)

From Stdlib Require Import ZArith List String Ascii Bool Arith Lia.
From Stdlib Require Import DecimalString.
Import ListNotations.

Local Open Scope string_scope.
Local Open Scope list_scope.
Local Open Scope Z_scope.

(* ===================================================================== *)
(** ** Python strings: [str.split(':')] and [int(str)]                    *)
(* ===================================================================== *)

Module PyStr.

(** [s.split(sep)] for a one-character separator: every occurrence of
    the separator cuts; the result always has at least one element. *)
Fixpoint split (sep : ascii) (s : string) : list string :=
  match s with
  | EmptyString => [EmptyString]
  | String c rest =>
      if Ascii.eqb c sep then EmptyString :: split sep rest
      else match split sep rest with
           | piece :: pieces => String c piece :: pieces
           | [] => [String c EmptyString]
           end
  end.

(** The ASCII whitespace that [int] skips at both ends: TAB, LF, VT, FF,
    CR and the blank. *)
Definition is_space (c : ascii) : bool :=
  let n := nat_of_ascii c in
  ((9 <=? n)%nat && (n <=? 13)%nat) || (n =? 32)%nat.

Fixpoint lstrip (l : list ascii) : list ascii :=
  match l with
  | c :: rest => if is_space c then lstrip rest else l
  | [] => []
  end.

Definition strip (l : list ascii) : list ascii :=
  rev (lstrip (rev (lstrip l))).

Definition digit_val (c : ascii) : option Z :=
  let n := nat_of_ascii c in
  if ((48 <=? n)%nat && (n <=? 57)%nat)%bool
  then Some (Z.of_nat (n - 48)) else None.

(** Decimal digits, where single underscores may separate two digits.
    [after_digit] tells whether the previous character was a digit. *)
Fixpoint digits (acc : Z) (after_digit : bool) (l : list ascii) : option Z :=
  match l with
  | [] => if after_digit then Some acc else None
  | c :: rest =>
      if Ascii.eqb c "_"%char
      then (if after_digit then digits acc false rest else None)
      else match digit_val c with
           | Some d => digits (acc * 10 + d) true rest
           | None => None
           end
  end.

(** [int(s)] in base ten; [None] stands for [ValueError]. *)
Definition int (s : string) : option Z :=
  match strip (list_ascii_of_string s) with
  | c :: rest =>
      if Ascii.eqb c "+"%char then digits 0 false rest
      else if Ascii.eqb c "-"%char then option_map Z.opp (digits 0 false rest)
      else digits 0 false (c :: rest)
  | [] => None
  end.

(** The ["%02d"] of [strftime]'s [%H] and [%M]. *)
Definition digit_char (d : Z) : ascii := ascii_of_nat (48 + Z.to_nat d).

Definition two_digits (n : Z) : string :=
  String (digit_char (n / 10)) (String (digit_char (n mod 10)) EmptyString).

End PyStr.

(* ===================================================================== *)
(** ** [datetime]                                                         *)
(* ===================================================================== *)

Record date : Type := mkDate {
  d_year : Z;
  d_month : Z;
  d_day : Z
}.

Record datetime : Type := mkDatetime {
  year : Z;
  month : Z;
  day : Z;
  hour : Z;
  minute : Z;
  second : Z;
  microsecond : Z
}.

Module Datetime.

(** [dt.date()] *)
Definition date_of (dt : datetime) : date :=
  mkDate (year dt) (month dt) (day dt).

(** [d1 == d2] on dates *)
Definition date_eqb (a b : date) : bool :=
  (d_year a =? d_year b) && (d_month a =? d_month b) && (d_day a =? d_day b).

Definition fields (dt : datetime) : list Z :=
  [year dt; month dt; day dt; hour dt; minute dt; second dt; microsecond dt].

Fixpoint lex_compare (a b : list Z) : comparison :=
  match a, b with
  | x :: a', y :: b' =>
      match x ?= y with
      | Eq => lex_compare a' b'
      | c => c
      end
  | [], [] => Eq
  | [], _ :: _ => Lt
  | _ :: _, [] => Gt
  end.

(** [a > b] on naive datetimes: field by field, most significant first. *)
Definition gtb (a b : datetime) : bool :=
  match lex_compare (fields a) (fields b) with
  | Gt => true
  | _ => false
  end.

Definition is_leap (y : Z) : bool :=
  (y mod 4 =? 0) && (negb (y mod 100 =? 0) || (y mod 400 =? 0)).

Definition days_in_month (y m : Z) : Z :=
  if m =? 2 then (if is_leap y then 29 else 28)
  else if (m =? 4) || (m =? 6) || (m =? 9) || (m =? 11) then 30
  else 31.

Definition days_before_year (y : Z) : Z :=
  let p := y - 1 in p * 365 + p / 4 - p / 100 + p / 400.

Definition days_before_month (y m : Z) : Z :=
  fold_left (fun acc k => acc + days_in_month y (Z.of_nat k))
            (seq 1 (Z.to_nat (m - 1))) 0.

Definition toordinal (d : date) : Z :=
  days_before_year (d_year d) + days_before_month (d_year d) (d_month d)
  + d_day d.

(** [d.weekday()]: Monday is 0. *)
Definition weekday (d : date) : Z := (toordinal d + 6) mod 7.

Definition day_names : list string :=
  ["Monday"; "Tuesday"; "Wednesday"; "Thursday"; "Friday"; "Saturday";
   "Sunday"].

(** [dt.strftime("%A")] in the C locale. *)
Definition strftime_A (dt : datetime) : string :=
  nth (Z.to_nat (weekday (date_of dt))) day_names "".

(** [dt.strftime("%H:%M")] *)
Definition strftime_HM (dt : datetime) : string :=
  (PyStr.two_digits (hour dt) ++ ":" ++ PyStr.two_digits (minute dt))%string.

(** The ranges [datetime] enforces on the fields read here. *)
Definition valid_time (dt : datetime) : Prop :=
  0 <= hour dt < 24 /\ 0 <= minute dt < 60.

End Datetime.

(* ===================================================================== *)
(** ** Data model                                                         *)
(* ===================================================================== *)

(** Modelled from the spec: the [Reminder] record of [database/models.py],
    which is not part of the sources at hand.  The fields are those of the
    specification's data model; [days_of_week] may be absent ([None]) or a
    list of weekday names, [snooze_until] and [last_triggered] are optional
    instants. *)
Record Reminder : Type := mkReminder {
  id : string;
  user_id : string;
  title : string;
  reminder_time : string;
  is_active : bool;
  is_recurring : bool;
  days_of_week : option (list string);
  snooze_until : option datetime;
  last_triggered : option datetime
}.

(** The exceptions that derive from [Exception] and can occur here:
    [ValueError] from the parsing of a time, whatever the store raises,
    and the [OverflowError] ("int too large to convert to float") of
    [asyncio.sleep], here [FloatOverflowError].  [asyncio.CancelledError]
    derives from [BaseException] only and is a separate outcome,
    [Cancelled], which [except Exception] does not catch. *)
Inductive exception : Type :=
| ValueError
| StoreError (code : nat)
| FloatOverflowError.

Inductive outcome (A : Type) : Type :=
| Val (a : A)
| Raise (e : exception)
| Cancelled.
Arguments Val {A} a.
Arguments Raise {A} e.
Arguments Cancelled {A}.

(** What a call to the store comes back with. *)
Inductive reply (A : Type) : Type :=
| Returns (a : A)
| Fails (e : exception).
Arguments Returns {A} a.
Arguments Fails {A} e.

(** JSON bodies of the three monitor endpoints. *)
Inductive response : Type :=
| Message (message : string)
| Started (message : string) (check_interval : Z) (user : string)
| StatusReport (running task_active : bool).

(** A control request served by the event loop. *)
Inductive request : Type :=
| ReqStart (user : string) (check_interval : Z)
| ReqStop
| ReqStatus.

(** What the monitor task does that can be observed from outside. *)
Inductive event : Type :=
| LogChecking (current_time current_day : string)
| LogFound (count : nat)
| LogDue (reminder_title reminder_at : string)
| LogError (e : exception)
| CallGetReminders (user : string) (active_only : bool)
| CallUpdateReminder (reminder_id : string) (triggered : datetime)
| Sleep (seconds : Z).

(** An asyncio task: [Pending] until it finishes, [Cancelling] once
    [cancel()] was called on it and [CancelledError] is still to be thrown
    into it, [Done] afterwards. *)
Inductive task_status : Type := Pending | Cancelling | Done.

Record task : Type := mkTask {
  task_user : string;
  task_interval : Z;
  task_status_of : task_status
}.

(** The two module globals, and the tasks [asyncio.create_task] has made;
    a task handle is the index of the task in the table. *)
Record MonitorState : Type := mkMonitor {
  reminder_monitor_running : bool;
  reminder_monitor_task : option nat;
  tasks : list task
}.

(** The state of the process as the task sees it: the monitor state, the
    number of calls of [datetime.now()] so far, the number of times the
    task was suspended so far, and what the task has logged and called. *)
Record State : Type := mkState {
  monitor : MonitorState;
  reads : nat;
  awaits : nat;
  trace : list event
}.

(** The world around the task: what the k-th call of [datetime.now()]
    returns, how the store answers the call made at the k-th suspension,
    and which control requests the event loop serves during it.
    [DatabaseService] is not part of the sources at hand: its behaviour
    is a parameter, and each of its calls may return or raise.  A
    [get_reminders] returns a list of reminders, an [update_reminder] the
    updated reminder or nothing when the reminder is not found. *)
Record Env : Type := mkEnv {
  clock : nat -> datetime;
  store_init : reply unit;
  store_get_reminders : nat -> string -> bool -> reply (list Reminder);
  store_update_reminder : nat -> string -> datetime -> reply (option Reminder);
  requests : nat -> list request
}.

Definition initial_monitor : MonitorState := mkMonitor false None [].

Definition initial_state : State := mkState initial_monitor 0 0 [].

(* ===================================================================== *)
(** ** The monad of the handlers and of the task                          *)
(* ===================================================================== *)

Definition M (A : Type) : Type := Env -> State -> outcome A * State.

Definition ret {A} (a : A) : M A := fun _ st => (Val a, st).

Definition bind {A B} (m : M A) (k : A -> M B) : M B :=
  fun env st =>
    match m env st with
    | (Val a, st') => k a env st'
    | (Raise e, st') => (Raise e, st')
    | (Cancelled, st') => (Cancelled, st')
    end.

Definition raise {A} (e : exception) : M A := fun _ st => (Raise e, st).

(** [try: body except Exception as e: handler(e)] *)
Definition try_except {A} (body : M A) (handler : exception -> M A) : M A :=
  fun env st =>
    match body env st with
    | (Raise e, st') => handler e env st'
    | other => other
    end.

Declare Scope monad_scope.
Delimit Scope monad_scope with monad.
Notation "x <- m ;; k" := (bind m (fun x => k))
  (at level 61, m at next level, right associativity) : monad_scope.
Notation "m ;; k" := (bind m (fun _ => k))
  (at level 61, right associativity) : monad_scope.
Notation "' pat <- m ;; k" :=
  (bind m (fun x => match x with pat => k end))
  (at level 61, pat pattern, m at next level, right associativity)
  : monad_scope.
Local Open Scope monad_scope.

(** [datetime.now()] *)
Definition datetime_now : M datetime :=
  fun env st =>
    (Val (clock env (reads st)),
     mkState (monitor st) (S (reads st)) (awaits st) (trace st)).

(** A log line or an outgoing call, appended to the trace. *)
Definition emit (e : event) : M unit :=
  fun _ st =>
    (Val tt, mkState (monitor st) (reads st) (awaits st) (trace st ++ [e])).

(* ===================================================================== *)
(** ** [is_reminder_due]                                                  *)
(* ===================================================================== *)

(** [h, m = map(int, s.split(':'))]: exactly two pieces, both integers;
    anything else is a [ValueError]. *)
Definition unpack_hour_minute (s : string) : option (Z * Z) :=
  match map PyStr.int (PyStr.split ":" s) with
  | [Some h; Some m] => Some (h, m)
  | _ => None
  end.

Definition hour_minute (s : string) : M (Z * Z) :=
  match unpack_hour_minute s with
  | Some hm => ret hm
  | None => raise ValueError
  end.

(** [abs((current_hour * 60 + current_minute)
         - (reminder_hour * 60 + reminder_minute))] *)
Definition time_diff (current_hour current_minute
                      reminder_hour reminder_minute : Z) : Z :=
  Z.abs ((current_hour * 60 + current_minute)
         - (reminder_hour * 60 + reminder_minute)).

(** [current_day in days] *)
Definition day_in (current_day : string) (days : list string) : bool :=
  existsb (String.eqb current_day) days.

(** [reminder.is_recurring and reminder.days_of_week]: an absent or empty
    list is falsy. *)
Definition has_days (reminder : Reminder) : option (list string) :=
  if is_recurring reminder then
    match days_of_week reminder with
    | Some (d :: ds) => Some (d :: ds)
    | _ => None
    end
  else None.

(** [is_reminder_due(reminder, current_time, current_day)], check by
    check in the order of the source: active, snoozed (with its own
    reading of the clock), time window, day of the week, already
    triggered today (with its own reading of the clock). *)
Definition is_reminder_due (reminder : Reminder)
                           (current_time current_day : string) : M bool :=
  if negb (is_active reminder) then ret false else
  snoozed <- match snooze_until reminder with
             | Some until =>
                 now <- datetime_now ;;
                 ret (Datetime.gtb until now)
             | None => ret false
             end ;;
  if snoozed : bool then ret false else
  '(reminder_hour, reminder_minute) <- hour_minute (reminder_time reminder) ;;
  '(current_hour, current_minute) <- hour_minute current_time ;;
  if time_diff current_hour current_minute reminder_hour reminder_minute >? 1
  then ret false else
  let off_day := match has_days reminder with
                 | Some days => negb (day_in current_day days)
                 | None => false
                 end in
  if off_day then ret false else
  match last_triggered reminder with
  | Some triggered =>
      today <- datetime_now ;;
      if Datetime.date_eqb (Datetime.date_of triggered) (Datetime.date_of today)
      then ret false else ret true
  | None => ret true
  end.

(* ===================================================================== *)
(** ** The monitor endpoints                                              *)
(* ===================================================================== *)

Definition status_of (handle : nat) (ts : list task) : option task_status :=
  option_map task_status_of (nth_error ts handle).

(** [task.cancel()]: a request, which a pending task receives at the
    point where it is suspended; no effect on a task that is done. *)
Definition cancel_task (t : task) : task :=
  match task_status_of t with
  | Pending => mkTask (task_user t) (task_interval t) Cancelling
  | _ => t
  end.

Fixpoint cancel (handle : nat) (ts : list task) : list task :=
  match ts, handle with
  | [], _ => []
  | t :: rest, O => cancel_task t :: rest
  | t :: rest, S h => t :: cancel h rest
  end.

(** [start_reminder_monitoring].  [asyncio.create_task] appends the new
    task to the table; the [background_tasks.add_task] that follows hands
    Starlette a function that returns the task and has no effect. *)
Definition start_reminder_monitoring (user : string) (check_interval : Z)
                                     (ms : MonitorState)
  : response * MonitorState :=
  if reminder_monitor_running ms
  then (Message "Reminder monitoring is already running", ms)
  else (Started "Reminder monitoring started" check_interval user,
        mkMonitor true (Some (List.length (tasks ms)))
                  (tasks ms ++ [mkTask user check_interval Pending])).

(** [stop_reminder_monitoring] *)
Definition stop_reminder_monitoring (ms : MonitorState)
  : response * MonitorState :=
  if negb (reminder_monitor_running ms)
  then (Message "Reminder monitoring is not running", ms)
  else (Message "Reminder monitoring stopped",
        match reminder_monitor_task ms with
        | Some handle => mkMonitor false None (cancel handle (tasks ms))
        | None => mkMonitor false (reminder_monitor_task ms) (tasks ms)
        end).

(** [task.done()] *)
Definition done (handle : nat) (ts : list task) : bool :=
  match status_of handle ts with
  | Some Done => true
  | _ => false
  end.

(** [get_monitoring_status] *)
Definition get_monitoring_status (ms : MonitorState) : response :=
  StatusReport (reminder_monitor_running ms)
               (match reminder_monitor_task ms with
                | Some handle => negb (done handle (tasks ms))
                | None => false
                end).

Definition serve (rq : request) (ms : MonitorState) : response * MonitorState :=
  match rq with
  | ReqStart user check_interval =>
      start_reminder_monitoring user check_interval ms
  | ReqStop => stop_reminder_monitoring ms
  | ReqStatus => (get_monitoring_status ms, ms)
  end.

Definition serve_all (rqs : list request) (ms : MonitorState) : MonitorState :=
  fold_left (fun s rq => snd (serve rq s)) rqs ms.

(** A task finishes (returns, raises, or takes the [CancelledError]). *)
Fixpoint finish (handle : nat) (ts : list task) : list task :=
  match ts, handle with
  | [], _ => []
  | t :: rest, O => mkTask (task_user t) (task_interval t) Done :: rest
  | t :: rest, S h => t :: finish h rest
  end.

(** What can happen to the monitor state: a control request is served, or
    a task comes to its end. *)
Inductive step : MonitorState -> MonitorState -> Prop :=
| step_request (rq : request) (ms : MonitorState) :
    step ms (snd (serve rq ms))
| step_finish (handle : nat) (ms : MonitorState) :
    step ms (mkMonitor (reminder_monitor_running ms)
                       (reminder_monitor_task ms)
                       (finish handle (tasks ms))).

Inductive reachable : MonitorState -> Prop :=
| reachable_initial : reachable initial_monitor
| reachable_step (ms ms' : MonitorState) :
    reachable ms -> step ms ms' -> reachable ms'.

(** What every reachable monitor state satisfies: the flag is up exactly
    when a handle is stored, and a task that is neither done nor asked to
    cancel is the one the handle names. *)
Definition consistent (ms : MonitorState) : Prop :=
  (reminder_monitor_running ms = true <-> reminder_monitor_task ms <> None)
  /\ (forall i t, nth_error (tasks ms) i = Some t ->
                  task_status_of t = Pending ->
                  reminder_monitor_task ms = Some i).

(** A loop that can still run a tick: its task is neither done nor asked
    to cancel.  (A task asked to cancel is resumed with [CancelledError]
    wherever it is suspended, and [except Exception] lets that through.) *)
Definition is_active_loop (t : task) : bool :=
  match task_status_of t with
  | Pending => true
  | _ => false
  end.

Definition active_loops (ms : MonitorState) : nat :=
  List.length (filter is_active_loop (tasks ms)).

(* ===================================================================== *)
(** ** The background task [monitor_reminders]                            *)
(* ===================================================================== *)

(** The least integer that [float()] refuses: half an [ulp] above the
    greatest double, [2 ** 1024 - 2 ** 971], where rounding to even goes
    up to [2 ** 1024]. *)
Definition float_overflow : Z := 2 ^ 1024 - 2 ^ 970.

Section MonitorTask.

(** The task's own handle, and the two arguments of
    [start_reminder_monitoring] that the closure captures. *)
Variable self : nat.
Variable user : string.
Variable check_interval : Z.

Definition cancel_requested (ms : MonitorState) : bool :=
  match status_of self (tasks ms) with
  | Some Cancelling => true
  | _ => false
  end.

(** The task is suspended at an [await] (or before its first step): the
    event loop serves the control requests that come in meanwhile; when
    the task is resumed, a requested cancellation is thrown into it.
    The value is the index of the suspension. *)
Definition suspend : M nat :=
  fun env st =>
    let k := awaits st in
    let ms := serve_all (requests env k) (monitor st) in
    let st' := mkState ms (reads st) (S k) (trace st) in
    if cancel_requested ms then (Cancelled, st') else (Val k, st').

Definition of_reply {A} (r : reply A) : M A :=
  match r with
  | Returns a => ret a
  | Fails e => raise e
  end.

(** [await db.get_reminders(user_id, active_only=True)] *)
Definition db_get_reminders (active_only : bool) : M (list Reminder) :=
  emit (CallGetReminders user active_only) ;;
  k <- suspend ;;
  fun env => of_reply (store_get_reminders env k user active_only) env.

(** [await db.update_reminder(reminder.id, ReminderUpdate(last_triggered=now))] *)
Definition db_update_reminder (reminder_id : string) (now : datetime)
  : M (option Reminder) :=
  emit (CallUpdateReminder reminder_id now) ;;
  k <- suspend ;;
  fun env => of_reply (store_update_reminder env k reminder_id now) env.

(** [await asyncio.sleep(check_interval)].  A delay that is not positive
    yields to the event loop once; a positive one is handed to
    [loop.call_later], which adds it to the loop's time, a float: an int
    of [float_overflow] or more cannot be converted and the call raises
    [OverflowError] before the task is suspended. *)
Definition asyncio_sleep (seconds : Z) : M unit :=
  if seconds >=? float_overflow then raise FloatOverflowError
  else
    emit (Sleep seconds) ;;
    _ <- suspend ;;
    ret tt.

(** [for reminder in reminders: if is_reminder_due(...): due_reminders.append(reminder)] *)
Fixpoint collect_due (reminders : list Reminder)
                     (current_time current_day : string)
                     (due_reminders : list Reminder) : M (list Reminder) :=
  match reminders with
  | [] => ret due_reminders
  | reminder :: rest =>
      due <- is_reminder_due reminder current_time current_day ;;
      collect_due rest current_time current_day
                  (if due : bool then due_reminders ++ [reminder]
                   else due_reminders)
  end.

(** [for reminder in due_reminders: logger.info(...); await db.update_reminder(...)] *)
Fixpoint notify (now : datetime) (due_reminders : list Reminder) : M unit :=
  match due_reminders with
  | [] => ret tt
  | reminder :: rest =>
      emit (LogDue (title reminder) (reminder_time reminder)) ;;
      _ <- db_update_reminder (id reminder) now ;;
      notify now rest
  end.

(** The body of the [try] block. *)
Definition tick : M unit :=
  now <- datetime_now ;;
  let current_time := Datetime.strftime_HM now in
  let current_day := Datetime.strftime_A now in
  emit (LogChecking current_time current_day) ;;
  reminders <- db_get_reminders true ;;
  due_reminders <- collect_due reminders current_time current_day [] ;;
  match due_reminders with
  | [] => ret tt
  | _ :: _ =>
      emit (LogFound (List.length due_reminders)) ;;
      notify now due_reminders
  end ;;
  asyncio_sleep check_interval.

(** One turn of the [while] loop: the [try] with its [except Exception]. *)
Definition iteration : M unit :=
  try_except tick
    (fun e => emit (LogError e) ;; asyncio_sleep check_interval).

(** [while reminder_monitor_running: ...].  [None] means that the loop is
    still running when the fuel (a number of turns) is used up;
    [Some o] that it has ended with outcome [o]. *)
Fixpoint monitor_loop (fuel : nat) (env : Env) (st : State)
  : option (outcome unit) * State :=
  if negb (reminder_monitor_running (monitor st)) then (Some (Val tt), st)
  else match fuel with
       | O => (None, st)
       | S fuel' =>
           match iteration env st with
           | (Val _, st') => monitor_loop fuel' env st'
           | (Raise e, st') => (Some (Raise e), st')
           | (Cancelled, st') => (Some Cancelled, st')
           end
       end.

(** The coroutine: scheduled by [create_task], it takes its first step
    when the handler has returned; [DatabaseService()] is built once,
    outside the [try]. *)
Definition monitor_reminders (fuel : nat) (env : Env) (st : State)
  : option (outcome unit) * State :=
  match (_ <- suspend ;; of_reply (store_init env)) env st with
  | (Val _, st') => monitor_loop fuel env st'
  | (Raise e, st') => (Some (Raise e), st')
  | (Cancelled, st') => (Some Cancelled, st')
  end.

(** The asyncio task around the coroutine: done when the coroutine ends. *)
Definition run_task (fuel : nat) (env : Env) (st : State)
  : option (outcome unit) * State :=
  match monitor_reminders fuel env st with
  | (Some o, st') =>
      (Some o,
       mkState (mkMonitor (reminder_monitor_running (monitor st'))
                          (reminder_monitor_task (monitor st'))
                          (finish self (tasks (monitor st'))))
               (reads st') (awaits st') (trace st'))
  | (None, st') => (None, st')
  end.

End MonitorTask.

(** The clock reading that the already-fired-today check of
    [is_reminder_due] takes: the first one, or the second when the snooze
    check has taken one before. *)
Definition today_reading (reminder : Reminder) (env : Env) (st : State)
  : datetime :=
  clock env (match snooze_until reminder with
             | Some _ => S (reads st)
             | None => reads st
             end).

Definition with_last_triggered (reminder : Reminder)
                               (triggered : option datetime) : Reminder :=
  mkReminder (id reminder) (user_id reminder) (title reminder)
             (reminder_time reminder) (is_active reminder)
             (is_recurring reminder) (days_of_week reminder)
             (snooze_until reminder) triggered.

(** [datetime.now()] was called [n] more times; nothing else happened. *)
Definition clock_read (n : nat) (st : State) : State :=
  mkState (monitor st) (n + reads st) (awaits st) (trace st).

(* ===================================================================== *)
(** ** Vocabulary of the statements about the loop                        *)
(* ===================================================================== *)

(** No [stop] request is served during the suspensions [a], ..., [b - 1]. *)
Definition stop_free (env : Env) (a b : nat) : Prop :=
  forall k, (a <= k < b)%nat -> ~ In ReqStop (requests env k).

(** The loop of task [self] goes on: the flag is up and no cancellation
    of the task is under way. *)
Definition alive (self : nat) (ms : MonitorState) : Prop :=
  reminder_monitor_running ms = true /\ cancel_requested self ms = false.

(** The durations of the sleeps recorded in a trace, in order. *)
Fixpoint slept (tr : list event) : list Z :=
  match tr with
  | [] => []
  | Sleep seconds :: rest => seconds :: slept rest
  | _ :: rest => slept rest
  end.

(** What the loop records for one due reminder: the log line that stands
    for the notification, and the store update that follows it. *)
Definition notification (now : datetime) (reminder : Reminder) : list event :=
  [LogDue (title reminder) (reminder_time reminder);
   CallUpdateReminder (id reminder) now].

(** A computation of task [self] that, as long as the loop goes on and no
    [stop] is served while it is suspended, is not cancelled, leaves the
    monitor state alone, and sleeps for the durations [zs] when it
    returns (and not at all when it raises). *)
Definition calm {A} (self : nat) (zs : list Z) (m : M A) : Prop :=
  forall env st,
    (awaits st <= awaits (snd (m env st)))%nat
    /\ (alive self (monitor st) ->
        stop_free env (awaits st) (awaits (snd (m env st))) ->
        fst (m env st) <> Cancelled
        /\ monitor (snd (m env st)) = monitor st
        /\ slept (trace (snd (m env st)))
           = (slept (trace st) ++ match fst (m env st) with
                                  | Val _ => zs
                                  | _ => []
                                  end)%list).

(** A computation that keeps the monitor state among the reachable ones. *)
Definition steady {A} (m : M A) : Prop :=
  forall env st, reachable (monitor st) -> reachable (monitor (snd (m env st))).

(* ===================================================================== *)
(** ** Concrete reminders, clocks and stores used in the examples         *)
(* ===================================================================== *)

Module Fixtures.

(** Tuesday 3 November 2026, 09:00:00. *)
Definition nine : datetime := mkDatetime 2026 11 3 9 0 0 0.

Definition at_time (h m s : Z) : datetime := mkDatetime 2026 11 3 h m s 0.

Definition yesterday : datetime := mkDatetime 2026 11 2 9 0 0 0.

(** A plain daily reminder at 09:00. *)
Definition pill : Reminder :=
  mkReminder "r1" "u1" "Pill" "09:00" true false None None None.

Definition with_time (r : Reminder) (t : string) : Reminder :=
  mkReminder (id r) (user_id r) (title r) t (is_active r) (is_recurring r)
             (days_of_week r) (snooze_until r) (last_triggered r).

Definition with_snooze (r : Reminder) (until : datetime) : Reminder :=
  mkReminder (id r) (user_id r) (title r) (reminder_time r) (is_active r)
             (is_recurring r) (days_of_week r) (Some until)
             (last_triggered r).

Definition on_days (r : Reminder) (days : list string) : Reminder :=
  mkReminder (id r) (user_id r) (title r) (reminder_time r) (is_active r)
             true (Some days) (snooze_until r) (last_triggered r).

(** A world in which the clock stands still, the store is empty and
    answers every call, and no control request comes in. *)
Definition frozen (now : datetime) : Env :=
  mkEnv (fun _ => now) (Returns tt) (fun _ _ _ => Returns [])
        (fun _ _ _ => Returns None) (fun _ => []).

(** A clock that shows [first] when read for the first time and [later]
    from then on. *)
Definition moving (first later : datetime) : Env :=
  mkEnv (fun k => match k with O => first | S _ => later end)
        (Returns tt) (fun _ _ _ => Returns [])
        (fun _ _ _ => Returns None) (fun _ => []).

(** The 09:00 reminder, snoozed until 09:00:30. *)
Definition snoozed_pill : Reminder := with_snooze pill (at_time 9 0 30).

(** The monitor after a first [start], and after [start], [stop] and a
    second [start] served before the first task has taken its
    cancellation. *)
Definition started : MonitorState :=
  serve_all [ReqStart "u1" 60] initial_monitor.

Definition restarted : MonitorState :=
  serve_all [ReqStart "u1" 60; ReqStop; ReqStart "u2" 30] initial_monitor.

(** A second reminder at 09:00, last fired the day before. *)
Definition walk : Reminder :=
  mkReminder "r2" "u1" "Walk" "09:00" true false None None (Some yesterday).

(** The 09:00 reminder with a time that is not "HH:MM". *)
Definition bad_pill : Reminder := with_time pill "9am".

(** A store that holds the reminders [rs], and answers the update made
    at suspension [k] with [updates k]. *)
Definition serving (rs : list Reminder)
                   (updates : nat -> reply (option Reminder))
                   (now : datetime) : Env :=
  mkEnv (fun _ => now) (Returns tt) (fun _ _ _ => Returns rs)
        (fun k _ _ => updates k) (fun _ => []).

Definition updates_ok : nat -> reply (option Reminder) :=
  fun _ => Returns None.

Definition updates_fail : nat -> reply (option Reminder) :=
  fun _ => Fails (StoreError 503).

(** A store that fails on every call, under a clock that stands still,
    with no control request coming in. *)
Definition broken (now : datetime) : Env :=
  mkEnv (fun _ => now) (Returns tt)
        (fun _ _ _ => Fails (StoreError 503))
        (fun _ _ _ => Fails (StoreError 503)) (fun _ => []).

(** The same world as [frozen], but for a [stop] request that is served
    during the task's third suspension (counted from 0): its first
    sleep. *)
Definition stopping (now : datetime) : Env :=
  mkEnv (fun _ => now) (Returns tt) (fun _ _ _ => Returns [])
        (fun _ _ _ => Returns None)
        (fun k => match k with 2%nat => [ReqStop] | _ => [] end).

(** The state in which the task made by the first [start] takes its
    first turn of the loop. *)
Definition running_state : State := mkState started 0 1 [].

(** A store that holds the reminders [rs] and answers every update,
    under a clock that shows [first] when read for the first time and
    [later] from then on. *)
Definition ticking (first later : datetime) (rs : list Reminder) : Env :=
  mkEnv (fun k => match k with O => first | S _ => later end)
        (Returns tt) (fun _ _ _ => Returns rs)
        (fun _ _ _ => Returns None) (fun _ => []).

(** Tuesday 3 November 2026, 23:59:59, and the midnight that follows. *)
Definition late : datetime := at_time 23 59 59.

Definition midnight : datetime := mkDatetime 2026 11 4 0 0 0 0.

(** A reminder at 23:59 that has fired on 3 November already, at
    23:58:59, within its window. *)
Definition night_pill : Reminder :=
  mkReminder "r3" "u1" "Night pill" "23:59" true false None None
             (Some (at_time 23 58 59)).

End Fixtures.

(* ===================================================================== *)
(** ** [datetime.now() + timedelta(minutes=...)] and [isoformat()]        *)
(* ===================================================================== *)

Module Calendar.

Definition MAXORDINAL : Z := 3652059.

Definition DAYS_IN_MONTH : list Z :=
  [-1; 31; 28; 31; 30; 31; 30; 31; 31; 30; 31; 30; 31].

Definition DAYS_BEFORE_MONTH : list Z :=
  [-1; 0; 31; 59; 90; 120; 151; 181; 212; 243; 273; 304; 334].

Definition table (t : list Z) (i : Z) : Z := nth (Z.to_nat i) t 0.

Definition flag (b : bool) : Z := if b then 1 else 0.

(** The end of [_ord2ymd]: month and day from the leap flag and the
    0-based day of the year. *)
Definition month_day (leapyear : bool) (n : Z) : Z * Z :=
  let month := Z.shiftr (n + 50) 5 in
  let preceding :=
    table DAYS_BEFORE_MONTH month + flag ((month >? 2) && leapyear) in
  if preceding >? n then
    let month' := month - 1 in
    let preceding' :=
      preceding - (table DAYS_IN_MONTH month'
                   + flag ((month' =? 2) && leapyear)) in
    (month', n - preceding' + 1)
  else (month, n - preceding + 1).

(** [date.fromordinal(n)], that is [_ord2ymd(n)]. *)
Definition fromordinal (ordinal : Z) : date :=
  let n := ordinal - 1 in
  let n400 := n / 146097 in
  let n := n mod 146097 in
  let n100 := n / 36524 in
  let n := n mod 36524 in
  let n4 := n / 1461 in
  let n := n mod 1461 in
  let n1 := n / 365 in
  let n := n mod 365 in
  let year := n400 * 400 + 1 + n100 * 100 + n4 * 4 + n1 in
  if (n1 =? 4) || (n100 =? 4) then mkDate (year - 1) 12 31
  else
    let leapyear := (n1 =? 3) && (negb (n4 =? 24) || (n100 =? 3)) in
    let md := month_day leapyear n in
    mkDate year (fst md) (snd md).

(** [now + timedelta(minutes=minutes)]; [None] stands for the
    [OverflowError] that the construction of the [timedelta] or the
    addition raises when the result is out of range. *)
Definition add_minutes (now : datetime) (minutes : Z) : option datetime :=
  let delta_days := (minutes * 60) / 86400 in
  let delta_seconds := (minutes * 60) mod 86400 in
  if Z.abs delta_days >? 999999999 then None else
  let seconds := hour now * 3600 + minute now * 60 + second now
                 + delta_seconds in
  let days := Datetime.toordinal (Datetime.date_of now) + delta_days
              + seconds / 86400 in
  let seconds := seconds mod 86400 in
  if (0 <? days) && (days <=? MAXORDINAL) then
    let d := fromordinal days in
    Some (mkDatetime (d_year d) (d_month d) (d_day d)
                     (seconds / 3600) ((seconds mod 3600) / 60)
                     (seconds mod 60) (microsecond now))
  else None.

(** ["%0<width>d" % n] for [n >= 0]. *)
Definition pad (width : nat) (n : Z) : string :=
  let s := NilZero.string_of_int (Z.to_int n) in
  (string_of_list_ascii (repeat "0"%char (width - String.length s)%nat)
   ++ s)%string.

(** [dt.isoformat()] *)
Definition isoformat (dt : datetime) : string :=
  (pad 4 (year dt) ++ "-" ++ pad 2 (month dt) ++ "-" ++ pad 2 (day dt)
   ++ "T" ++ pad 2 (hour dt) ++ ":" ++ pad 2 (minute dt) ++ ":"
   ++ pad 2 (second dt)
   ++ (if (microsecond dt =? 0)%Z then ""
       else "." ++ pad 6 (microsecond dt)))%string.

(** The dates and times [datetime] can hold. *)
Definition valid_date (d : date) : Prop :=
  1 <= d_year d <= 9999 /\ 1 <= d_month d <= 12
  /\ 1 <= d_day d <= Datetime.days_in_month (d_year d) (d_month d).

Definition valid (dt : datetime) : Prop :=
  valid_date (Datetime.date_of dt)
  /\ 0 <= hour dt < 24 /\ 0 <= minute dt < 60 /\ 0 <= second dt < 60
  /\ 0 <= microsecond dt < 1000000.

(** [a < b] on dates and on datetimes, field by field. *)
Definition date_fields (d : date) : list Z := [d_year d; d_month d; d_day d].

End Calendar.

(* ===================================================================== *)
(** ** The request handlers                                               *)
(* ===================================================================== *)

(** Modelled from the spec: the request bodies of [database/models.py],
    which are not part of the sources at hand.  A [ReminderUpdate] built
    in this file sets [snooze_until] or [last_triggered]; one that comes
    in with a request, like a [ReminderCreate], is an opaque body. *)
Inductive ReminderUpdate : Type :=
| SetSnoozeUntil (until : datetime)
| SetLastTriggered (triggered : datetime)
| UpdateBody (body : string).

Inductive ReminderCreate : Type :=
| CreateBody (body : string).

(** [MedicationLogCreate(user_id=..., medication_id=..., taken_at=...,
    scheduled_time=..., status=...)], with the fields the source passes. *)
Record MedicationLogCreate : Type := mkMedicationLog {
  log_user_id : string;
  log_medication_id : string;
  log_taken_at : datetime;
  log_scheduled_time : string;
  log_status : string
}.

(** What a handler can raise: an [HTTPException], another exception
    (one of the store's or of the due-rule's, or the [OverflowError] of the
    date arithmetic), or a cancellation, which is not an [Exception]. *)
Inductive failure : Type :=
| Builtin (e : exception)
| OverflowError.

Inductive raised : Type :=
| HTTPException (status_code : Z) (detail : string)
| Uncaught (e : failure)
| Cancellation.

Inductive houtcome (A : Type) : Type :=
| Returned (a : A)
| Raised (r : raised).
Arguments Returned {A} a.
Arguments Raised {A} r.

Inductive store_call : Type :=
| GetReminders (user : string) (active_only : bool)
| AddReminder (reminder : ReminderCreate)
| UpdateReminder (reminder_id : string) (update : ReminderUpdate)
| DeleteReminder (reminder_id : string)
| AddMedicationLog (entry : MedicationLogCreate).

(** What a handler does that can be observed besides its answer: the
    calls to the store and the log lines ([logger.error(f"<text>{e}")],
    [logger.warning(f"<text>{e}")], [logger.info(text)]). *)
Inductive hevent : Type :=
| Call (c : store_call)
| LogErrorLine (text : string) (e : raised)
| LogWarningLine (text : string) (e : raised)
| LogInfoLine (text : string).

(** The store as the handlers use it: the world of the monitor task (its
    clock and its [get_reminders]) and the answers of the other methods
    of [DatabaseService] to the call made at the k-th suspension. *)
Record Store : Type := mkStore {
  world : Env;
  add_reminder_reply : nat -> ReminderCreate -> reply Reminder;
  update_reminder_reply : nat -> string -> ReminderUpdate
                          -> reply (option Reminder);
  delete_reminder_reply : nat -> string -> reply bool;
  add_medication_log_reply : nat -> MedicationLogCreate -> reply unit
}.

Record HState : Type := mkHState {
  core : State;
  hlog : list hevent
}.

Definition H (A : Type) : Type := Store -> HState -> houtcome A * HState.

Definition hret {A} (a : A) : H A := fun _ hst => (Returned a, hst).

Definition hraise {A} (r : raised) : H A := fun _ hst => (Raised r, hst).

Definition hbind {A B} (m : H A) (k : A -> H B) : H B :=
  fun s hst =>
    match m s hst with
    | (Returned a, hst') => k a s hst'
    | (Raised r, hst') => (Raised r, hst')
    end.

Declare Scope handler_scope.
Delimit Scope handler_scope with handler.
Notation "x <-- m ;; k" := (hbind m (fun x => k))
  (at level 61, m at next level, right associativity) : handler_scope.
Notation "m ;;; k" := (hbind m (fun _ => k))
  (at level 61, right associativity) : handler_scope.
Local Open Scope handler_scope.

(** A computation of the due-rule's monad, run inside a handler. *)
Definition lift {A} (m : M A) : H A :=
  fun s hst =>
    match m (world s) (core hst) with
    | (Val a, st) => (Returned a, mkHState st (hlog hst))
    | (Raise e, st) => (Raised (Uncaught (Builtin e)), mkHState st (hlog hst))
    | (Cancelled, st) => (Raised Cancellation, mkHState st (hlog hst))
    end.

Definition record (e : hevent) : H unit :=
  fun _ hst => (Returned tt, mkHState (core hst) (hlog hst ++ [e])).

(** The handler is suspended at an [await]: the event loop serves the
    control requests that come in meanwhile.  The value is the index of
    the suspension. *)
Definition hsuspend : H nat :=
  fun s hst =>
    let st := core hst in
    let k := awaits st in
    (Returned k,
     mkHState (mkState (serve_all (requests (world s) k) (monitor st))
                       (reads st) (S k) (trace st))
              (hlog hst)).

Definition hreply {A} (r : reply A) : H A :=
  match r with
  | Returns a => hret a
  | Fails e => hraise (Uncaught (Builtin e))
  end.

(** [await db.<method>(...)] *)
Definition db_call {A} (c : store_call) (answer : Store -> nat -> reply A)
  : H A :=
  record (Call c) ;;;
  k <-- hsuspend ;;
  fun s => hreply (answer s k) s.

Section Handlers.

(** [str(e)]: the text of an exception is not modelled. *)
Variable describe : raised -> string.

(** [try: body
     except Exception as e:
         logger.error(f"<text>{e}")
         raise HTTPException(status_code=500, detail=str(e))] *)
Definition try_500 {A} (text : string) (body : H A) : H A :=
  fun s hst =>
    match body s hst with
    | (Raised Cancellation, hst') => (Raised Cancellation, hst')
    | (Raised r, hst') =>
        (record (LogErrorLine text r) ;;;
         hraise (HTTPException 500 (describe r))) s hst'
    | other => other
    end.

(** The same with [except HTTPException: raise] in front. *)
Definition try_http_500 {A} (text : string) (body : H A) : H A :=
  fun s hst =>
    match body s hst with
    | (Raised (Uncaught e), hst') =>
        (record (LogErrorLine text (Uncaught e)) ;;;
         hraise (HTTPException 500 (describe (Uncaught e)))) s hst'
    | other => other
    end.

(** [if not x: raise HTTPException(status_code=404, detail="Reminder not found")] *)
Definition found {A} (x : option A) : H A :=
  match x with
  | Some a => hret a
  | None => hraise (HTTPException 404 "Reminder not found")
  end.

Definition get_reminders (user : string) (active_only : bool)
  : H (list Reminder) :=
  try_500 "Error getting reminders: "
    (db_call (GetReminders user active_only)
       (fun s k => store_get_reminders (world s) k user active_only)).

Definition create_reminder (reminder : ReminderCreate) : H Reminder :=
  try_500 "Error creating reminder: "
    (db_call (AddReminder reminder)
       (fun s k => add_reminder_reply s k reminder)).

Definition update_reminder (reminder_id : string)
                           (reminder_update : ReminderUpdate) : H Reminder :=
  try_http_500 "Error updating reminder: "
    (updated_reminder <--
       db_call (UpdateReminder reminder_id reminder_update)
         (fun s k => update_reminder_reply s k reminder_id reminder_update) ;;
     found updated_reminder).

Definition delete_reminder (reminder_id : string) : H string :=
  try_http_500 "Error deleting reminder: "
    (success <--
       db_call (DeleteReminder reminder_id)
         (fun s k => delete_reminder_reply s k reminder_id) ;;
     if success : bool then hret "Reminder deleted successfully"
     else hraise (HTTPException 404 "Reminder not found")).

Definition get_due_reminders (user : string) : H (list Reminder) :=
  try_500 "Error getting due reminders: "
    (now <-- lift datetime_now ;;
     let current_time := Datetime.strftime_HM now in
     let current_day := Datetime.strftime_A now in
     all_reminders <--
       db_call (GetReminders user true)
         (fun s k => store_get_reminders (world s) k user true) ;;
     lift (collect_due all_reminders current_time current_day [])).

(** [datetime.now() + timedelta(minutes=minutes)] *)
Definition snooze_instant (minutes : Z) : H datetime :=
  now <-- lift datetime_now ;;
  match Calendar.add_minutes now minutes with
  | Some until => hret until
  | None => hraise (Uncaught OverflowError)
  end.

(** The answer is the pair of ["message"] and ["snooze_until"]. *)
Definition snooze_reminder (reminder_id : string) (minutes : Z)
  : H (string * string) :=
  try_http_500 "Error snoozing reminder: "
    (snooze_until <-- snooze_instant minutes ;;
     let reminder_update := SetSnoozeUntil snooze_until in
     updated_reminder <--
       db_call (UpdateReminder reminder_id reminder_update)
         (fun s k => update_reminder_reply s k reminder_id reminder_update) ;;
     _ <-- found updated_reminder ;;
     hret (("Reminder snoozed for "
            ++ NilZero.string_of_int (Z.to_int minutes) ++ " minutes")%string,
           Calendar.isoformat snooze_until)).

(** [if medication_id:] an absent or empty identifier is falsy. *)
Definition truthy (medication_id : option string) : option string :=
  match medication_id with
  | Some EmptyString => None
  | other => other
  end.

(** The inner [try] of [complete_reminder]: the medication log is
    written, and a failure to write it is a warning. *)
Definition log_medication (reminder_id : string) (medication_id : string)
                          (owner : string) (now : datetime) : H unit :=
  fun s hst =>
    match (db_call (AddMedicationLog
                      (mkMedicationLog owner medication_id now
                                       (Datetime.strftime_HM now) "taken"))
             (fun s k => add_medication_log_reply s k
                           (mkMedicationLog owner medication_id now
                                            (Datetime.strftime_HM now) "taken")) ;;;
           record (LogInfoLine ("Medication log created for reminder "
                                ++ reminder_id)%string)) s hst with
    | (Raised Cancellation, hst') => (Raised Cancellation, hst')
    | (Raised r, hst') =>
        record (LogWarningLine "Failed to create medication log: " r) s hst'
    | other => other
    end.

(** The answer is the pair of ["message"] and ["completed_at"]. *)
Definition complete_reminder (reminder_id : string)
                             (medication_id : option string)
  : H (string * string) :=
  try_http_500 "Error completing reminder: "
    (now <-- lift datetime_now ;;
     let reminder_update := SetLastTriggered now in
     updated <--
       db_call (UpdateReminder reminder_id reminder_update)
         (fun s k => update_reminder_reply s k reminder_id reminder_update) ;;
     updated_reminder <-- found updated ;;
     match truthy medication_id with
     | Some medication =>
         log_medication reminder_id medication (user_id updated_reminder) now
     | None => hret tt
     end ;;;
     hret ("Reminder marked as completed", Calendar.isoformat now)).

End Handlers.

(** [l] is [rs] with some elements left out. *)
Inductive subsequence {A} : list A -> list A -> Prop :=
| subsequence_nil : subsequence [] []
| subsequence_skip (x : A) (l rs : list A) :
    subsequence l rs -> subsequence l (x :: rs)
| subsequence_keep (x : A) (l rs : list A) :
    subsequence l rs -> subsequence (x :: l) (x :: rs).

(** The tables of [_ord2ymd] with the leap day added, as [toordinal]
    and [fromordinal] use them. *)
Definition dbm (leap : bool) (m : Z) : Z :=
  Calendar.table Calendar.DAYS_BEFORE_MONTH m
  + Calendar.flag ((m >? 2) && leap).

Definition dim (leap : bool) (m : Z) : Z :=
  Calendar.table Calendar.DAYS_IN_MONTH m
  + Calendar.flag ((m =? 2) && leap).

(** What the end of [_ord2ymd] has to deliver for day [n] of a year. *)
Definition month_day_ok (leap : bool) (n : Z) : bool :=
  let md := Calendar.month_day leap n in
  (1 <=? fst md) && (fst md <=? 12) && (1 <=? snd md)
  && (snd md <=? dim leap (fst md))
  && (dbm leap (fst md) + snd md =? n + 1).

(** The instant of a datetime, in microseconds since the start of the
    day before 1 January of year 1. *)
Definition stamp (dt : datetime) : Z :=
  (Datetime.toordinal (Datetime.date_of dt) * 86400
   + hour dt * 3600 + minute dt * 60 + second dt) * 1000000
  + microsecond dt.

(** The state of the process when a handler that was suspended in [hst]
    is resumed. *)
Definition resumed (s : Store) (hst : HState) : State :=
  mkState (serve_all (requests (world s) (awaits (core hst)))
                     (monitor (core hst)))
          (reads (core hst)) (S (awaits (core hst))) (trace (core hst)).

Module HandlerFixtures.

Definition describe (r : raised) : string :=
  match r with
  | HTTPException _ d => d
  | Uncaught (Builtin ValueError) => "not enough values to unpack"
  | Uncaught (Builtin (StoreError _)) => "store error"
  | Uncaught (Builtin FloatOverflowError) => "int too large to convert to float"
  | Uncaught OverflowError => "date value out of range"
  | Cancellation => ""
  end.

(** A store over the world [w] in which [update_reminder] answers
    [updates] and [add_medication_log] answers [logs]; [add_reminder]
    fails and [delete_reminder] finds nothing. *)
Definition store (w : Env) (updates : reply (option Reminder))
                 (logs : reply unit) : Store :=
  mkStore w (fun _ _ => Fails (StoreError 503)) (fun _ _ _ => updates)
          (fun _ _ => Returns false) (fun _ _ => logs).

Definition fresh : HState := mkHState initial_state [].

(** A world whose [DatabaseService()] fails. *)
Definition no_database : Env :=
  mkEnv (fun _ => Fixtures.nine) (Fails (StoreError 1))
        (fun _ _ _ => Returns []) (fun _ _ _ => Returns None) (fun _ => []).

End HandlerFixtures.

(* ===================================================================== *)
(** ** Sanity checks of the embedding                                     *)
(* ===================================================================== *)

Example split_hm : PyStr.split ":" "09:05" = ["09"; "05"].
Proof. reflexivity. Qed.
Example int_examples :
  map PyStr.int ["09"; " 7 "; "-3"; "+5"; "1_0"; "0_9"; ""; " "; "1__0"; "_1";
                 "1_"; "9a"; "+ 1"; "+-5"; "5 5"; "0x1f"; "1.0"]
  = [Some 9; Some 7; Some (-3); Some 5; Some 10; Some 9; None; None; None;
     None; None; None; None; None; None; None; None].
Proof. reflexivity. Qed.
Example int_whitespace :
  PyStr.int (String (ascii_of_nat 9) (String "5" (String (ascii_of_nat 10) "")))
  = Some 5
  /\ PyStr.int (String (ascii_of_nat 11) (String "5" (String (ascii_of_nat 12) "")))
     = Some 5
  /\ PyStr.int (String (ascii_of_nat 28) "5") = None.
Proof. repeat split; reflexivity. Qed.
Example toordinal_example :
  Datetime.toordinal (mkDate 1 1 1) = 1
  /\ Datetime.toordinal (mkDate 2026 11 3) = 739923.
Proof. split; reflexivity. Qed.
Example weekday_example :
  Datetime.strftime_A (mkDatetime 2026 11 3 9 0 0 0) = "Tuesday"
  /\ Datetime.strftime_A (mkDatetime 2024 2 29 9 0 0 0) = "Thursday"
  /\ Datetime.strftime_HM (mkDatetime 2026 11 3 9 5 0 0) = "09:05".
Proof. repeat split; reflexivity. Qed.

Example unpack_examples :
  map unpack_hour_minute ["09:00"; "9:5"; " 9 : 05 "; "-1:61"; "09:00:00";
                          "0900"; "ab:cd"; ":"; "9am"]
  = [Some (9, 0); Some (9, 5); Some (9, 5); Some (-1, 61); None; None; None;
     None; None].
Proof. reflexivity. Qed.

(* ===================================================================== *)
(** ** Facts about the due-rule                                           *)
(* ===================================================================== *)

(** [strftime("%H:%M")] of a valid time reads back as its hour and
    minute. *)
Lemma unpack_strftime (now : datetime) :
  Datetime.valid_time now ->
  unpack_hour_minute (Datetime.strftime_HM now) = Some (hour now, minute now).
Proof.
  intros [Hh Hm].
  assert (Hall : forallb (fun h => forallb (fun m =>
            match unpack_hour_minute
                    (Datetime.strftime_HM
                       (mkDatetime 1 1 1 (Z.of_nat h) (Z.of_nat m) 0 0)) with
            | Some (h', m') => (h' =? Z.of_nat h) && (m' =? Z.of_nat m)
            | None => false
            end) (seq 0 60)) (seq 0 24) = true) by (vm_compute; reflexivity).
  rewrite forallb_forall in Hall.
  specialize (Hall (Z.to_nat (hour now))).
  rewrite in_seq in Hall. specialize (Hall ltac:(lia)).
  rewrite forallb_forall in Hall.
  specialize (Hall (Z.to_nat (minute now))).
  rewrite in_seq in Hall. specialize (Hall ltac:(lia)).
  rewrite !Z2Nat.id in Hall by lia.
  unfold Datetime.strftime_HM in *. cbn [hour minute] in Hall.
  destruct (unpack_hour_minute _) as [[h' m']|]; [|discriminate].
  apply andb_true_iff in Hall. destruct Hall as [H1 H2].
  apply Z.eqb_eq in H1, H2. congruence.
Qed.

(** The function, flattened: what it returns and how often it has read
    the clock. *)
Lemma is_reminder_due_eq (r : Reminder) (ct cd : string) (env : Env) (st : State) :
  is_reminder_due r ct cd env st =
  if negb (is_active r) then (Val false, st) else
  let st1 := match snooze_until r with
             | Some _ => clock_read 1 st
             | None => st
             end in
  let snoozed := match snooze_until r with
                 | Some until => Datetime.gtb until (clock env (reads st))
                 | None => false
                 end in
  if snoozed then (Val false, st1) else
  match unpack_hour_minute (reminder_time r), unpack_hour_minute ct with
  | Some rt, Some c =>
      if time_diff (fst c) (snd c) (fst rt) (snd rt) >? 1 then (Val false, st1)
      else if match has_days r with
              | Some days => negb (day_in cd days)
              | None => false
              end
      then (Val false, st1)
      else match last_triggered r with
           | Some triggered =>
               (Val (negb (Datetime.date_eqb (Datetime.date_of triggered)
                             (Datetime.date_of (today_reading r env st)))),
                clock_read 1 st1)
           | None => (Val true, st1)
           end
  | _, _ => (Raise ValueError, st1)
  end.
Proof.
  unfold is_reminder_due, today_reading, hour_minute.
  destruct (is_active r); cbn [negb]; [|reflexivity].
  destruct (snooze_until r) as [until|];
    unfold bind, ret, raise, datetime_now, clock_read; cbn.
  - destruct (Datetime.gtb until (clock env (reads st))); [reflexivity|].
    destruct (unpack_hour_minute (reminder_time r)) as [[rh rm]|];
      [|reflexivity].
    destruct (unpack_hour_minute ct) as [[ch cm]|]; [|reflexivity].
    cbn [fst snd].
    destruct (time_diff _ _ _ _ >? 1); [reflexivity|].
    destruct (match has_days r with Some _ => _ | None => _ end); [reflexivity|].
    destruct (last_triggered r) as [t|]; [|reflexivity].
    cbn. destruct (Datetime.date_eqb _ _); reflexivity.
  - destruct (unpack_hour_minute (reminder_time r)) as [[rh rm]|];
      [|reflexivity].
    destruct (unpack_hour_minute ct) as [[ch cm]|]; [|reflexivity].
    cbn [fst snd].
    destruct (time_diff _ _ _ _ >? 1); [reflexivity|].
    destruct (match has_days r with Some _ => _ | None => _ end); [reflexivity|].
    destruct (last_triggered r) as [t|]; [|destruct st; reflexivity].
    cbn. destruct (Datetime.date_eqb _ _); reflexivity.
Qed.

(** Whatever it returns, [is_reminder_due] only reads the clock, at most
    twice. *)
Lemma is_reminder_due_state (r : Reminder) (ct cd : string) (env : Env) (st : State) :
  exists n, (n <= 2)%nat /\ snd (is_reminder_due r ct cd env st) = clock_read n st.
Proof.
  rewrite is_reminder_due_eq.
  assert (H0 : st = clock_read 0 st) by (destruct st; reflexivity).
  assert (H2 : forall s, clock_read 1 (clock_read 1 s) = clock_read 2 s)
    by reflexivity.
  destruct (negb (is_active r)); [exists 0%nat; split; [lia|exact H0]|].
  cbv zeta.
  destruct (snooze_until r) as [until|].
  - destruct (Datetime.gtb _ _); [exists 1%nat; split; [lia|reflexivity]|].
    destruct (unpack_hour_minute (reminder_time r)) as [rt|];
      [|exists 1%nat; split; [lia|reflexivity]].
    destruct (unpack_hour_minute ct) as [c|];
      [|exists 1%nat; split; [lia|reflexivity]].
    destruct (_ >? 1); [exists 1%nat; split; [lia|reflexivity]|].
    destruct (match has_days r with Some _ => _ | None => _ end);
      [exists 1%nat; split; [lia|reflexivity]|].
    destruct (last_triggered r);
      [exists 2%nat|exists 1%nat]; split; try lia; reflexivity.
  - destruct (unpack_hour_minute (reminder_time r)) as [rt|];
      [|exists 0%nat; split; [lia|exact H0]].
    destruct (unpack_hour_minute ct) as [c|];
      [|exists 0%nat; split; [lia|exact H0]].
    destruct (_ >? 1); [exists 0%nat; split; [lia|exact H0]|].
    destruct (match has_days r with Some _ => _ | None => _ end);
      [exists 0%nat; split; [lia|exact H0]|].
    destruct (last_triggered r);
      [exists 1%nat|exists 0%nat]; split; try lia; try reflexivity; exact H0.
Qed.

(** C1.  [is_reminder_due] answers true only if the reminder time and the
    current time both read as hour and minute and their distance in
    minutes since midnight, taken as a plain absolute difference, is at
    most 1; this holds in particular for the "HH:MM" text of an instant
    [now].  "09:00" against "09:01" is a distance of 1 and the reminder
    is due, against "09:02" it is 2 and the reminder is not due; nothing
    is corrected across midnight: "23:59" against "00:00" is 1439 minutes
    apart and not due. *)
Theorem is_reminder_due_time_window :
  (forall (r : Reminder) (ct cd : string) (env : Env) (st : State),
      fst (is_reminder_due r ct cd env st) = Val true ->
      exists rh rm ch cm,
        unpack_hour_minute (reminder_time r) = Some (rh, rm)
        /\ unpack_hour_minute ct = Some (ch, cm)
        /\ Z.abs ((ch * 60 + cm) - (rh * 60 + rm)) <= 1)
  /\ (forall (r : Reminder) (now : datetime) (cd : string) (env : Env) (st : State),
      Datetime.valid_time now ->
      fst (is_reminder_due r (Datetime.strftime_HM now) cd env st) = Val true ->
      exists rh rm,
        unpack_hour_minute (reminder_time r) = Some (rh, rm)
        /\ Z.abs ((hour now * 60 + minute now) - (rh * 60 + rm)) <= 1)
  /\ (forall (r : Reminder) (cd : string) (env : Env) (st : State),
      reminder_time r = "09:00" -> is_active r = true ->
      snooze_until r = None ->
      (has_days r = None -> last_triggered r = None ->
       is_reminder_due r "09:01" cd env st = (Val true, st))
      /\ is_reminder_due r "09:02" cd env st = (Val false, st))
  /\ (time_diff 9 1 9 0 = 1 /\ time_diff 9 2 9 0 = 2
      /\ time_diff 0 0 23 59 = 1439)
  /\ (forall (r : Reminder) (cd : string) (env : Env) (st : State),
      reminder_time r = "23:59" ->
      fst (is_reminder_due r "00:00" cd env st) <> Val true).
Proof.
  assert (General : forall r ct cd env st,
      fst (is_reminder_due r ct cd env st) = Val true ->
      exists rh rm ch cm,
        unpack_hour_minute (reminder_time r) = Some (rh, rm)
        /\ unpack_hour_minute ct = Some (ch, cm)
        /\ Z.abs ((ch * 60 + cm) - (rh * 60 + rm)) <= 1).
  { intros r ct cd env st. rewrite is_reminder_due_eq.
    destruct (negb (is_active r)); [discriminate|]. cbv zeta.
    destruct (match snooze_until r with Some _ => _ | None => false end);
      [discriminate|].
    destruct (unpack_hour_minute (reminder_time r)) as [[rh rm]|];
      [|discriminate].
    destruct (unpack_hour_minute ct) as [[ch cm]|]; [|discriminate].
    cbn [fst snd]. unfold time_diff.
    destruct (Z.abs _ >? 1) eqn:E; [discriminate|].
    intros _. exists rh, rm, ch, cm. repeat split.
    rewrite Z.gtb_ltb in E. apply Z.ltb_ge in E. exact E. }
  split; [exact General|].
  split.
  { intros r now cd env st Hv H.
    destruct (General _ _ _ _ _ H) as (rh & rm & ch & cm & Hr & Hc & Hd).
    rewrite (unpack_strftime now Hv) in Hc. inversion Hc; subst.
    exists rh, rm. split; assumption. }
  split.
  { intros r cd env st Ht Ha Hs. split.
    - intros Hd Hl. rewrite is_reminder_due_eq, Ht, Ha, Hs, Hd, Hl. reflexivity.
    - rewrite is_reminder_due_eq, Ht, Ha, Hs. reflexivity. }
  split; [repeat split|].
  intros r cd env st Ht H.
  destruct (General _ _ _ _ _ H) as (rh & rm & ch & cm & Hr & Hc & Hd).
  rewrite Ht in Hr. vm_compute in Hr, Hc. inversion Hr; inversion Hc; subst.
  vm_compute in Hd. apply Hd. reflexivity.
Qed.

Lemma is_reminder_due_time_window_witness :
  Datetime.valid_time Fixtures.nine
  /\ fst (is_reminder_due Fixtures.pill (Datetime.strftime_HM Fixtures.nine)
            "Tuesday" (Fixtures.frozen Fixtures.nine) initial_state) = Val true
  /\ exists rh rm,
      unpack_hour_minute (reminder_time Fixtures.pill) = Some (rh, rm)
      /\ Z.abs ((hour Fixtures.nine * 60 + minute Fixtures.nine)
                - (rh * 60 + rm)) <= 1.
Proof.
  assert (Hv : Datetime.valid_time Fixtures.nine)
    by (unfold Datetime.valid_time; simpl; lia).
  assert (Hd : fst (is_reminder_due Fixtures.pill
                      (Datetime.strftime_HM Fixtures.nine) "Tuesday"
                      (Fixtures.frozen Fixtures.nine) initial_state) = Val true)
    by reflexivity.
  split; [exact Hv|]. split; [exact Hd|].
  exact (proj1 (proj2 is_reminder_due_time_window)
           Fixtures.pill Fixtures.nine "Tuesday"
           (Fixtures.frozen Fixtures.nine) initial_state Hv Hd).
Defined.

(** C5, as claimed, fails.  The reminder is snoozed until 09:00:30, which
    is strictly after the captured instant [now], 09:00:00; evaluated for
    that [now] while the clock shows 09:00:40, it is due.  A tick of the
    monitor that captures [now] at 09:00:00 and evaluates the reminder
    forty seconds later notifies and updates it. *)
Lemma snoozed_after_now_yet_due :
  snooze_until Fixtures.snoozed_pill = Some (Fixtures.at_time 9 0 30)
  /\ Datetime.gtb (Fixtures.at_time 9 0 30) Fixtures.nine = true
  /\ fst (is_reminder_due Fixtures.snoozed_pill
            (Datetime.strftime_HM Fixtures.nine)
            (Datetime.strftime_A Fixtures.nine)
            (Fixtures.frozen (Fixtures.at_time 9 0 40)) initial_state)
     = Val true
  /\ iteration 0 "u1" 60
       (Fixtures.ticking Fixtures.nine (Fixtures.at_time 9 0 40)
                         [Fixtures.snoozed_pill])
       Fixtures.running_state
     = (Val tt,
        mkState Fixtures.started 2 4
          [LogChecking "09:00" "Tuesday"; CallGetReminders "u1" true;
           LogFound 1; LogDue "Pill" "09:00";
           CallUpdateReminder "r1" Fixtures.nine; Sleep 60]).
Proof. repeat split; reflexivity. Qed.

(** C5, amended.  A reminder whose [snooze_until] is strictly after the
    instant the snooze check itself reads from the clock is not due,
    whatever its other fields (time, recurrence, [last_triggered], even a
    time that cannot be read) and whatever the current time and day
    passed in. *)
Theorem is_reminder_due_snoozed
  (r : Reminder) (ct cd : string) (env : Env) (st : State) (until : datetime) :
  snooze_until r = Some until ->
  Datetime.gtb until (clock env (reads st)) = true ->
  fst (is_reminder_due r ct cd env st) = Val false.
Proof.
  intros Hs Hgt. rewrite is_reminder_due_eq, Hs. cbv zeta. rewrite Hgt.
  destruct (negb (is_active r)); reflexivity.
Qed.

Lemma is_reminder_due_snoozed_witness :
  fst (is_reminder_due
         (Fixtures.with_snooze Fixtures.pill (Fixtures.at_time 9 30 0))
         "09:00" "Tuesday" (Fixtures.frozen Fixtures.nine) initial_state)
  = Val false.
Proof.
  apply (is_reminder_due_snoozed
           (Fixtures.with_snooze Fixtures.pill (Fixtures.at_time 9 30 0))
           "09:00" "Tuesday" (Fixtures.frozen Fixtures.nine) initial_state
           (Fixtures.at_time 9 30 0)); reflexivity.
Defined.

Lemma day_in_In (cd : string) (days : list string) :
  day_in cd days = true <-> In cd days.
Proof.
  unfold day_in. rewrite existsb_exists. split.
  - intros (x & Hin & Heq). apply String.eqb_eq in Heq. now subst.
  - intros Hin. exists cd. split; [assumption|apply String.eqb_refl].
Qed.

(** C6.  For a recurring reminder with a non-empty [days_of_week], the
    answer is true only if the current weekday name is one of them; for a
    reminder that is not recurring, or whose [days_of_week] is unset or
    empty, the current day plays no part in the answer, and the reminder
    is due on every day once the other checks pass. *)
Theorem is_reminder_due_weekday :
  (forall (r : Reminder) (ct cd : string) (env : Env) (st : State)
          (days : list string),
      is_recurring r = true -> days_of_week r = Some days -> days <> [] ->
      fst (is_reminder_due r ct cd env st) = Val true ->
      In cd days)
  /\ (forall (r : Reminder) (ct cd cd' : string) (env : Env) (st : State),
      is_recurring r = false \/ days_of_week r = None
      \/ days_of_week r = Some [] ->
      is_reminder_due r ct cd env st = is_reminder_due r ct cd' env st)
  /\ (forall (r : Reminder) (ct cd : string) (env : Env) (st : State) rh rm ch cm,
      is_recurring r = false \/ days_of_week r = None
      \/ days_of_week r = Some [] ->
      is_active r = true -> snooze_until r = None -> last_triggered r = None ->
      unpack_hour_minute (reminder_time r) = Some (rh, rm) ->
      unpack_hour_minute ct = Some (ch, cm) ->
      Z.abs ((ch * 60 + cm) - (rh * 60 + rm)) <= 1 ->
      is_reminder_due r ct cd env st = (Val true, st)).
Proof.
  assert (NoDays : forall r,
      is_recurring r = false \/ days_of_week r = None
      \/ days_of_week r = Some [] -> has_days r = None).
  { intros r [H|[H|H]]; unfold has_days; rewrite H;
      [reflexivity| |]; destruct (is_recurring r); reflexivity. }
  split; [|split].
  - intros r ct cd env st days Hrec Hdays Hne.
    rewrite is_reminder_due_eq.
    destruct (negb (is_active r)); [discriminate|]. cbv zeta.
    destruct (match snooze_until r with Some _ => _ | None => false end);
      [discriminate|].
    destruct (unpack_hour_minute (reminder_time r)); [|discriminate].
    destruct (unpack_hour_minute ct); [|discriminate].
    destruct (_ >? 1); [discriminate|].
    unfold has_days. rewrite Hrec, Hdays.
    destruct days as [|d ds]; [congruence|].
    destruct (day_in cd (d :: ds)) eqn:E; [|discriminate].
    intros _. now apply day_in_In.
  - intros r ct cd cd' env st H.
    rewrite !is_reminder_due_eq, (NoDays r H). reflexivity.
  - intros r ct cd env st rh rm ch cm H Ha Hs Hl Hr Hc Hd.
    rewrite is_reminder_due_eq, (NoDays r H), Ha, Hs, Hl, Hr, Hc.
    cbn. unfold time_diff.
    destruct (Z.abs _ >? 1) eqn:E; [|reflexivity].
    rewrite Z.gtb_ltb in E. apply Z.ltb_lt in E. lia.
Qed.

Lemma is_reminder_due_weekday_witness :
  In "Tuesday" ["Monday"; "Tuesday"]
  /\ is_reminder_due Fixtures.pill "09:01" "Sunday"
       (Fixtures.frozen Fixtures.nine) initial_state
     = (Val true, initial_state).
Proof.
  split.
  - apply (proj1 is_reminder_due_weekday
             (Fixtures.on_days Fixtures.pill ["Monday"; "Tuesday"])
             "09:00" "Tuesday" (Fixtures.frozen Fixtures.nine) initial_state
             ["Monday"; "Tuesday"]);
      [reflexivity|reflexivity|discriminate|reflexivity].
  - apply (proj2 (proj2 is_reminder_due_weekday)
             Fixtures.pill "09:01" "Sunday" (Fixtures.frozen Fixtures.nine)
             initial_state 9 0 9 1);
      [left; reflexivity|reflexivity|reflexivity|reflexivity|reflexivity
      |reflexivity|simpl; lia].
Defined.

Lemma date_eqb_eq (a b : date) : Datetime.date_eqb a b = true <-> a = b.
Proof.
  unfold Datetime.date_eqb. destruct a as [y m d], b as [y' m' d']. cbn.
  rewrite !andb_true_iff, !Z.eqb_eq. split.
  - intros [[-> ->] ->]. reflexivity.
  - intros H. inversion H. auto.
Qed.

(** C4, as claimed, fails.  The reminder, at 23:59, has fired at 23:58:59
    on 3 November; the captured instant [now] is 23:59:59 on 3 November,
    so that [last_triggered] falls on the date of [now]; evaluated for
    that [now] while the clock shows 00:00:00 on 4 November, the reminder
    is due.  A tick of the monitor that captures [now] at 23:59:59 and
    evaluates the reminder one second later notifies and updates it a
    second time. *)
Lemma fired_on_the_date_of_now_yet_due :
  last_triggered Fixtures.night_pill = Some (Fixtures.at_time 23 58 59)
  /\ Datetime.date_of (Fixtures.at_time 23 58 59)
     = Datetime.date_of Fixtures.late
  /\ fst (is_reminder_due Fixtures.night_pill
            (Datetime.strftime_HM Fixtures.late)
            (Datetime.strftime_A Fixtures.late)
            (Fixtures.frozen Fixtures.midnight) initial_state)
     = Val true
  /\ iteration 0 "u1" 60
       (Fixtures.ticking Fixtures.late Fixtures.midnight
                         [Fixtures.night_pill])
       Fixtures.running_state
     = (Val tt,
        mkState Fixtures.started 2 4
          [LogChecking "23:59" "Tuesday"; CallGetReminders "u1" true;
           LogFound 1; LogDue "Night pill" "23:59";
           CallUpdateReminder "r3" Fixtures.late; Sleep 60]).
Proof. repeat split; reflexivity. Qed.

(** C4, amended.  When [last_triggered] is set and falls on the calendar
    date of the instant the already-fired-today check itself reads from
    the clock, the answer is never true: it is false for every current
    time and day, as long as the two times can be read.  When it falls on
    another date than that reading, the check does not weigh in: the
    answer is the one the same reminder gets with [last_triggered] unset,
    that is, the one of the other checks. *)
Theorem is_reminder_due_already_fired :
  (forall (r : Reminder) (ct cd : string) (env : Env) (st : State)
          (triggered : datetime),
      last_triggered r = Some triggered ->
      Datetime.date_of triggered = Datetime.date_of (today_reading r env st) ->
      fst (is_reminder_due r ct cd env st) <> Val true
      /\ (unpack_hour_minute (reminder_time r) <> None ->
          unpack_hour_minute ct <> None ->
          fst (is_reminder_due r ct cd env st) = Val false))
  /\ (forall (r : Reminder) (ct cd : string) (env : Env) (st : State)
          (triggered : datetime),
      last_triggered r = Some triggered ->
      Datetime.date_of triggered <> Datetime.date_of (today_reading r env st) ->
      fst (is_reminder_due r ct cd env st)
      = fst (is_reminder_due (with_last_triggered r None) ct cd env st)).
Proof.
  split.
  - intros r ct cd env st t Hl Hd.
    rewrite is_reminder_due_eq, Hl, Hd.
    assert (E : Datetime.date_eqb (Datetime.date_of (today_reading r env st))
                  (Datetime.date_of (today_reading r env st)) = true)
      by now apply date_eqb_eq.
    rewrite E. cbn [negb].
    destruct (negb (is_active r)); [split; [discriminate|reflexivity]|].
    cbv zeta.
    destruct (match snooze_until r with Some _ => _ | None => false end);
      [split; [discriminate|reflexivity]|].
    destruct (unpack_hour_minute (reminder_time r));
      [|split; [discriminate|congruence]].
    destruct (unpack_hour_minute ct); [|split; [discriminate|congruence]].
    destruct (_ >? 1); [split; [discriminate|reflexivity]|].
    destruct (match has_days r with Some _ => _ | None => _ end);
      split; try discriminate; reflexivity.
  - intros r ct cd env st t Hl Hd.
    rewrite !is_reminder_due_eq, Hl.
    assert (E : Datetime.date_eqb (Datetime.date_of t)
                  (Datetime.date_of (today_reading r env st)) = false).
    { destruct (Datetime.date_eqb _ _) eqn:E; [|reflexivity].
      apply date_eqb_eq in E. contradiction. }
    rewrite E.
    change (is_active (with_last_triggered r None)) with (is_active r).
    change (snooze_until (with_last_triggered r None)) with (snooze_until r).
    change (reminder_time (with_last_triggered r None)) with (reminder_time r).
    change (has_days (with_last_triggered r None)) with (has_days r).
    change (last_triggered (with_last_triggered r None))
      with (@None datetime).
    destruct (negb (is_active r)); [reflexivity|]. cbv zeta.
    destruct (match snooze_until r with Some _ => _ | None => false end);
      [reflexivity|].
    destruct (unpack_hour_minute (reminder_time r)); [|reflexivity].
    destruct (unpack_hour_minute ct); [|reflexivity].
    destruct (_ >? 1); [reflexivity|].
    destruct (match has_days r with Some _ => _ | None => _ end); reflexivity.
Qed.

Lemma is_reminder_due_already_fired_witness :
  fst (is_reminder_due (with_last_triggered Fixtures.pill (Some Fixtures.nine))
         "09:01" "Tuesday" (Fixtures.frozen (Fixtures.at_time 9 1 0))
         initial_state) = Val false
  /\ fst (is_reminder_due
            (with_last_triggered Fixtures.pill (Some Fixtures.yesterday))
            "09:01" "Tuesday" (Fixtures.frozen (Fixtures.at_time 9 1 0))
            initial_state) = Val true.
Proof.
  split.
  - apply (proj1 is_reminder_due_already_fired
             (with_last_triggered Fixtures.pill (Some Fixtures.nine))
             "09:01" "Tuesday" (Fixtures.frozen (Fixtures.at_time 9 1 0))
             initial_state Fixtures.nine);
      [reflexivity|reflexivity|discriminate|discriminate].
  - rewrite (proj2 is_reminder_due_already_fired
               (with_last_triggered Fixtures.pill (Some Fixtures.yesterday))
               "09:01" "Tuesday" (Fixtures.frozen (Fixtures.at_time 9 1 0))
               initial_state Fixtures.yesterday);
      [reflexivity|reflexivity|discriminate].
Defined.

(** C2, as claimed, fails.  One reminder (snoozed until 09:00:30) and one
    captured instant (09:00:00, a Tuesday) get two different answers,
    because the snooze check reads the clock itself: false when the clock
    shows 09:00:10, true when it shows 09:00:40.  The same happens inside
    one batch: of two evaluations of that reminder made while the clock
    moves from 09:00:10 to 09:00:40, only the second one finds it due. *)
Lemma is_reminder_due_two_answers :
  fst (is_reminder_due Fixtures.snoozed_pill
         (Datetime.strftime_HM Fixtures.nine) (Datetime.strftime_A Fixtures.nine)
         (Fixtures.frozen (Fixtures.at_time 9 0 10)) initial_state) = Val false
  /\ fst (is_reminder_due Fixtures.snoozed_pill
         (Datetime.strftime_HM Fixtures.nine) (Datetime.strftime_A Fixtures.nine)
         (Fixtures.frozen (Fixtures.at_time 9 0 40)) initial_state) = Val true
  /\ fst (collect_due [Fixtures.snoozed_pill; Fixtures.snoozed_pill]
         (Datetime.strftime_HM Fixtures.nine) (Datetime.strftime_A Fixtures.nine)
         []
         (Fixtures.moving (Fixtures.at_time 9 0 10) (Fixtures.at_time 9 0 40))
         initial_state) = Val [Fixtures.snoozed_pill].
Proof. repeat split; reflexivity. Qed.

(** C2, amended.  [is_reminder_due] has no effect but reading the clock,
    at most twice, and its answer is a function of the reminder, of the
    current time and day passed in, and of those readings: two
    evaluations that are given the same reminder, time and day and see
    the same two readings agree. *)
Theorem is_reminder_due_deterministic
  (r : Reminder) (ct cd : string) (env1 env2 : Env) (st1 st2 : State) :
  clock env1 (reads st1) = clock env2 (reads st2) ->
  clock env1 (S (reads st1)) = clock env2 (S (reads st2)) ->
  fst (is_reminder_due r ct cd env1 st1) = fst (is_reminder_due r ct cd env2 st2)
  /\ (exists n, (n <= 2)%nat
                /\ snd (is_reminder_due r ct cd env1 st1) = clock_read n st1).
Proof.
  intros H0 H1. split; [|apply is_reminder_due_state].
  rewrite !is_reminder_due_eq. unfold today_reading.
  destruct (negb (is_active r)); [reflexivity|]. cbv zeta.
  destruct (snooze_until r) as [until|].
  - rewrite H0, H1.
    destruct (Datetime.gtb _ _); [reflexivity|].
    destruct (unpack_hour_minute (reminder_time r)); [|reflexivity].
    destruct (unpack_hour_minute ct); [|reflexivity].
    destruct (_ >? 1); [reflexivity|].
    destruct (match has_days r with Some _ => _ | None => _ end);
      [reflexivity|].
    destruct (last_triggered r); reflexivity.
  - rewrite H0.
    destruct (unpack_hour_minute (reminder_time r)); [|reflexivity].
    destruct (unpack_hour_minute ct); [|reflexivity].
    destruct (_ >? 1); [reflexivity|].
    destruct (match has_days r with Some _ => _ | None => _ end);
      [reflexivity|].
    destruct (last_triggered r); reflexivity.
Qed.

Lemma is_reminder_due_deterministic_witness :
  fst (is_reminder_due Fixtures.snoozed_pill "09:00" "Tuesday"
         (Fixtures.frozen (Fixtures.at_time 9 0 40)) initial_state)
  = fst (is_reminder_due Fixtures.snoozed_pill "09:00" "Tuesday"
         (Fixtures.moving (Fixtures.at_time 9 0 40) (Fixtures.at_time 9 0 40))
         initial_state).
Proof.
  apply (is_reminder_due_deterministic Fixtures.snoozed_pill "09:00" "Tuesday"
           (Fixtures.frozen (Fixtures.at_time 9 0 40))
           (Fixtures.moving (Fixtures.at_time 9 0 40) (Fixtures.at_time 9 0 40))
           initial_state initial_state); reflexivity.
Defined.

(* ===================================================================== *)
(** ** The monitor endpoints: one loop at most                            *)
(* ===================================================================== *)

Lemma cancel_nth (h : nat) (ts : list task) (i : nat) :
  nth_error (cancel h ts) i
  = if (i =? h)%nat then option_map cancel_task (nth_error ts i)
    else nth_error ts i.
Proof.
  revert h i. induction ts as [|t ts IH]; intros h i.
  - destruct h, i; cbn; try reflexivity; destruct (_ =? _)%nat; reflexivity.
  - destruct h as [|h], i as [|i]; cbn; try reflexivity. apply IH.
Qed.

Lemma finish_nth (h : nat) (ts : list task) (i : nat) (t : task) :
  nth_error (finish h ts) i = Some t ->
  task_status_of t = Pending ->
  nth_error ts i = Some t.
Proof.
  revert h i. induction ts as [|a ts IH]; intros h i.
  - destruct h; cbn; auto.
  - destruct h as [|h], i as [|i]; cbn; auto.
    + intros H Hp. inversion H; subst. discriminate.
    + apply IH.
Qed.

Lemma cancel_task_not_pending (t : task) :
  task_status_of (cancel_task t) <> Pending.
Proof. unfold cancel_task. destruct (task_status_of t) eqn:E; cbn; congruence. Qed.

Lemma cancel_task_pending (t : task) :
  task_status_of t <> Pending -> cancel_task t = t.
Proof. unfold cancel_task. destruct (task_status_of t); congruence. Qed.

Lemma consistent_start (user : string) (iv : Z) (ms : MonitorState) :
  consistent ms -> consistent (snd (start_reminder_monitoring user iv ms)).
Proof.
  intros [Hflag Hpend]. unfold start_reminder_monitoring.
  destruct (reminder_monitor_running ms) eqn:Hrun; cbn [snd].
  - split; [rewrite Hrun; exact Hflag|exact Hpend].
  - assert (Hnone : reminder_monitor_task ms = None).
    { destruct (reminder_monitor_task ms) eqn:E; [|reflexivity].
      destruct Hflag as [_ Hback].
      assert (false = true) by (apply Hback; discriminate).
      discriminate. }
    split; cbn.
    + split; [discriminate|reflexivity].
    + intros i t Hi Hp.
      destruct (Nat.lt_ge_cases i (List.length (tasks ms))) as [Hlt|Hge].
      * rewrite nth_error_app1 in Hi by assumption.
        rewrite (Hpend i t Hi Hp) in Hnone. discriminate.
      * rewrite nth_error_app2 in Hi by assumption.
        destruct (i - List.length (tasks ms))%nat as [|d] eqn:E.
        -- f_equal. lia.
        -- cbn in Hi. destruct d; discriminate.
Qed.

Lemma consistent_stop (ms : MonitorState) :
  consistent ms -> consistent (snd (stop_reminder_monitoring ms)).
Proof.
  intros [Hflag Hpend]. unfold stop_reminder_monitoring.
  destruct (reminder_monitor_running ms) eqn:Hrun; cbn [negb snd].
  - destruct (reminder_monitor_task ms) as [h|] eqn:Hh.
    + split; cbn.
      * split; [discriminate|congruence].
      * intros i t Hi Hp. exfalso. rewrite cancel_nth in Hi.
        destruct (Nat.eqb_spec i h) as [->|Hne].
        -- destruct (nth_error (tasks ms) h); [|discriminate].
           inversion Hi; subst. now apply (cancel_task_not_pending t0).
        -- specialize (Hpend i t Hi Hp). congruence.
    + exfalso. assert (@None nat <> None) by now apply Hflag. congruence.
  - split; [rewrite Hrun; exact Hflag|exact Hpend].
Qed.

Lemma consistent_step (ms ms' : MonitorState) :
  consistent ms -> step ms ms' -> consistent ms'.
Proof.
  intros Hc Hs. destruct Hs as [rq ms|h ms].
  - destruct rq; cbn [serve].
    + now apply consistent_start.
    + now apply consistent_stop.
    + exact Hc.
  - destruct Hc as [Hflag Hpend]. split; cbn; [exact Hflag|].
    intros i t Hi Hp. eapply Hpend; eauto using finish_nth.
Qed.

Lemma reachable_consistent (ms : MonitorState) : reachable ms -> consistent ms.
Proof.
  induction 1 as [|ms ms' _ IH Hs].
  - split; cbn.
    + split; [discriminate|congruence].
    + intros [|i] t H; discriminate.
  - eapply consistent_step; eauto.
Qed.

(** A list in which any two elements that satisfy [p] sit at the same
    index has at most one of them. *)
Lemma filter_at_most_one {A} (p : A -> bool) (l : list A) :
  (forall i j a b, nth_error l i = Some a -> nth_error l j = Some b ->
                   p a = true -> p b = true -> i = j) ->
  (List.length (filter p l) <= 1)%nat.
Proof.
  induction l as [|x l IH]; intros H; cbn; [lia|].
  destruct (p x) eqn:Hx.
  - assert (Hnil : filter p l = []).
    { destruct (filter p l) as [|y ys] eqn:E; [reflexivity|].
      assert (Hin : In y (filter p l)) by (rewrite E; now left).
      apply filter_In in Hin. destruct Hin as [Hin Hy].
      apply In_nth_error in Hin. destruct Hin as [j Hj].
      specialize (H 0%nat (S j) x y eq_refl Hj Hx Hy). discriminate. }
    rewrite Hnil. cbn. lia.
  - apply IH. intros i j a b Hi Hj Ha Hb.
    specialize (H (S i) (S j) a b Hi Hj Ha Hb). lia.
Qed.

Lemma consistent_one_loop (ms : MonitorState) :
  consistent ms -> (active_loops ms <= 1)%nat.
Proof.
  intros [_ Hpend]. apply filter_at_most_one.
  intros i j a b Hi Hj Ha Hb.
  unfold is_active_loop in Ha, Hb.
  assert (task_status_of a = Pending) by (destruct (task_status_of a); congruence).
  assert (task_status_of b = Pending) by (destruct (task_status_of b); congruence).
  pose proof (Hpend i a Hi ltac:(assumption)) as E1.
  pose proof (Hpend j b Hj ltac:(assumption)) as E2.
  congruence.
Qed.

(** C7.  In every state the endpoints and the tasks can bring about:
    [start] while the flag is up answers "already running" and leaves the
    state as it is (no task is created); [stop] while the flag is down
    answers "not running" and leaves the state as it is; and at most one
    monitor task is active, that is, neither done nor asked to cancel. *)
Theorem monitor_single_instance (ms : MonitorState) :
  reachable ms ->
  (forall (user : string) (check_interval : Z),
      reminder_monitor_running ms = true ->
      start_reminder_monitoring user check_interval ms
      = (Message "Reminder monitoring is already running", ms))
  /\ (reminder_monitor_running ms = false ->
      stop_reminder_monitoring ms
      = (Message "Reminder monitoring is not running", ms))
  /\ (active_loops ms <= 1)%nat.
Proof.
  intros Hr. split; [|split].
  - intros user iv Hrun. unfold start_reminder_monitoring. now rewrite Hrun.
  - intros Hrun. unfold stop_reminder_monitoring. now rewrite Hrun.
  - apply consistent_one_loop, reachable_consistent, Hr.
Qed.

Lemma reachable_serve_all (rqs : list request) (ms : MonitorState) :
  reachable ms -> reachable (serve_all rqs ms).
Proof.
  revert ms. induction rqs as [|rq rqs IH]; intros ms Hr; cbn; [exact Hr|].
  apply IH. eapply reachable_step; [exact Hr|apply step_request].
Qed.

Example restarted_tasks :
  Fixtures.restarted
  = mkMonitor true (Some 1%nat)
      [mkTask "u1" 60 Cancelling; mkTask "u2" 30 Pending].
Proof. reflexivity. Qed.

Lemma monitor_single_instance_witness :
  start_reminder_monitoring "u3" 10 Fixtures.restarted
  = (Message "Reminder monitoring is already running", Fixtures.restarted)
  /\ (active_loops Fixtures.restarted <= 1)%nat.
Proof.
  assert (Hr : reachable Fixtures.restarted)
    by (apply reachable_serve_all, reachable_initial).
  destruct (monitor_single_instance Fixtures.restarted Hr) as (Hstart & _ & Hone).
  split; [apply Hstart; reflexivity|exact Hone].
Defined.

(** C10.  In every state the endpoints and the tasks can bring about, the
    flag is up exactly when a task handle is stored; and when [stop]
    answers "stopped", the handle is cleared, so that the status read
    next shows [running] and [task_active] both false. *)
Theorem monitor_flag_matches_handle (ms : MonitorState) :
  reachable ms ->
  (reminder_monitor_running ms = true <-> reminder_monitor_task ms <> None)
  /\ (forall ms' : MonitorState,
         stop_reminder_monitoring ms
         = (Message "Reminder monitoring stopped", ms') ->
         reminder_monitor_running ms' = false
         /\ reminder_monitor_task ms' = None
         /\ get_monitoring_status ms' = StatusReport false false).
Proof.
  intros Hr. pose proof (reachable_consistent ms Hr) as [Hflag _].
  split; [exact Hflag|].
  intros ms' Hstop. unfold stop_reminder_monitoring in Hstop.
  destruct (reminder_monitor_running ms); cbn [negb] in Hstop;
    [|discriminate].
  inversion Hstop as [Hms']. clear Hstop.
  destruct (reminder_monitor_task ms) as [h|] eqn:Hh;
    repeat split; reflexivity.
Qed.

Lemma monitor_flag_matches_handle_witness :
  (reminder_monitor_running Fixtures.restarted = true
   <-> reminder_monitor_task Fixtures.restarted <> None)
  /\ get_monitoring_status (snd (stop_reminder_monitoring Fixtures.restarted))
     = StatusReport false false.
Proof.
  assert (Hr : reachable Fixtures.restarted)
    by (apply reachable_serve_all, reachable_initial).
  destruct (monitor_flag_matches_handle Fixtures.restarted Hr) as [Hflag Hstop].
  split; [exact Hflag|].
  apply (Hstop (snd (stop_reminder_monitoring Fixtures.restarted))).
  reflexivity.
Defined.

(* ===================================================================== *)
(** ** The loop: what a tick does when something fails                    *)
(* ===================================================================== *)

Lemma serve_all_no_stop (rqs : list request) (ms : MonitorState) :
  reminder_monitor_running ms = true -> ~ In ReqStop rqs ->
  serve_all rqs ms = ms.
Proof.
  intros Hrun. induction rqs as [|rq rqs IH]; intros Hno; [reflexivity|].
  cbn. destruct rq as [u iv| |]; cbn.
  - unfold start_reminder_monitoring. rewrite Hrun. cbn.
    apply IH. intros H. apply Hno. now right.
  - exfalso. apply Hno. now left.
  - apply IH. intros H. apply Hno. now right.
Qed.

Lemma suspend_alive (self : nat) (env : Env) (st : State) :
  alive self (monitor st) -> ~ In ReqStop (requests env (awaits st)) ->
  suspend self env st
  = (Val (awaits st),
     mkState (monitor st) (reads st) (S (awaits st)) (trace st)).
Proof.
  intros [Hrun Hc] Hno. unfold suspend.
  rewrite (serve_all_no_stop _ _ Hrun Hno), Hc. reflexivity.
Qed.

Lemma suspend_awaits (self : nat) (env : Env) (st : State) :
  awaits (snd (suspend self env st)) = S (awaits st)
  /\ trace (snd (suspend self env st)) = trace st
  /\ reads (snd (suspend self env st)) = reads st
  /\ (forall e, fst (suspend self env st) <> Raise e).
Proof.
  unfold suspend. destruct (cancel_requested _ _); cbn; repeat split;
    discriminate.
Qed.

Lemma slept_app (tr tr' : list event) :
  slept (tr ++ tr') = (slept tr ++ slept tr')%list.
Proof.
  induction tr as [|e tr IH]; [reflexivity|].
  destruct e; cbn; rewrite IH; reflexivity.
Qed.

Lemma serve_keeps_cancelling (self : nat) (rq : request) (ms : MonitorState) :
  status_of self (tasks ms) = Some Cancelling ->
  status_of self (tasks (snd (serve rq ms))) = Some Cancelling.
Proof.
  unfold status_of. intros H.
  destruct (nth_error (tasks ms) self) as [t|] eqn:Et; [|discriminate].
  cbn in H. destruct rq as [u iv| |]; cbn [serve].
  - unfold start_reminder_monitoring.
    destruct (reminder_monitor_running ms); cbn [snd tasks];
      [now rewrite Et|].
    rewrite nth_error_app1, Et; [exact H|].
    apply nth_error_Some. congruence.
  - unfold stop_reminder_monitoring.
    destruct (reminder_monitor_running ms); cbn [negb snd];
      [|now rewrite Et].
    destruct (reminder_monitor_task ms) as [h|]; cbn [tasks];
      [|now rewrite Et].
    rewrite cancel_nth, Et.
    destruct (self =? h)%nat; [|exact H].
    cbn. rewrite cancel_task_pending; [exact H|].
    inversion H as [Hs]. rewrite Hs. discriminate.
  - cbn [snd]. now rewrite Et.
Qed.

(** A task on which [cancel()] was called does nothing more: whatever
    requests are served in between, the [CancelledError] is what it is
    resumed with. *)
Lemma suspend_cancelling (self : nat) (env : Env) (st : State) :
  status_of self (tasks (monitor st)) = Some Cancelling ->
  fst (suspend self env st) = Cancelled.
Proof.
  intros H. unfold suspend, cancel_requested.
  assert (Hall : forall rqs ms,
             status_of self (tasks ms) = Some Cancelling ->
             status_of self (tasks (serve_all rqs ms)) = Some Cancelling).
  { induction rqs as [|rq rqs IH]; intros ms Hms; cbn; [exact Hms|].
    apply IH. now apply serve_keeps_cancelling. }
  rewrite (Hall _ _ H). reflexivity.
Qed.

Section Calm.

Variable self : nat.

Lemma calm_ret {A} (a : A) : calm self [] (ret a).
Proof.
  intros env st. cbn. split; [lia|]. intros _ _.
  repeat split; [discriminate|now rewrite app_nil_r].
Qed.

Lemma calm_raise {A} (e : exception) : calm self [] (@raise A e).
Proof.
  intros env st. cbn. split; [lia|]. intros _ _.
  repeat split; [discriminate|now rewrite app_nil_r].
Qed.

Lemma calm_bind {A B} (zs : list Z) (m : M A) (k : A -> M B) :
  calm self [] m -> (forall a, calm self zs (k a)) ->
  calm self zs (bind m k).
Proof.
  intros Hm Hk env st. unfold bind.
  destruct (Hm env st) as [Hmono Hpost].
  destruct (m env st) as [[a|e|] st1] eqn:E; cbn [fst snd] in *.
  - destruct (Hk a env st1) as [Hmono' Hpost'].
    split; [lia|]. intros Halive Hfree.
    destruct Hpost as (_ & Hmon & Hsl);
      [assumption|intros j Hj; apply Hfree; lia|].
    rewrite app_nil_r in Hsl.
    destruct Hpost' as (Hnc & Hmon' & Hsl');
      [rewrite Hmon; assumption|intros j Hj; apply Hfree; lia|].
    repeat split; [assumption|congruence|congruence].
  - split; [assumption|]. intros Halive Hfree.
    destruct (Hpost Halive Hfree) as (_ & Hmon & Hsl).
    repeat split; [discriminate|assumption|assumption].
  - split; [assumption|]. intros Halive Hfree.
    destruct (Hpost Halive Hfree) as (Hnc & _). congruence.
Qed.

Lemma calm_try {A} (zs : list Z) (body : M A) (handler : exception -> M A) :
  calm self zs body -> (forall e, calm self zs (handler e)) ->
  calm self zs (try_except body handler).
Proof.
  intros Hb Hh env st. unfold try_except.
  destruct (Hb env st) as [Hmono Hpost].
  destruct (body env st) as [[a|e|] st1] eqn:E; cbn [fst snd] in *.
  - split; assumption.
  - destruct (Hh e env st1) as [Hmono' Hpost'].
    split; [lia|]. intros Halive Hfree.
    destruct Hpost as (_ & Hmon & Hsl);
      [assumption|intros j Hj; apply Hfree; lia|].
    rewrite app_nil_r in Hsl.
    destruct Hpost' as (Hnc & Hmon' & Hsl');
      [rewrite Hmon; assumption|intros j Hj; apply Hfree; lia|].
    repeat split; [assumption|congruence|congruence].
  - split; assumption.
Qed.

Lemma calm_emit (e : event) : calm self (slept [e]) (emit e).
Proof.
  intros env st. cbn. split; [lia|]. intros _ _.
  repeat split; [discriminate|apply slept_app].
Qed.

Lemma calm_datetime_now : calm self [] datetime_now.
Proof.
  intros env st. cbn. split; [lia|]. intros _ _.
  repeat split; [discriminate|now rewrite app_nil_r].
Qed.

Lemma calm_suspend : calm self [] (suspend self).
Proof.
  intros env st.
  destruct (suspend_awaits self env st) as (Ha & _).
  split; [lia|]. intros Halive Hfree.
  rewrite suspend_alive; [|assumption|apply Hfree; lia].
  cbn. repeat split; [discriminate|now rewrite app_nil_r].
Qed.

Lemma calm_ask {A} (f : Env -> reply A) :
  calm self [] (fun env => of_reply (f env) env).
Proof.
  intros env st. destruct (f env); cbn; (split; [lia|]); intros _ _;
    (repeat split; [discriminate|now rewrite app_nil_r]).
Qed.

Lemma calm_is_reminder_due (r : Reminder) (ct cd : string) :
  calm self [] (is_reminder_due r ct cd).
Proof.
  intros env st.
  destruct (is_reminder_due_state r ct cd env st) as (n & _ & Hst).
  rewrite Hst. cbn. split; [lia|]. intros _ _.
  split; [|split; [reflexivity|]].
  - rewrite is_reminder_due_eq.
    destruct (negb (is_active r)); [discriminate|]. cbv zeta.
    destruct (match snooze_until r with Some _ => _ | None => false end);
      [discriminate|].
    destruct (unpack_hour_minute (reminder_time r)); [|discriminate].
    destruct (unpack_hour_minute ct); [|discriminate].
    destruct (_ >? 1); [discriminate|].
    destruct (match has_days r with Some _ => _ | None => _ end);
      [discriminate|].
    destruct (last_triggered r); discriminate.
  - destruct (fst _); now rewrite app_nil_r.
Qed.

Lemma calm_collect_due (rs : list Reminder) (ct cd : string) :
  forall due, calm self [] (collect_due rs ct cd due).
Proof.
  induction rs as [|r rs IH]; intros due; cbn [collect_due].
  - apply calm_ret.
  - apply calm_bind; [apply calm_is_reminder_due|]. intros b. apply IH.
Qed.

Variable user : string.

Lemma calm_db_get_reminders (active_only : bool) :
  calm self [] (db_get_reminders self user active_only).
Proof.
  unfold db_get_reminders.
  apply calm_bind; [apply (calm_emit (CallGetReminders _ _))|]. intros _.
  apply calm_bind; [apply calm_suspend|]. intros k.
  apply (calm_ask (fun env => store_get_reminders env k user active_only)).
Qed.

Lemma calm_db_update_reminder (rid : string) (now : datetime) :
  calm self [] (db_update_reminder self rid now).
Proof.
  unfold db_update_reminder.
  apply calm_bind; [apply (calm_emit (CallUpdateReminder _ _))|]. intros _.
  apply calm_bind; [apply calm_suspend|]. intros k.
  apply (calm_ask (fun env => store_update_reminder env k rid now)).
Qed.

Lemma calm_notify (now : datetime) (due : list Reminder) :
  calm self [] (notify self now due).
Proof.
  induction due as [|r due IH]; cbn [notify].
  - apply calm_ret.
  - apply calm_bind; [apply (calm_emit (LogDue _ _))|]. intros _.
    apply calm_bind; [apply calm_db_update_reminder|]. intros _. apply IH.
Qed.

(** A delay below the float range is slept. *)
Lemma asyncio_sleep_eq (seconds : Z) :
  seconds < float_overflow ->
  asyncio_sleep self seconds
  = (emit (Sleep seconds) ;; _ <- suspend self ;; ret tt).
Proof.
  intros Hlt. unfold asyncio_sleep.
  destruct (Z.geb_spec seconds float_overflow) as [Hge|_];
    [lia|reflexivity].
Qed.

(** A delay beyond it makes the call raise at once: nothing is recorded
    and the task is not suspended. *)
Lemma asyncio_sleep_overflow (seconds : Z) (env : Env) (st : State) :
  float_overflow <= seconds ->
  asyncio_sleep self seconds env st = (Raise FloatOverflowError, st).
Proof.
  intros Hge. unfold asyncio_sleep.
  destruct (Z.geb_spec seconds float_overflow) as [_|Hlt];
    [reflexivity|lia].
Qed.

Lemma asyncio_sleep_awaits (seconds : Z) (env : Env) (st : State) :
  seconds < float_overflow ->
  awaits (snd (asyncio_sleep self seconds env st)) = S (awaits st).
Proof.
  intros Hlt. rewrite asyncio_sleep_eq by exact Hlt.
  unfold bind, emit, ret.
  match goal with |- context [suspend self env ?s] =>
    destruct (suspend_awaits self env s) as (Ha & _);
    destruct (suspend self env s) as [[k|e|] st2] end; exact Ha.
Qed.

Lemma asyncio_sleep_alive (seconds : Z) (env : Env) (st : State) :
  seconds < float_overflow ->
  alive self (monitor st) -> ~ In ReqStop (requests env (awaits st)) ->
  asyncio_sleep self seconds env st
  = (Val tt,
     mkState (monitor st) (reads st) (S (awaits st))
             (trace st ++ [Sleep seconds])).
Proof.
  intros Hlt Halive Hno. rewrite asyncio_sleep_eq by exact Hlt.
  unfold bind, emit.
  rewrite suspend_alive; [reflexivity|exact Halive|exact Hno].
Qed.

Lemma calm_asyncio_sleep (seconds : Z) :
  calm self [seconds] (asyncio_sleep self seconds).
Proof.
  intros env st.
  destruct (Z.lt_ge_cases seconds float_overflow) as [Hlt|Hge].
  - rewrite asyncio_sleep_awaits by exact Hlt. split; [lia|].
    intros Halive Hfree.
    rewrite asyncio_sleep_alive; [|exact Hlt|exact Halive|apply Hfree; lia].
    cbn. repeat split; [discriminate|apply slept_app].
  - rewrite asyncio_sleep_overflow by exact Hge. cbn. split; [lia|].
    intros _ _. repeat split; [discriminate|now rewrite app_nil_r].
Qed.

Variable check_interval : Z.

Lemma calm_tick : calm self [check_interval] (tick self user check_interval).
Proof.
  unfold tick.
  apply calm_bind; [apply calm_datetime_now|]. intros now.
  apply calm_bind; [apply (calm_emit (LogChecking _ _))|]. intros _.
  apply calm_bind; [apply calm_db_get_reminders|]. intros rs.
  apply calm_bind; [apply calm_collect_due|]. intros due.
  apply calm_bind; [|intros _; apply calm_asyncio_sleep].
  destruct due as [|r due]; [apply calm_ret|].
  apply calm_bind; [apply (calm_emit (LogFound _))|]. intros _.
  apply calm_notify.
Qed.

Lemma calm_iteration :
  calm self [check_interval] (iteration self user check_interval).
Proof.
  unfold iteration. apply calm_try; [apply calm_tick|]. intros e.
  apply calm_bind; [apply (calm_emit (LogError e))|]. intros _.
  apply calm_asyncio_sleep.
Qed.

End Calm.

Section Loop.

Variable self : nat.
Variable user : string.
Variable check_interval : Z.

Lemma asyncio_sleep_never_raises (seconds : Z) (env : Env) (st : State) (e : exception) :
  seconds < float_overflow ->
  fst (asyncio_sleep self seconds env st) <> Raise e.
Proof.
  intros Hlt. rewrite asyncio_sleep_eq by exact Hlt.
  unfold bind, emit, ret.
  match goal with |- context [suspend self env ?s] =>
    destruct (suspend_awaits self env s) as (_ & _ & _ & Hnr);
    destruct (suspend self env s) as [[k|e'|] st2] eqn:E end;
    cbn in *; try discriminate.
  exfalso. now apply (Hnr e').
Qed.

Lemma iteration_never_raises (env : Env) (st : State) (e : exception) :
  check_interval < float_overflow ->
  fst (iteration self user check_interval env st) <> Raise e.
Proof.
  intros Hlt. unfold iteration, try_except.
  destruct (tick self user check_interval env st) as [[a|e'|] st1];
    cbn [fst]; try discriminate.
  unfold bind at 1, emit. cbv beta iota.
  apply asyncio_sleep_never_raises. exact Hlt.
Qed.

Lemma iteration_failing_tick (env : Env) (st st1 : State) (e : exception) :
  check_interval < float_overflow ->
  tick self user check_interval env st = (Raise e, st1) ->
  trace (snd (iteration self user check_interval env st))
  = (trace st1 ++ [LogError e; Sleep check_interval])%list
  /\ (alive self (monitor st1) ->
      ~ In ReqStop (requests env (awaits st1)) ->
      fst (iteration self user check_interval env st) = Val tt).
Proof.
  intros Hlt Htick. unfold iteration, try_except. rewrite Htick.
  rewrite asyncio_sleep_eq by exact Hlt.
  unfold bind, emit, ret. cbn.
  match goal with |- context [suspend self env ?s] =>
    set (st2 := s) end.
  split.
  - destruct (suspend_awaits self env st2) as (_ & Htr & _).
    destruct (suspend self env st2) as [[k|e'|] st3]; cbn in *;
      rewrite Htr; unfold st2; cbn; now rewrite <- app_assoc.
  - intros Halive Hno.
    rewrite (suspend_alive self env st2); [reflexivity|exact Halive|exact Hno].
Qed.

Lemma iteration_failing_fetch (env : Env) (st : State) (e : exception) :
  check_interval < float_overflow ->
  alive self (monitor st) ->
  stop_free env (awaits st) (awaits st + 2) ->
  store_get_reminders env (awaits st) user true = Fails e ->
  iteration self user check_interval env st
  = (Val tt,
     mkState (monitor st) (S (reads st)) (awaits st + 2)
       (trace st
        ++ [LogChecking (Datetime.strftime_HM (clock env (reads st)))
                        (Datetime.strftime_A (clock env (reads st)));
            CallGetReminders user true;
            LogError e;
            Sleep check_interval])).
Proof.
  intros Hlt Halive Hfree Hget.
  unfold iteration, try_except, tick.
  unfold bind at 1. unfold datetime_now at 1. cbv beta iota.
  unfold bind at 1. unfold emit at 1. cbv beta iota.
  unfold bind at 1. unfold db_get_reminders.
  unfold bind at 1. unfold emit at 1. cbv beta iota.
  unfold bind at 1.
  rewrite suspend_alive; [|exact Halive|apply Hfree; cbn; lia].
  cbn [monitor reads awaits trace].
  rewrite Hget. cbn [of_reply]. unfold raise at 1. cbv beta iota.
  unfold bind at 1. unfold emit at 1. cbv beta iota.
  rewrite asyncio_sleep_alive;
    [|exact Hlt|exact Halive|apply Hfree; cbn; lia].
  cbn [monitor reads awaits trace].
  f_equal. f_equal; try lia. now rewrite <- !app_assoc.
Qed.

Lemma monitor_loop_awaits (fuel : nat) (env : Env) (st : State) :
  (awaits st <= awaits (snd (monitor_loop self user check_interval fuel env st)))%nat.
Proof.
  revert st. induction fuel as [|fuel IH]; intros st; cbn [monitor_loop].
  - destruct (negb _); cbn; lia.
  - destruct (negb _); cbn; [lia|].
    destruct (calm_iteration self user check_interval env st) as [Hmono _].
    destruct (iteration self user check_interval env st) as [[a|e|] st1];
      cbn in *; try lia.
    specialize (IH st1). lia.
Qed.

Lemma monitor_loop_alive (fuel : nat) (env : Env) (st : State) :
  check_interval < float_overflow ->
  alive self (monitor st) ->
  stop_free env (awaits st)
    (awaits (snd (monitor_loop self user check_interval fuel env st))) ->
  fst (monitor_loop self user check_interval fuel env st) = None
  /\ monitor (snd (monitor_loop self user check_interval fuel env st))
     = monitor st
  /\ slept (trace (snd (monitor_loop self user check_interval fuel env st)))
     = (slept (trace st) ++ repeat check_interval fuel)%list.
Proof.
  intros Hlt.
  revert st. induction fuel as [|fuel IH]; intros st Halive;
    cbn [monitor_loop]; destruct Halive as [Hrun Hc]; rewrite Hrun;
    cbn [negb].
  - intros _. cbn. now rewrite app_nil_r.
  - destruct (calm_iteration self user check_interval env st)
      as [Hmono Hpost].
    pose proof (fun e => iteration_never_raises env st e Hlt) as Hnr.
    destruct (iteration self user check_interval env st) as [[a|e|] st1]
      eqn:E; cbn [fst snd] in *.
    + intros Hfree.
      pose proof (monitor_loop_awaits fuel env st1) as Hmono'.
      destruct Hpost as (_ & Hmon & Hsl);
        [split; assumption|intros j Hj; apply Hfree; lia|].
      destruct (IH st1) as (Hnone & Hmon' & Hsl');
        [rewrite Hmon; split; assumption|intros j Hj; apply Hfree; lia|].
      repeat split; [assumption|congruence|].
      rewrite Hsl', Hsl, <- app_assoc. reflexivity.
    + exfalso. now apply (Hnr e).
    + intros Hfree. cbn [fst snd] in *.
      destruct Hpost as (Hnc & _); [split; assumption|exact Hfree|].
      congruence.
Qed.

Lemma stop_free_dec (env : Env) (a b : nat) :
  stop_free env a b
  \/ exists k, (a <= k < b)%nat /\ In ReqStop (requests env k).
Proof.
  induction b as [|b IH].
  - left. intros k Hk. lia.
  - destruct IH as [Hfree|(k & Hk & Hin)].
    + assert (Hdec : forall x y : request, {x = y} + {x <> y})
        by (decide equality; [apply Z.eq_dec|apply string_dec]).
      destruct (Nat.le_gt_cases a b) as [Hab|Hab].
      * destruct (in_dec Hdec ReqStop (requests env b)) as [Hin|Hnin].
        -- right. exists b. split; [lia|exact Hin].
        -- left. intros k Hk.
           destruct (Nat.eq_dec k b) as [->|Hne]; [exact Hnin|].
           apply Hfree. lia.
      * left. intros k Hk. lia.
    + right. exists k. split; [lia|exact Hin].
Qed.

Lemma monitor_loop_ends (fuel : nat) (env : Env) (st : State) (o : outcome unit) :
  check_interval < float_overflow ->
  alive self (monitor st) ->
  fst (monitor_loop self user check_interval fuel env st) = Some o ->
  (forall e, o <> Raise e)
  /\ exists k,
      (awaits st <= k
       < awaits (snd (monitor_loop self user check_interval fuel env st)))%nat
      /\ In ReqStop (requests env k).
Proof.
  intros Hlt Halive Hend. split.
  - clear Halive. revert st Hend.
    induction fuel as [|fuel IH]; intros st; cbn [monitor_loop].
    + destruct (negb _); cbn; intros H; inversion H; discriminate.
    + destruct (negb _); cbn; [intros H; inversion H; discriminate|].
      pose proof (fun e => iteration_never_raises env st e Hlt) as Hnr.
      destruct (iteration self user check_interval env st) as [[a|e|] st1];
        cbn [fst snd] in *.
      * apply IH.
      * exfalso. now apply (Hnr e).
      * intros H. inversion H. discriminate.
  - destruct (stop_free_dec env (awaits st)
                (awaits (snd (monitor_loop self user check_interval
                                fuel env st)))) as [Hfree|Hex];
      [|exact Hex].
    destruct (monitor_loop_alive fuel env st Hlt Halive Hfree) as (Hnone & _).
    congruence.
Qed.

End Loop.

(** C9, amended.  With a [check_interval] that [asyncio.sleep] can take
    (an integer below [float_overflow]), a failing tick never ends the
    loop of task [self].  (1) A turn of the loop never lets an exception
    out.  (2) When the body of the [try] raises [e], the turn goes on to
    log [e] and to sleep [check_interval]; unless a [stop] is served
    during that sleep, it then completes and the loop goes to its next
    turn.  (3) As long as no [stop] is served, the loop is still running
    after any number of turns, whatever the store and the reminders do,
    and it has slept [check_interval] once per turn.  (4) If the loop has
    ended, it has not ended with an exception, and a [stop] was served
    while the task was suspended.  (5) In particular, when the fetch of
    the reminders fails with [e], the turn consists of the check line,
    the fetch, the error line for [e] and the sleep, and it completes. *)
Theorem monitor_loop_survives_errors (self : nat) (user : string) (check_interval : Z) :
  check_interval < float_overflow ->
  (forall env st e, fst (iteration self user check_interval env st) <> Raise e)
  /\ (forall env st st1 e,
         tick self user check_interval env st = (Raise e, st1) ->
         trace (snd (iteration self user check_interval env st))
         = (trace st1 ++ [LogError e; Sleep check_interval])%list
         /\ (alive self (monitor st1) ->
             ~ In ReqStop (requests env (awaits st1)) ->
             fst (iteration self user check_interval env st) = Val tt))
  /\ (forall fuel env st,
         alive self (monitor st) ->
         stop_free env (awaits st)
           (awaits (snd (monitor_loop self user check_interval fuel env st))) ->
         fst (monitor_loop self user check_interval fuel env st) = None
         /\ slept (trace (snd (monitor_loop self user check_interval fuel env st)))
            = (slept (trace st) ++ repeat check_interval fuel)%list)
  /\ (forall fuel env st o,
         alive self (monitor st) ->
         fst (monitor_loop self user check_interval fuel env st) = Some o ->
         (forall e, o <> Raise e)
         /\ exists k,
             (awaits st <= k
              < awaits (snd (monitor_loop self user check_interval fuel env st)))%nat
             /\ In ReqStop (requests env k))
  /\ (forall env st e,
         alive self (monitor st) ->
         stop_free env (awaits st) (awaits st + 2) ->
         store_get_reminders env (awaits st) user true = Fails e ->
         iteration self user check_interval env st
         = (Val tt,
            mkState (monitor st) (S (reads st)) (awaits st + 2)
              (trace st
               ++ [LogChecking (Datetime.strftime_HM (clock env (reads st)))
                               (Datetime.strftime_A (clock env (reads st)));
                   CallGetReminders user true;
                   LogError e;
                   Sleep check_interval]))).
Proof.
  intros Hlt. split; [|split; [|split; [|split]]].
  - intros env st e. apply iteration_never_raises. exact Hlt.
  - intros env st st1 e. apply iteration_failing_tick. exact Hlt.
  - intros fuel env st Halive Hfree.
    destruct (monitor_loop_alive self user check_interval fuel env st
                Hlt Halive Hfree) as (H1 & _ & H2).
    split; assumption.
  - intros fuel env st o. apply monitor_loop_ends. exact Hlt.
  - intros env st e. apply iteration_failing_fetch. exact Hlt.
Qed.

(** C9, as claimed, fails.  With a [check_interval] of [float_overflow],
    the sleep that ends the body of the [try] raises [OverflowError]; the
    handler logs it and calls the same sleep, which raises again, outside
    any [try]: the first turn ends the loop with that exception, although
    no [stop] is served at any time and the flag is still up. *)
Lemma huge_interval_ends_the_loop :
  (forall k, requests (Fixtures.frozen Fixtures.nine) k = [])
  /\ monitor_loop 0 "u1" float_overflow 3 (Fixtures.frozen Fixtures.nine)
       Fixtures.running_state
     = (Some (Raise FloatOverflowError),
        mkState Fixtures.started 1 2
          [LogChecking "09:00" "Tuesday"; CallGetReminders "u1" true;
           LogError FloatOverflowError])
  /\ reminder_monitor_running Fixtures.started = true.
Proof. split; [reflexivity|split; reflexivity]. Qed.

Example broken_store_three_turns :
  monitor_loop 0 "u1" 60 3 (Fixtures.broken Fixtures.nine) Fixtures.running_state
  = (None,
     mkState Fixtures.started 3 7
       [LogChecking "09:00" "Tuesday"; CallGetReminders "u1" true;
        LogError (StoreError 503); Sleep 60;
        LogChecking "09:00" "Tuesday"; CallGetReminders "u1" true;
        LogError (StoreError 503); Sleep 60;
        LogChecking "09:00" "Tuesday"; CallGetReminders "u1" true;
        LogError (StoreError 503); Sleep 60]).
Proof. reflexivity. Qed.

Example stop_ends_the_loop :
  run_task 0 "u1" 60 5 (Fixtures.stopping Fixtures.nine)
           (mkState Fixtures.started 0 0 [])
  = (Some Cancelled,
     mkState (mkMonitor false None [mkTask "u1" 60 Done]) 1 3
       [LogChecking "09:00" "Tuesday"; CallGetReminders "u1" true; Sleep 60]).
Proof. reflexivity. Qed.

Lemma monitor_loop_survives_errors_witness :
  fst (monitor_loop 0 "u1" 60 3 (Fixtures.broken Fixtures.nine)
         Fixtures.running_state) = None
  /\ slept (trace (snd (monitor_loop 0 "u1" 60 3 (Fixtures.broken Fixtures.nine)
                          Fixtures.running_state)))
     = [60; 60; 60].
Proof.
  apply (proj1 (proj2 (proj2 (monitor_loop_survives_errors 0%nat "u1" 60
                                eq_refl)))
           3%nat (Fixtures.broken Fixtures.nine) Fixtures.running_state).
  - split; reflexivity.
  - intros k _ H. exact H.
Defined.

Lemma clock_read_add (n m : nat) (st : State) :
  clock_read n (clock_read m st) = clock_read (n + m) st.
Proof. unfold clock_read. cbn. f_equal. lia. Qed.

Lemma clock_read_0 (st : State) : clock_read 0 st = st.
Proof. destruct st; reflexivity. Qed.

(** [is_reminder_due] returns a boolean or raises [ValueError]; either
    way it has only read the clock. *)
Lemma is_reminder_due_cases (r : Reminder) (ct cd : string) (env : Env) (st : State) :
  exists n,
    (exists b, is_reminder_due r ct cd env st = (Val b, clock_read n st))
    \/ is_reminder_due r ct cd env st = (Raise ValueError, clock_read n st).
Proof.
  destruct (is_reminder_due_state r ct cd env st) as (n & _ & Hst).
  exists n. destruct (is_reminder_due r ct cd env st) as [o st'] eqn:E.
  cbn in Hst. subst st'.
  assert (Ho : fst (is_reminder_due r ct cd env st) = o) by now rewrite E.
  rewrite is_reminder_due_eq in Ho.
  destruct (negb (is_active r)); [left; eexists; now rewrite <- Ho|].
  cbv zeta in Ho.
  destruct (match snooze_until r with Some _ => _ | None => false end);
    [left; eexists; now rewrite <- Ho|].
  destruct (unpack_hour_minute (reminder_time r));
    [|right; now rewrite <- Ho].
  destruct (unpack_hour_minute ct); [|right; now rewrite <- Ho].
  destruct (_ >? 1); [left; eexists; now rewrite <- Ho|].
  destruct (match has_days r with Some _ => _ | None => _ end);
    [left; eexists; now rewrite <- Ho|].
  destruct (last_triggered r); left; eexists; now rewrite <- Ho.
Qed.

(** The answer of [is_reminder_due], and the number of clock readings it
    takes, do not depend on the monitor state, the suspensions or the
    trace. *)
Lemma is_reminder_due_frame (r : Reminder) (ct cd : string) (env : Env)
      (st : State) (ms : MonitorState) (aw : nat) (tr : list event) :
  is_reminder_due r ct cd env (mkState ms (reads st) aw tr)
  = (fst (is_reminder_due r ct cd env st),
     mkState ms (reads (snd (is_reminder_due r ct cd env st))) aw tr).
Proof.
  rewrite !is_reminder_due_eq. unfold today_reading, clock_read.
  cbn [reads monitor awaits trace].
  destruct (negb (is_active r)); [reflexivity|]. cbv zeta.
  destruct (snooze_until r) as [u|].
  - destruct (Datetime.gtb _ _); [reflexivity|].
    destruct (unpack_hour_minute (reminder_time r)); [|reflexivity].
    destruct (unpack_hour_minute ct); [|reflexivity].
    destruct (_ >? 1); [reflexivity|].
    destruct (match has_days r with Some _ => _ | None => _ end);
      [reflexivity|].
    destruct (last_triggered r); reflexivity.
  - destruct (unpack_hour_minute (reminder_time r)); [|reflexivity].
    destruct (unpack_hour_minute ct); [|reflexivity].
    destruct (_ >? 1); [reflexivity|].
    destruct (match has_days r with Some _ => _ | None => _ end);
      [reflexivity|].
    destruct (last_triggered r); reflexivity.
Qed.

Lemma collect_due_frame (rs : list Reminder) (ct cd : string) (env : Env) :
  forall (due : list Reminder) (st : State) (ms : MonitorState) (aw : nat)
         (tr : list event),
    collect_due rs ct cd due env (mkState ms (reads st) aw tr)
    = (fst (collect_due rs ct cd due env st),
       mkState ms (reads (snd (collect_due rs ct cd due env st))) aw tr).
Proof.
  induction rs as [|r rs IH]; intros due st ms aw tr; cbn [collect_due].
  - reflexivity.
  - unfold bind. rewrite is_reminder_due_frame.
    destruct (is_reminder_due r ct cd env st) as [[b|e|] st1]; cbn [fst snd];
      [|reflexivity|reflexivity].
    apply IH.
Qed.



Lemma collect_due_app (pre rest : list Reminder) (ct cd : string) (env : Env) :
  forall due st,
    collect_due (pre ++ rest) ct cd due env st
    = match collect_due pre ct cd due env st with
      | (Val due', st') => collect_due rest ct cd due' env st'
      | (Raise e, st') => (Raise e, st')
      | (Cancelled, st') => (Cancelled, st')
      end.
Proof.
  induction pre as [|r pre IH]; intros due st; cbn [collect_due app].
  - reflexivity.
  - unfold bind at 1 2.
    destruct (is_reminder_due r ct cd env st) as [[b|e|] st1];
      [apply IH|reflexivity|reflexivity].
Qed.

Lemma collect_due_cases (rs : list Reminder) (ct cd : string) (env : Env) :
  forall due st,
  exists n,
    (exists due', collect_due rs ct cd due env st = (Val due', clock_read n st))
    \/ collect_due rs ct cd due env st = (Raise ValueError, clock_read n st).
Proof.
  induction rs as [|r rs IH]; intros due st; cbn [collect_due].
  - exists 0%nat. left. exists due. now rewrite clock_read_0.
  - unfold bind.
    destruct (is_reminder_due_cases r ct cd env st) as [n [[b E]|E]];
      rewrite E.
    + destruct (IH (if b then (due ++ [r])%list else due) (clock_read n st))
        as [m [[due' Em]|Em]]; exists (m + n)%nat;
        rewrite Em, clock_read_add; [left; now exists due'|now right].
    + exists n. now right.
Qed.

(** A reminder that is active, whose snooze check (taken at the next
    clock reading) does not hold it back, and whose time cannot be read,
    makes [is_reminder_due] raise. *)
Lemma is_reminder_due_unreadable (bad : Reminder) (ct cd : string) (env : Env) (st : State) :
  is_active bad = true ->
  (forall u, snooze_until bad = Some u ->
             Datetime.gtb u (clock env (reads st)) = false) ->
  unpack_hour_minute (reminder_time bad) = None ->
  exists n, is_reminder_due bad ct cd env st = (Raise ValueError, clock_read n st).
Proof.
  intros Ha Hs Hbad. rewrite is_reminder_due_eq, Ha, Hbad. cbn [negb]. cbv zeta.
  destruct (snooze_until bad) as [u|] eqn:E.
  - rewrite (Hs u eq_refl). now exists 1%nat.
  - exists 0%nat. now rewrite clock_read_0.
Qed.

Lemma collect_due_unreadable (pre : list Reminder) (bad : Reminder)
      (ct cd : string) (env : Env) (due : list Reminder) (st : State) :
  is_active bad = true ->
  (forall u, snooze_until bad = Some u ->
             Datetime.gtb u
               (clock env (reads (snd (collect_due pre ct cd due env st))))
             = false) ->
  unpack_hour_minute (reminder_time bad) = None ->
  exists n, forall post,
    collect_due (pre ++ bad :: post) ct cd due env st
    = (Raise ValueError, clock_read n st).
Proof.
  intros Ha Hs Hbad.
  destruct (collect_due_cases pre ct cd env due st) as [n [[due' E]|E]];
    rewrite E in Hs; cbn [snd] in Hs.
  - destruct (is_reminder_due_unreadable bad ct cd env (clock_read n st)
                Ha Hs Hbad) as [m Em].
    exists (m + n)%nat. intros post.
    rewrite collect_due_app, E. cbn [collect_due]. unfold bind.
    now rewrite Em, clock_read_add.
  - exists n. intros post. now rewrite collect_due_app, E.
Qed.

(** C3, amended.  With a [check_interval] that [asyncio.sleep] can take:
    when the batch of a tick holds a reminder that gets past the active
    check and the snooze check (taken at the clock reading that follows
    the evaluation of the reminders before it) and whose [reminder_time]
    cannot be read as "HH:MM", the [ValueError] ends the tick's work as a
    whole: the trace of the turn is the check line, the fetch, one error
    line and the sleep, so that no reminder of the batch is notified or
    updated; the clock has been read as often as the evaluation of the
    reminders up to the malformed one takes, the later ones are not
    evaluated.  The loop itself does not crash: the turn completes and
    the monitor state is as before. *)
Theorem tick_aborted_by_malformed_time
  (self : nat) (user : string) (check_interval : Z)
  (env : Env) (st : State) (pre post : list Reminder) (bad : Reminder) :
  check_interval < float_overflow ->
  alive self (monitor st) ->
  stop_free env (awaits st) (awaits st + 2) ->
  store_get_reminders env (awaits st) user true = Returns (pre ++ bad :: post) ->
  is_active bad = true ->
  (forall u, snooze_until bad = Some u ->
             Datetime.gtb u
               (clock env
                  (reads (snd (collect_due pre
                                 (Datetime.strftime_HM (clock env (reads st)))
                                 (Datetime.strftime_A (clock env (reads st)))
                                 [] env (clock_read 1 st)))))
             = false) ->
  unpack_hour_minute (reminder_time bad) = None ->
  iteration self user check_interval env st
  = (Val tt,
     mkState (monitor st)
       (reads (snd (collect_due (pre ++ [bad])
                      (Datetime.strftime_HM (clock env (reads st)))
                      (Datetime.strftime_A (clock env (reads st)))
                      [] env (clock_read 1 st))))
       (awaits st + 2)
       (trace st
        ++ [LogChecking (Datetime.strftime_HM (clock env (reads st)))
                        (Datetime.strftime_A (clock env (reads st)));
            CallGetReminders user true;
            LogError ValueError;
            Sleep check_interval])).
Proof.
  intros Hlt Halive Hfree Hget Ha Hs Hbad.
  unfold iteration, try_except, tick.
  unfold bind at 1. unfold datetime_now at 1. cbv beta iota.
  unfold bind at 1. unfold emit at 1. cbv beta iota.
  unfold bind at 1. unfold db_get_reminders.
  unfold bind at 1. unfold emit at 1. cbv beta iota.
  unfold bind at 1.
  rewrite suspend_alive; [|exact Halive|apply Hfree; cbn; lia].
  cbn [monitor reads awaits trace].
  rewrite Hget. cbn [of_reply]. unfold ret at 1. cbv beta iota.
  unfold bind at 1.
  change (S (reads st)) with (reads (clock_read 1 st)) at 1.
  rewrite collect_due_frame.
  destruct (collect_due_unreadable pre bad
              (Datetime.strftime_HM (clock env (reads st)))
              (Datetime.strftime_A (clock env (reads st)))
              env [] (clock_read 1 st) Ha Hs Hbad) as [n E].
  rewrite (E post), (E []). cbn [fst snd]. cbv beta iota.
  unfold bind at 1. unfold emit at 1. cbv beta iota.
  rewrite asyncio_sleep_alive;
    [|exact Hlt|exact Halive|apply Hfree; cbn; lia].
  unfold clock_read. cbn [monitor reads awaits trace].
  f_equal. f_equal; try lia. now rewrite <- !app_assoc.
Qed.

Lemma tick_aborted_by_malformed_time_witness :
  iteration 0 "u1" 60
    (Fixtures.serving
       [Fixtures.walk;
        Fixtures.with_snooze Fixtures.bad_pill Fixtures.yesterday;
        Fixtures.pill]
       Fixtures.updates_ok Fixtures.nine)
    Fixtures.running_state
  = (Val tt,
     mkState Fixtures.started 3 3
       [LogChecking "09:00" "Tuesday"; CallGetReminders "u1" true;
        LogError ValueError; Sleep 60]).
Proof.
  apply (tick_aborted_by_malformed_time 0 "u1" 60
           (Fixtures.serving
              [Fixtures.walk;
               Fixtures.with_snooze Fixtures.bad_pill Fixtures.yesterday;
               Fixtures.pill]
              Fixtures.updates_ok Fixtures.nine)
           Fixtures.running_state [Fixtures.walk] [Fixtures.pill]
           (Fixtures.with_snooze Fixtures.bad_pill Fixtures.yesterday)).
  - reflexivity.
  - split; reflexivity.
  - intros k _ H. exact H.
  - reflexivity.
  - reflexivity.
  - intros u H. inversion H. reflexivity.
  - reflexivity.
Defined.

(** C3, as claimed, fails.  With the batch [bad_pill; walk], where [walk]
    is due when evaluated on its own, the turn of the loop reads the clock
    once only (for the tick itself: [walk] is never evaluated) and records
    no notification and no update; with the batch [walk] alone, [walk] is
    notified and updated. *)
Lemma malformed_time_drops_the_batch :
  fst (is_reminder_due Fixtures.walk "09:00" "Tuesday"
         (Fixtures.serving [Fixtures.bad_pill; Fixtures.walk]
                           Fixtures.updates_ok Fixtures.nine)
         Fixtures.running_state) = Val true
  /\ iteration 0 "u1" 60
       (Fixtures.serving [Fixtures.bad_pill; Fixtures.walk]
                         Fixtures.updates_ok Fixtures.nine)
       Fixtures.running_state
     = (Val tt,
        mkState Fixtures.started 1 3
          [LogChecking "09:00" "Tuesday"; CallGetReminders "u1" true;
           LogError ValueError; Sleep 60])
  /\ iteration 0 "u1" 60
       (Fixtures.serving [Fixtures.walk] Fixtures.updates_ok Fixtures.nine)
       Fixtures.running_state
     = (Val tt,
        mkState Fixtures.started 2 4
          [LogChecking "09:00" "Tuesday"; CallGetReminders "u1" true;
           LogFound 1; LogDue "Walk" "09:00";
           CallUpdateReminder "r2" Fixtures.nine; Sleep 60]).
Proof. repeat split; reflexivity. Qed.

(** C8, as claimed, fails.  With two due reminders, [walk] and [pill], and
    a store that fails on the update of [walk], the turn records the
    notification and the update call of [walk], the error and the sleep:
    [pill] is neither notified nor updated.  With a store that answers
    the updates, both are. *)
Lemma failed_update_drops_the_rest :
  iteration 0 "u1" 60
    (Fixtures.serving [Fixtures.walk; Fixtures.pill]
                      Fixtures.updates_fail Fixtures.nine)
    Fixtures.running_state
  = (Val tt,
     mkState Fixtures.started 2 4
       [LogChecking "09:00" "Tuesday"; CallGetReminders "u1" true;
        LogFound 2; LogDue "Walk" "09:00";
        CallUpdateReminder "r2" Fixtures.nine;
        LogError (StoreError 503); Sleep 60])
  /\ iteration 0 "u1" 60
       (Fixtures.serving [Fixtures.walk; Fixtures.pill]
                         Fixtures.updates_ok Fixtures.nine)
       Fixtures.running_state
     = (Val tt,
        mkState Fixtures.started 2 5
          [LogChecking "09:00" "Tuesday"; CallGetReminders "u1" true;
           LogFound 2; LogDue "Walk" "09:00";
           CallUpdateReminder "r2" Fixtures.nine;
           LogDue "Pill" "09:00"; CallUpdateReminder "r1" Fixtures.nine;
           Sleep 60]).
Proof. split; reflexivity. Qed.

Lemma db_update_reminder_alive (self : nat) (rid : string) (now : datetime)
      (env : Env) (st : State) :
  alive self (monitor st) -> ~ In ReqStop (requests env (awaits st)) ->
  db_update_reminder self rid now env st
  = (match store_update_reminder env (awaits st) rid now with
     | Returns v => Val v
     | Fails e => Raise e
     end,
     mkState (monitor st) (reads st) (S (awaits st))
             (trace st ++ [CallUpdateReminder rid now])).
Proof.
  intros Halive Hno. unfold db_update_reminder.
  unfold bind at 1. unfold emit at 1. cbv beta iota. unfold bind at 1.
  rewrite suspend_alive; [|exact Halive|exact Hno].
  cbn [monitor reads awaits trace].
  destruct (store_update_reminder env (awaits st) rid now); reflexivity.
Qed.

(** The notifications stop at the first update the store fails. *)
Lemma notify_fails (self : nat) (now : datetime) (env : Env)
      (r : Reminder) (post : list Reminder) (e : exception) :
  forall (pre : list Reminder) (st : State),
    alive self (monitor st) ->
    stop_free env (awaits st) (awaits st + List.length pre + 1) ->
    (forall i x, nth_error pre i = Some x ->
       exists v, store_update_reminder env (awaits st + i) (id x) now
                 = Returns v) ->
    store_update_reminder env (awaits st + List.length pre) (id r) now
    = Fails e ->
    notify self now (pre ++ r :: post) env st
    = (Raise e,
       mkState (monitor st) (reads st) (awaits st + List.length pre + 1)
         (trace st ++ flat_map (notification now) (pre ++ [r]))).
Proof.
  induction pre as [|x pre IH]; intros st Halive Hfree Hpre Hr;
    cbn [app notify List.length flat_map].
  - unfold bind at 1. unfold emit at 1. cbv beta iota. unfold bind at 1.
    rewrite db_update_reminder_alive;
      [|exact Halive|apply Hfree; cbn; lia].
    cbn [monitor reads awaits trace].
    replace (awaits st + List.length (@nil Reminder))%nat with (awaits st)
      in Hr by (cbn; lia).
    rewrite Hr. unfold notification. cbn [app].
    f_equal. f_equal; [cbn; lia|now rewrite <- app_assoc].
  - unfold bind at 1. unfold emit at 1. cbv beta iota. unfold bind at 1.
    rewrite db_update_reminder_alive;
      [|exact Halive|apply Hfree; cbn; lia].
    cbn [monitor reads awaits trace].
    destruct (Hpre 0%nat x eq_refl) as [v Hv].
    rewrite Nat.add_0_r in Hv. rewrite Hv.
    rewrite IH; cbn [monitor reads awaits trace].
    + f_equal. f_equal; [cbn; lia|].
      unfold notification at 2. cbn [app]. now rewrite <- !app_assoc.
    + exact Halive.
    + intros k Hk. apply Hfree. cbn in *. lia.
    + intros i y Hi. destruct (Hpre (S i) y Hi) as [w Hw]. exists w.
      rewrite <- Hw. f_equal. lia.
    + rewrite <- Hr. f_equal. cbn. lia.
Qed.

(** C8, amended.  With a [check_interval] that [asyncio.sleep] can take:
    in a tick whose due reminders are [pre ++ r :: post], when the store
    answers the updates of [pre] (be it with "not found") and fails with
    [e] on the update of [r], the failure is caught by the handler of the
    tick: it is logged and not propagated, the turn completes with its
    sleep, and the loop goes on; but the tick's work ends there: the
    reminders of [post] are neither notified nor updated in this tick. *)
Theorem tick_aborted_by_failed_update
  (self : nat) (user : string) (check_interval : Z)
  (env : Env) (st : State) (rs pre post : list Reminder) (r : Reminder)
  (e : exception) :
  check_interval < float_overflow ->
  alive self (monitor st) ->
  stop_free env (awaits st) (awaits st + List.length pre + 3) ->
  store_get_reminders env (awaits st) user true = Returns rs ->
  fst (collect_due rs (Datetime.strftime_HM (clock env (reads st)))
         (Datetime.strftime_A (clock env (reads st))) [] env (clock_read 1 st))
  = Val (pre ++ r :: post) ->
  (forall i x, nth_error pre i = Some x ->
     exists v, store_update_reminder env (awaits st + 1 + i) (id x)
                 (clock env (reads st)) = Returns v) ->
  store_update_reminder env (awaits st + 1 + List.length pre) (id r)
    (clock env (reads st)) = Fails e ->
  fst (iteration self user check_interval env st) = Val tt
  /\ monitor (snd (iteration self user check_interval env st)) = monitor st
  /\ trace (snd (iteration self user check_interval env st))
     = trace st
       ++ [LogChecking (Datetime.strftime_HM (clock env (reads st)))
                       (Datetime.strftime_A (clock env (reads st)));
           CallGetReminders user true;
           LogFound (List.length (pre ++ r :: post))]
       ++ flat_map (notification (clock env (reads st))) (pre ++ [r])
       ++ [LogError e; Sleep check_interval].
Proof.
  intros Hlt Halive Hfree Hget Hdue Hpre Hr.
  assert (E : exists st',
             iteration self user check_interval env st = (Val tt, st')
             /\ monitor st' = monitor st
             /\ trace st'
                = trace st
                  ++ [LogChecking (Datetime.strftime_HM (clock env (reads st)))
                                  (Datetime.strftime_A (clock env (reads st)));
                      CallGetReminders user true;
                      LogFound (List.length (pre ++ r :: post))]
                  ++ flat_map (notification (clock env (reads st))) (pre ++ [r])
                  ++ [LogError e; Sleep check_interval]);
    [|destruct E as (st' & -> & Hmon & Htr); repeat split; assumption].
  unfold iteration, try_except, tick.
  unfold bind at 1. unfold datetime_now at 1. cbv beta iota.
  unfold bind at 1. unfold emit at 1. cbv beta iota.
  unfold bind at 1. unfold db_get_reminders.
  unfold bind at 1. unfold emit at 1. cbv beta iota.
  unfold bind at 1.
  rewrite suspend_alive; [|exact Halive|apply Hfree; cbn; lia].
  cbn [monitor reads awaits trace].
  rewrite Hget. cbn [of_reply]. unfold ret at 1. cbv beta iota.
  unfold bind at 1.
  change (S (reads st)) with (reads (clock_read 1 st)).
  rewrite collect_due_frame, Hdue. cbv beta iota.
  unfold bind at 1.
  destruct (pre ++ r :: post) as [|d ds] eqn:Edue;
    [destruct pre; discriminate|].
  rewrite <- Edue.
  unfold bind at 1. unfold emit at 1. cbv beta iota.
  rewrite (notify_fails self (clock env (reads st)) env r post e pre);
    cbn [monitor reads awaits trace].
  - unfold bind at 1. unfold emit at 1. cbv beta iota.
    rewrite asyncio_sleep_alive;
      [|exact Hlt|exact Halive|apply Hfree; cbn; lia].
    eexists. split; [reflexivity|].
    cbn [monitor trace]. split; [reflexivity|].
    rewrite <- !app_assoc. reflexivity.
  - exact Halive.
  - intros k Hk. apply Hfree. cbn in *. lia.
  - intros i x Hi. destruct (Hpre i x Hi) as [v Hv]. exists v.
    rewrite <- Hv. f_equal. lia.
  - rewrite <- Hr. f_equal. lia.
Qed.

Lemma tick_aborted_by_failed_update_witness :
  fst (iteration 0 "u1" 60
         (Fixtures.serving [Fixtures.walk; Fixtures.pill]
                           Fixtures.updates_fail Fixtures.nine)
         Fixtures.running_state) = Val tt
  /\ trace (snd (iteration 0 "u1" 60
                   (Fixtures.serving [Fixtures.walk; Fixtures.pill]
                                     Fixtures.updates_fail Fixtures.nine)
                   Fixtures.running_state))
     = [LogChecking "09:00" "Tuesday"; CallGetReminders "u1" true;
        LogFound 2; LogDue "Walk" "09:00";
        CallUpdateReminder "r2" Fixtures.nine;
        LogError (StoreError 503); Sleep 60].
Proof.
  destruct (tick_aborted_by_failed_update 0 "u1" 60
              (Fixtures.serving [Fixtures.walk; Fixtures.pill]
                                Fixtures.updates_fail Fixtures.nine)
              Fixtures.running_state [Fixtures.walk; Fixtures.pill]
              [] [Fixtures.pill] Fixtures.walk (StoreError 503))
    as (Hval & _ & Htrace).
  - reflexivity.
  - split; reflexivity.
  - intros k _ H. exact H.
  - reflexivity.
  - reflexivity.
  - intros [|i] x H; discriminate H.
  - reflexivity.
  - split; [exact Hval|exact Htrace].
Defined.

(* ===================================================================== *)
(** ** The task stays within the reachable monitor states                 *)
(* ===================================================================== *)

Section Steady.

Variable self : nat.
Variable user : string.
Variable check_interval : Z.

Lemma steady_bind {A B} (m : M A) (k : A -> M B) :
  steady m -> (forall a, steady (k a)) -> steady (bind m k).
Proof.
  intros Hm Hk env st Hr. unfold bind. specialize (Hm env st Hr).
  destruct (m env st) as [[a|e|] st1]; cbn [snd] in *; auto.
  now apply Hk.
Qed.

Lemma steady_same {A} (m : M A) :
  (forall env st, monitor (snd (m env st)) = monitor st) -> steady m.
Proof. intros H env st Hr. now rewrite H. Qed.

Lemma steady_emit (e : event) : steady (emit e).
Proof. now apply steady_same. Qed.

Lemma steady_suspend : steady (suspend self).
Proof.
  intros env st Hr. unfold suspend.
  destruct (cancel_requested _ _); cbn; now apply reachable_serve_all.
Qed.

Lemma steady_ask {A} (f : Env -> reply A) :
  steady (fun env => of_reply (f env) env).
Proof. apply steady_same. intros env st. now destruct (f env). Qed.

Lemma steady_is_reminder_due (r : Reminder) (ct cd : string) :
  steady (is_reminder_due r ct cd).
Proof.
  apply steady_same. intros env st.
  destruct (is_reminder_due_state r ct cd env st) as (n & _ & ->).
  reflexivity.
Qed.

Lemma steady_collect_due (rs : list Reminder) (ct cd : string) :
  forall due, steady (collect_due rs ct cd due).
Proof.
  induction rs as [|r rs IH]; intros due; cbn [collect_due].
  - now apply steady_same.
  - apply steady_bind; [apply steady_is_reminder_due|]. intros b. apply IH.
Qed.

Lemma steady_asyncio_sleep (seconds : Z) : steady (asyncio_sleep self seconds).
Proof.
  unfold asyncio_sleep.
  destruct (seconds >=? float_overflow); [now apply steady_same|].
  apply steady_bind; [apply steady_emit|]. intros _.
  apply steady_bind; [apply steady_suspend|]. intros _.
  now apply steady_same.
Qed.

Lemma steady_notify (now : datetime) (due : list Reminder) :
  steady (notify self now due).
Proof.
  induction due as [|r due IH]; cbn [notify].
  - now apply steady_same.
  - apply steady_bind; [apply steady_emit|]. intros _.
    apply steady_bind; [|intros _; apply IH].
    unfold db_update_reminder.
    apply steady_bind; [apply steady_emit|]. intros _.
    apply steady_bind; [apply steady_suspend|]. intros k.
    apply (steady_ask (fun env => store_update_reminder env k (id r) now)).
Qed.

Lemma steady_iteration : steady (iteration self user check_interval).
Proof.
  assert (Htick : steady (tick self user check_interval)).
  { unfold tick.
    apply steady_bind; [now apply steady_same|]. intros now.
    apply steady_bind; [apply steady_emit|]. intros _.
    apply steady_bind.
    { unfold db_get_reminders.
      apply steady_bind; [apply steady_emit|]. intros _.
      apply steady_bind; [apply steady_suspend|]. intros k.
      apply (steady_ask (fun env => store_get_reminders env k user true)). }
    intros rs.
    apply steady_bind; [apply steady_collect_due|]. intros due.
    apply steady_bind; [|intros _; apply steady_asyncio_sleep].
    destruct due as [|r due]; [now apply steady_same|].
    apply steady_bind; [apply steady_emit|]. intros _.
    apply steady_notify. }
  intros env st Hr. unfold iteration, try_except.
  specialize (Htick env st Hr).
  destruct (tick self user check_interval env st) as [[a|e|] st1];
    cbn [snd] in *; auto.
  revert Htick. generalize st1. generalize env.
  change (steady (emit (LogError e) ;; asyncio_sleep self check_interval)).
  apply steady_bind; [apply steady_emit|]. intros _.
  apply steady_asyncio_sleep.
Qed.

Lemma monitor_loop_reachable (fuel : nat) (env : Env) (st : State) :
  reachable (monitor st) ->
  reachable (monitor (snd (monitor_loop self user check_interval fuel env st))).
Proof.
  revert st. induction fuel as [|fuel IH]; intros st Hr; cbn [monitor_loop].
  - now destruct (negb _).
  - destruct (negb _); [assumption|].
    pose proof (steady_iteration env st Hr) as Hs.
    destruct (iteration self user check_interval env st) as [[a|e|] st1];
      cbn [snd] in *; auto.
Qed.

(** However long the task runs and however it ends, the monitor state
    remains one that requests and task endings account for. *)
Lemma run_task_reachable (fuel : nat) (env : Env) (st : State) :
  reachable (monitor st) ->
  reachable (monitor (snd (run_task self user check_interval fuel env st))).
Proof.
  intros Hr. unfold run_task, monitor_reminders.
  assert (Hfirst : steady (_ <- suspend self ;; of_reply (store_init env))).
  { apply steady_bind; [apply steady_suspend|]. intros _.
    apply steady_same. intros env' st'. now destruct (store_init env). }
  specialize (Hfirst env st Hr).
  destruct ((_ <- suspend self ;; of_reply (store_init env)) env st)
    as [[a|e|] st1]; cbn [snd] in *.
  - pose proof (monitor_loop_reachable fuel env st1 Hfirst) as Hl.
    destruct (monitor_loop self user check_interval fuel env st1)
      as [[o|] st2]; cbn [snd monitor] in *; [|assumption].
    eapply reachable_step; [exact Hl|apply step_finish].
  - cbn [monitor]. eapply reachable_step; [exact Hfirst|apply step_finish].
  - cbn [monitor]. eapply reachable_step; [exact Hfirst|apply step_finish].
Qed.

End Steady.

(* ===================================================================== *)
(** ** More about the due-rule                                            *)
(* ===================================================================== *)

(** X1.  An inactive reminder is not due, whatever its other fields and
    the current time and day, even with a time that cannot be read; the
    clock is not consulted. *)
Theorem is_reminder_due_inactive
  (r : Reminder) (ct cd : string) (env : Env) (st : State) :
  is_active r = false ->
  is_reminder_due r ct cd env st = (Val false, st).
Proof. intros Ha. rewrite is_reminder_due_eq, Ha. reflexivity. Qed.

Lemma is_reminder_due_inactive_witness :
  is_reminder_due
    (mkReminder "r9" "u1" "Off" "not a time" false true (Some ["Monday"])
                (Some Fixtures.nine) (Some Fixtures.nine))
    "also not a time" "Tuesday" (Fixtures.frozen Fixtures.nine) initial_state
  = (Val false, initial_state).
Proof. apply is_reminder_due_inactive. reflexivity. Defined.

(** X3.  The current time that the callers pass, [now.strftime("%H:%M")],
    always reads back as the hour and minute of [now]: a [ValueError]
    can only come from the reminder's own time, and the distance that
    the time window measures is the one between the reminder's time and
    [hour * 60 + minute] of [now]. *)
Theorem strftime_unpack_round_trip (now : datetime) :
  Datetime.valid_time now ->
  unpack_hour_minute (Datetime.strftime_HM now) = Some (hour now, minute now)
  /\ (forall r cd env st,
         fst (is_reminder_due r (Datetime.strftime_HM now) cd env st)
         = Raise ValueError ->
         unpack_hour_minute (reminder_time r) = None).
Proof.
  intros Hv. pose proof (unpack_strftime now Hv) as Hct.
  split; [exact Hct|].
  intros r cd env st H.
  rewrite is_reminder_due_eq in H.
  destruct (negb (is_active r)); [discriminate|]. cbv zeta in H.
  destruct (match snooze_until r with Some _ => _ | None => false end);
    [discriminate|].
  destruct (unpack_hour_minute (reminder_time r)); [|reflexivity].
  rewrite Hct in H. cbn [fst snd] in H.
  destruct (_ >? 1); [discriminate|].
  destruct (match has_days r with Some _ => _ | None => _ end); [discriminate|].
  destruct (last_triggered r); discriminate.
Qed.

Lemma strftime_unpack_round_trip_witness :
  unpack_hour_minute (Datetime.strftime_HM (Fixtures.at_time 23 59 58))
  = Some (23, 59).
Proof.
  apply (strftime_unpack_round_trip (Fixtures.at_time 23 59 58)).
  unfold Datetime.valid_time. simpl. lia.
Defined.

Lemma strftime_A_is_a_day_name (now : datetime) :
  In (Datetime.strftime_A now) Datetime.day_names.
Proof.
  unfold Datetime.strftime_A, Datetime.weekday.
  apply nth_In.
  pose proof (Z.mod_pos_bound (Datetime.toordinal (Datetime.date_of now) + 6) 7
                ltac:(lia)) as Hb.
  change (List.length Datetime.day_names) with 7%nat. lia.
Qed.

(** X4.  The day names are compared as they are written: a recurring
    reminder whose [days_of_week] is not empty and holds none of the
    seven names that [strftime("%A")] produces ("Monday", ..., "Sunday")
    is never due when evaluated with the current day of an instant. *)
Theorem is_reminder_due_unknown_day_names
  (r : Reminder) (days : list string) (now : datetime) (ct : string)
  (env : Env) (st : State) :
  is_recurring r = true ->
  days_of_week r = Some days ->
  days <> [] ->
  (forall d, In d days -> ~ In d Datetime.day_names) ->
  fst (is_reminder_due r ct (Datetime.strftime_A now) env st) <> Val true.
Proof.
  intros Hrec Hdays Hne Hnone.
  rewrite is_reminder_due_eq.
  destruct (negb (is_active r)); [discriminate|]. cbv zeta.
  destruct (match snooze_until r with Some _ => _ | None => false end);
    [discriminate|].
  destruct (unpack_hour_minute (reminder_time r)); [|discriminate].
  destruct (unpack_hour_minute ct); [|discriminate].
  destruct (_ >? 1); [discriminate|].
  unfold has_days. rewrite Hrec, Hdays.
  destruct days as [|d ds]; [congruence|].
  destruct (day_in (Datetime.strftime_A now) (d :: ds)) eqn:E;
    [|discriminate].
  exfalso. apply day_in_In in E.
  exact (Hnone _ E (strftime_A_is_a_day_name now)).
Qed.

Lemma is_reminder_due_unknown_day_names_witness :
  fst (is_reminder_due (Fixtures.on_days Fixtures.pill ["tuesday"; "Tue"])
         "09:00" (Datetime.strftime_A Fixtures.nine)
         (Fixtures.frozen Fixtures.nine) initial_state) <> Val true.
Proof.
  apply (is_reminder_due_unknown_day_names
           (Fixtures.on_days Fixtures.pill ["tuesday"; "Tue"])
           ["tuesday"; "Tue"] Fixtures.nine "09:00"
           (Fixtures.frozen Fixtures.nine) initial_state).
  - reflexivity.
  - reflexivity.
  - discriminate.
  - intros d [<-|[<-|[]]] H; cbn in H;
      repeat (destruct H as [H|H]; [discriminate H|]); exact H.
Defined.

(* ===================================================================== *)
(** ** More about the monitor endpoints                                   *)
(* ===================================================================== *)

Lemma consistent_flag_down (ms : MonitorState) :
  consistent ms -> reminder_monitor_running ms = false ->
  reminder_monitor_task ms = None /\ filter is_active_loop (tasks ms) = [].
Proof.
  intros [Hflag Hpend] Hrun.
  assert (Hnone : reminder_monitor_task ms = None).
  { destruct (reminder_monitor_task ms) eqn:E; [|reflexivity].
    destruct Hflag as [_ Hback].
    assert (reminder_monitor_running ms = true) by (apply Hback; congruence).
    congruence. }
  split; [exact Hnone|].
  destruct (filter is_active_loop (tasks ms)) as [|t ts] eqn:E; [reflexivity|].
  assert (Hin : In t (filter is_active_loop (tasks ms)))
    by (rewrite E; now left).
  apply filter_In in Hin. destruct Hin as [Hin Hact].
  apply In_nth_error in Hin. destruct Hin as [i Hi].
  unfold is_active_loop in Hact.
  assert (Hp : task_status_of t = Pending)
    by (destruct (task_status_of t); congruence).
  rewrite (Hpend i t Hi Hp) in Hnone. discriminate.
Qed.

(** X5.  Whenever the flag is down, after any history of requests and
    task endings, no handle is stored, no monitor task is active, and the
    status endpoint reports [running] and [task_active] both false. *)
Theorem monitor_flag_down (ms : MonitorState) :
  reachable ms ->
  reminder_monitor_running ms = false ->
  reminder_monitor_task ms = None
  /\ active_loops ms = 0%nat
  /\ get_monitoring_status ms = StatusReport false false.
Proof.
  intros Hr Hrun.
  destruct (consistent_flag_down ms (reachable_consistent ms Hr) Hrun)
    as [Hnone Hnil].
  repeat split; [exact Hnone|unfold active_loops; now rewrite Hnil|].
  unfold get_monitoring_status. now rewrite Hrun, Hnone.
Qed.

Lemma monitor_flag_down_witness :
  active_loops (serve_all [ReqStart "u1" 60; ReqStop; ReqStart "u2" 30; ReqStop]
                          initial_monitor) = 0%nat.
Proof.
  apply (monitor_flag_down
           (serve_all [ReqStart "u1" 60; ReqStop; ReqStart "u2" 30; ReqStop]
                      initial_monitor)).
  - apply reachable_serve_all, reachable_initial.
  - reflexivity.
Defined.

(** X6.  [start] on a monitor whose flag is down answers "started" with
    the interval and the user, raises the flag, creates one task for that
    user and interval and stores its handle; that task is then the only
    active one, and the status endpoint reports [running] and
    [task_active] both true. *)
Theorem start_creates_the_only_loop
  (ms : MonitorState) (user : string) (check_interval : Z) :
  reachable ms ->
  reminder_monitor_running ms = false ->
  start_reminder_monitoring user check_interval ms
  = (Started "Reminder monitoring started" check_interval user,
     mkMonitor true (Some (List.length (tasks ms)))
               (tasks ms ++ [mkTask user check_interval Pending]))
  /\ active_loops (snd (start_reminder_monitoring user check_interval ms))
     = 1%nat
  /\ get_monitoring_status
       (snd (start_reminder_monitoring user check_interval ms))
     = StatusReport true true.
Proof.
  intros Hr Hrun.
  destruct (consistent_flag_down ms (reachable_consistent ms Hr) Hrun)
    as [_ Hnil].
  unfold start_reminder_monitoring. rewrite Hrun. cbn [snd].
  repeat split.
  - unfold active_loops. cbn [tasks]. rewrite filter_app, Hnil. reflexivity.
  - unfold get_monitoring_status, done, status_of.
    cbn [reminder_monitor_running reminder_monitor_task tasks].
    rewrite nth_error_app2 by lia. rewrite Nat.sub_diag. reflexivity.
Qed.

Lemma start_creates_the_only_loop_witness :
  active_loops
    (snd (start_reminder_monitoring "u2" 30
            (serve_all [ReqStart "u1" 60; ReqStop] initial_monitor)))
  = 1%nat.
Proof.
  apply (start_creates_the_only_loop
           (serve_all [ReqStart "u1" 60; ReqStop] initial_monitor) "u2" 30).
  - apply reachable_serve_all, reachable_initial.
  - reflexivity.
Defined.

Lemma cancel_length (h : nat) (ts : list task) :
  List.length (cancel h ts) = List.length ts.
Proof.
  revert h. induction ts as [|t ts IH]; intros [|h]; cbn; auto.
Qed.

(** X7.  [stop] on a monitor whose flag is up answers "stopped", lowers
    the flag, asks the task of the stored handle to cancel and clears
    the handle; no task is created or removed, and no monitor task is
    active afterwards. *)
Theorem stop_cancels_the_loop (ms : MonitorState) :
  reachable ms ->
  reminder_monitor_running ms = true ->
  exists h,
    reminder_monitor_task ms = Some h
    /\ stop_reminder_monitoring ms
       = (Message "Reminder monitoring stopped",
          mkMonitor false None (cancel h (tasks ms)))
    /\ List.length (tasks (snd (stop_reminder_monitoring ms)))
       = List.length (tasks ms)
    /\ active_loops (snd (stop_reminder_monitoring ms)) = 0%nat.
Proof.
  intros Hr Hrun.
  pose proof (reachable_consistent ms Hr) as [Hflag _].
  destruct (reminder_monitor_task ms) as [h|] eqn:Hh;
    [|exfalso; now apply (proj1 Hflag Hrun)].
  exists h.
  assert (E : stop_reminder_monitoring ms
              = (Message "Reminder monitoring stopped",
                 mkMonitor false None (cancel h (tasks ms))))
    by (unfold stop_reminder_monitoring; now rewrite Hrun, Hh).
  repeat split; [exact E|rewrite E; apply cancel_length|].
  assert (Hr' : reachable (snd (stop_reminder_monitoring ms)))
    by (eapply reachable_step; [exact Hr|apply (step_request ReqStop)]).
  destruct (consistent_flag_down _ (reachable_consistent _ Hr')) as [_ Hnil];
    [now rewrite E|].
  unfold active_loops. now rewrite Hnil.
Qed.

Lemma stop_cancels_the_loop_witness :
  exists h,
    reminder_monitor_task Fixtures.restarted = Some h
    /\ stop_reminder_monitoring Fixtures.restarted
       = (Message "Reminder monitoring stopped",
          mkMonitor false None (cancel h (tasks Fixtures.restarted)))
    /\ List.length (tasks (snd (stop_reminder_monitoring Fixtures.restarted)))
       = List.length (tasks Fixtures.restarted)
    /\ active_loops (snd (stop_reminder_monitoring Fixtures.restarted))
       = 0%nat.
Proof.
  apply (stop_cancels_the_loop Fixtures.restarted).
  - apply reachable_serve_all, reachable_initial.
  - reflexivity.
Defined.

(* ===================================================================== *)
(** ** More about the monitor task                                        *)
(* ===================================================================== *)

(** All the notifications go through when the store answers every
    update. *)
Lemma notify_succeeds (self : nat) (now : datetime) (env : Env) :
  forall (due : list Reminder) (st : State),
    alive self (monitor st) ->
    stop_free env (awaits st) (awaits st + List.length due) ->
    (forall i x, nth_error due i = Some x ->
       exists v, store_update_reminder env (awaits st + i) (id x) now
                 = Returns v) ->
    notify self now due env st
    = (Val tt,
       mkState (monitor st) (reads st) (awaits st + List.length due)
         (trace st ++ flat_map (notification now) due)).
Proof.
  induction due as [|x due IH]; intros st Halive Hfree Hup;
    cbn [notify List.length flat_map].
  - unfold ret. rewrite app_nil_r, Nat.add_0_r. now destruct st.
  - unfold bind at 1. unfold emit at 1. cbv beta iota. unfold bind at 1.
    rewrite db_update_reminder_alive;
      [|exact Halive|apply Hfree; cbn; lia].
    cbn [monitor reads awaits trace].
    destruct (Hup 0%nat x eq_refl) as [v Hv].
    rewrite Nat.add_0_r in Hv. rewrite Hv.
    rewrite IH; cbn [monitor reads awaits trace].
    + f_equal. f_equal; [lia|].
      unfold notification at 2. cbn [app]. now rewrite <- !app_assoc.
    + exact Halive.
    + intros k Hk. apply Hfree. cbn in *. lia.
    + intros i y Hi. destruct (Hup (S i) y Hi) as [w Hw]. exists w.
      rewrite <- Hw. f_equal. lia.
Qed.

(** What the due-filter returns: what it was given, then a selection of
    the reminders, in their order, each of which was found due. *)
Lemma collect_due_selects (rs : list Reminder) (ct cd : string) (env : Env) :
  forall due st l,
    fst (collect_due rs ct cd due env st) = Val l ->
    exists picked,
      l = due ++ picked
      /\ subsequence picked rs
      /\ (forall r, In r picked ->
                    exists st0, fst (is_reminder_due r ct cd env st0) = Val true).
Proof.
  induction rs as [|r rs IH]; intros due st l; cbn [collect_due].
  - cbn. intros H. inversion H; subst. exists [].
    rewrite app_nil_r. repeat split; [constructor|intros r []].
  - unfold bind.
    destruct (is_reminder_due r ct cd env st) as [[b|e|] st1] eqn:E;
      cbn [fst]; [|discriminate|discriminate].
    intros H. destruct (IH _ _ _ H) as (picked & Hl & Hsub & Hall).
    destruct b.
    + exists (r :: picked). rewrite Hl, <- app_assoc. split; [reflexivity|].
      split; [now constructor|].
      intros r' [<-|Hin]; [|now apply Hall].
      exists st. now rewrite E.
    + exists picked. split; [exact Hl|]. split; [now constructor|exact Hall].
Qed.

(** The line that announces the due reminders, absent when there are
    none. *)
Lemma iteration_succeeds
  (self : nat) (user : string) (check_interval : Z)
  (env : Env) (st : State) (rs due : list Reminder) :
  check_interval < float_overflow ->
  alive self (monitor st) ->
  stop_free env (awaits st) (awaits st + List.length due + 2) ->
  store_get_reminders env (awaits st) user true = Returns rs ->
  fst (collect_due rs (Datetime.strftime_HM (clock env (reads st)))
         (Datetime.strftime_A (clock env (reads st))) [] env (clock_read 1 st))
  = Val due ->
  (forall i x, nth_error due i = Some x ->
     exists v, store_update_reminder env (awaits st + 1 + i) (id x)
                 (clock env (reads st)) = Returns v) ->
  exists n,
    iteration self user check_interval env st
    = (Val tt,
       mkState (monitor st) n (awaits st + List.length due + 2)
         (trace st
          ++ [LogChecking (Datetime.strftime_HM (clock env (reads st)))
                          (Datetime.strftime_A (clock env (reads st)));
              CallGetReminders user true]
          ++ match due with
             | [] => []
             | _ :: _ => [LogFound (List.length due)]
             end
          ++ flat_map (notification (clock env (reads st))) due
          ++ [Sleep check_interval])).
Proof.
  intros Hlt Halive Hfree Hget Hdue Hup.
  unfold iteration, try_except, tick.
  unfold bind at 1. unfold datetime_now at 1. cbv beta iota.
  unfold bind at 1. unfold emit at 1. cbv beta iota.
  unfold bind at 1. unfold db_get_reminders.
  unfold bind at 1. unfold emit at 1. cbv beta iota.
  unfold bind at 1.
  rewrite suspend_alive; [|exact Halive|apply Hfree; cbn; lia].
  cbn [monitor reads awaits trace].
  rewrite Hget. cbn [of_reply]. unfold ret at 1. cbv beta iota.
  unfold bind at 1.
  change (S (reads st)) with (reads (clock_read 1 st)).
  rewrite collect_due_frame, Hdue. cbv beta iota.
  unfold bind at 1.
  destruct due as [|d ds].
  - unfold ret at 1. cbv beta iota.
    rewrite asyncio_sleep_alive;
      [|exact Hlt|exact Halive|apply Hfree; cbn; lia].
    cbn [monitor reads awaits trace List.length flat_map app].
    eexists. f_equal. f_equal; [lia|now rewrite <- !app_assoc].
  - unfold bind at 1. unfold emit at 1. cbv beta iota.
    rewrite (notify_succeeds self (clock env (reads st)) env (d :: ds));
      cbn [monitor reads awaits trace].
    + rewrite asyncio_sleep_alive;
        [|exact Hlt|exact Halive
         |apply Hfree; cbn [awaits List.length] in *; lia].
      cbn [monitor reads awaits trace].
      eexists. f_equal. f_equal; [lia|].
      rewrite <- !app_assoc. reflexivity.
    + exact Halive.
    + intros k Hk. apply Hfree. cbn [List.length] in *. lia.
    + intros i x Hi. destruct (Hup i x Hi) as [v Hv]. exists v.
      rewrite <- Hv. f_equal. lia.
Qed.

(** X8.  With a [check_interval] that [asyncio.sleep] can take, a tick
    in which no fetched reminder is due (an empty store in particular)
    logs the check, fetches, and sleeps: it writes nothing to the store
    and announces nothing. *)
Theorem tick_with_nothing_due
  (self : nat) (user : string) (check_interval : Z)
  (env : Env) (st : State) (rs : list Reminder) :
  check_interval < float_overflow ->
  alive self (monitor st) ->
  stop_free env (awaits st) (awaits st + 2) ->
  store_get_reminders env (awaits st) user true = Returns rs ->
  fst (collect_due rs (Datetime.strftime_HM (clock env (reads st)))
         (Datetime.strftime_A (clock env (reads st))) [] env (clock_read 1 st))
  = Val [] ->
  fst (iteration self user check_interval env st) = Val tt
  /\ trace (snd (iteration self user check_interval env st))
     = trace st
       ++ [LogChecking (Datetime.strftime_HM (clock env (reads st)))
                       (Datetime.strftime_A (clock env (reads st)));
           CallGetReminders user true;
           Sleep check_interval]
  /\ awaits (snd (iteration self user check_interval env st))
     = (awaits st + 2)%nat.
Proof.
  intros Hlt Halive Hfree Hget Hdue.
  destruct (iteration_succeeds self user check_interval env st rs []
              Hlt Halive) as [n E].
  - intros k Hk. apply Hfree. cbn in Hk. lia.
  - exact Hget.
  - exact Hdue.
  - intros [|i] x H; discriminate H.
  - rewrite E. cbn [fst snd trace awaits List.length flat_map app].
    repeat split. lia.
Qed.

Lemma tick_with_nothing_due_witness :
  trace (snd (iteration 0 "u1" 60
                (Fixtures.serving [Fixtures.snoozed_pill] Fixtures.updates_ok
                                  Fixtures.nine)
                Fixtures.running_state))
  = [LogChecking "09:00" "Tuesday"; CallGetReminders "u1" true; Sleep 60].
Proof.
  apply (tick_with_nothing_due 0 "u1" 60
           (Fixtures.serving [Fixtures.snoozed_pill] Fixtures.updates_ok
                             Fixtures.nine)
           Fixtures.running_state [Fixtures.snoozed_pill]).
  - reflexivity.
  - split; reflexivity.
  - intros k _ H. exact H.
  - reflexivity.
  - reflexivity.
Defined.

(** X9.  With a [check_interval] that [asyncio.sleep] can take: in a tick
    that goes through, the due reminders are a selection of the store's
    answer, in its order; they are announced with their number, then
    each of them, in that order, is notified and updated once, every
    update carrying the instant captured at the start of the tick; an
    update answered with "not found" counts like any other; the sleep
    comes last. *)
Theorem tick_notifies_every_due_reminder
  (self : nat) (user : string) (check_interval : Z)
  (env : Env) (st : State) (rs due : list Reminder) :
  check_interval < float_overflow ->
  alive self (monitor st) ->
  stop_free env (awaits st) (awaits st + List.length due + 2) ->
  store_get_reminders env (awaits st) user true = Returns rs ->
  fst (collect_due rs (Datetime.strftime_HM (clock env (reads st)))
         (Datetime.strftime_A (clock env (reads st))) [] env (clock_read 1 st))
  = Val due ->
  due <> [] ->
  (forall i x, nth_error due i = Some x ->
     exists v, store_update_reminder env (awaits st + 1 + i) (id x)
                 (clock env (reads st)) = Returns v) ->
  subsequence due rs
  /\ fst (iteration self user check_interval env st) = Val tt
  /\ trace (snd (iteration self user check_interval env st))
     = trace st
       ++ [LogChecking (Datetime.strftime_HM (clock env (reads st)))
                       (Datetime.strftime_A (clock env (reads st)));
           CallGetReminders user true;
           LogFound (List.length due)]
       ++ flat_map (notification (clock env (reads st))) due
       ++ [Sleep check_interval].
Proof.
  intros Hlt Halive Hfree Hget Hdue Hne Hup.
  split.
  { destruct (collect_due_selects _ _ _ _ _ _ _ Hdue)
      as (picked & Hl & Hsub & _).
    cbn [app] in Hl. now subst picked. }
  destruct (iteration_succeeds self user check_interval env st rs due
              Hlt Halive Hfree Hget Hdue Hup) as [n E].
  rewrite E. cbn [fst snd trace].
  destruct due as [|d ds]; [congruence|].
  split; reflexivity.
Qed.

Lemma tick_notifies_every_due_reminder_witness :
  subsequence [Fixtures.walk; Fixtures.pill]
              [Fixtures.walk; Fixtures.snoozed_pill; Fixtures.pill]
  /\ fst (iteration 0 "u1" 60
            (Fixtures.serving
               [Fixtures.walk; Fixtures.snoozed_pill; Fixtures.pill]
               Fixtures.updates_ok Fixtures.nine)
            Fixtures.running_state) = Val tt
  /\ trace (snd (iteration 0 "u1" 60
                   (Fixtures.serving
                      [Fixtures.walk; Fixtures.snoozed_pill; Fixtures.pill]
                      Fixtures.updates_ok Fixtures.nine)
                   Fixtures.running_state))
     = [LogChecking "09:00" "Tuesday"; CallGetReminders "u1" true; LogFound 2;
        LogDue "Walk" "09:00"; CallUpdateReminder "r2" Fixtures.nine;
        LogDue "Pill" "09:00"; CallUpdateReminder "r1" Fixtures.nine;
        Sleep 60].
Proof.
  apply (tick_notifies_every_due_reminder 0 "u1" 60
           (Fixtures.serving
              [Fixtures.walk; Fixtures.snoozed_pill; Fixtures.pill]
              Fixtures.updates_ok Fixtures.nine)
           Fixtures.running_state
           [Fixtures.walk; Fixtures.snoozed_pill; Fixtures.pill]
           [Fixtures.walk; Fixtures.pill]).
  - reflexivity.
  - split; reflexivity.
  - intros k _ H. exact H.
  - reflexivity.
  - reflexivity.
  - discriminate.
  - intros i x _. now exists None.
Defined.

Lemma serve_all_keeps_cancelling (self : nat) (rqs : list request) :
  forall ms,
    status_of self (tasks ms) = Some Cancelling ->
    status_of self (tasks (serve_all rqs ms)) = Some Cancelling.
Proof.
  induction rqs as [|rq rqs IH]; intros ms Hms; cbn; [exact Hms|].
  apply IH. now apply serve_keeps_cancelling.
Qed.

(** A [stop] among the requests served reaches the task of the handle. *)
Lemma serve_all_stop (self : nat) (rqs : list request) :
  forall ms,
    reminder_monitor_running ms = true ->
    reminder_monitor_task ms = Some self ->
    status_of self (tasks ms) = Some Pending ->
    In ReqStop rqs ->
    status_of self (tasks (serve_all rqs ms)) = Some Cancelling.
Proof.
  induction rqs as [|rq rqs IH]; intros ms Hrun Hh Hp Hin; [destruct Hin|].
  cbn [serve_all fold_left].
  change (fold_left (fun s rq0 => snd (serve rq0 s)) rqs (snd (serve rq ms)))
    with (serve_all rqs (snd (serve rq ms))).
  destruct rq as [u iv| |].
  - cbn [serve]. unfold start_reminder_monitoring. rewrite Hrun. cbn [snd].
    apply IH; try assumption.
    destruct Hin as [H|H]; [discriminate H|exact H].
  - apply serve_all_keeps_cancelling.
    cbn [serve]. unfold stop_reminder_monitoring. rewrite Hrun, Hh.
    cbn [negb snd tasks]. unfold status_of in *.
    rewrite cancel_nth, Nat.eqb_refl.
    destruct (nth_error (tasks ms) self) as [t|]; [|discriminate].
    cbn in *. unfold cancel_task. inversion Hp as [Hs]. rewrite Hs.
    reflexivity.
  - cbn [serve snd]. apply IH; try assumption.
    destruct Hin as [H|H]; [discriminate H|exact H].
Qed.

(** X10.  A [stop] served while the task waits for the store's answer to
    the fetch takes effect at that very point: the turn of the loop ends
    there with the cancellation, which the handler of the tick does not
    catch; no reminder is evaluated or notified, no error is logged, and
    the task does not sleep again. *)
Theorem stop_during_fetch
  (self : nat) (user : string) (check_interval : Z) (fuel : nat)
  (env : Env) (st : State) :
  reminder_monitor_running (monitor st) = true ->
  reminder_monitor_task (monitor st) = Some self ->
  status_of self (tasks (monitor st)) = Some Pending ->
  In ReqStop (requests env (awaits st)) ->
  iteration self user check_interval env st
  = (Cancelled,
     mkState (serve_all (requests env (awaits st)) (monitor st))
       (S (reads st)) (S (awaits st))
       (trace st
        ++ [LogChecking (Datetime.strftime_HM (clock env (reads st)))
                        (Datetime.strftime_A (clock env (reads st)));
            CallGetReminders user true]))
  /\ fst (monitor_loop self user check_interval (S fuel) env st)
     = Some Cancelled.
Proof.
  intros Hrun Hh Hp Hin.
  assert (E : iteration self user check_interval env st
              = (Cancelled,
                 mkState (serve_all (requests env (awaits st)) (monitor st))
                   (S (reads st)) (S (awaits st))
                   (trace st
                    ++ [LogChecking
                          (Datetime.strftime_HM (clock env (reads st)))
                          (Datetime.strftime_A (clock env (reads st)));
                        CallGetReminders user true]))).
  { unfold iteration, try_except, tick.
    unfold bind at 1. unfold datetime_now at 1. cbv beta iota.
    unfold bind at 1. unfold emit at 1. cbv beta iota.
    unfold bind at 1. unfold db_get_reminders.
    unfold bind at 1. unfold emit at 1. cbv beta iota.
    unfold bind at 1. unfold suspend at 1, cancel_requested.
    cbn [monitor reads awaits trace].
    rewrite (serve_all_stop self _ _ Hrun Hh Hp Hin).
    now rewrite <- app_assoc. }
  split; [exact E|].
  cbn [monitor_loop]. rewrite Hrun. cbn [negb]. now rewrite E.
Qed.

Lemma stop_during_fetch_witness :
  fst (monitor_loop 0 "u1" 60 3
         (mkEnv (fun _ => Fixtures.nine) (Returns tt)
                (fun _ _ _ => Returns [Fixtures.pill])
                (fun _ _ _ => Returns None)
                (fun k => match k with 1%nat => [ReqStatus; ReqStop] | _ => [] end))
         Fixtures.running_state)
  = Some Cancelled.
Proof.
  apply (stop_during_fetch 0 "u1" 60 2
           (mkEnv (fun _ => Fixtures.nine) (Returns tt)
                  (fun _ _ _ => Returns [Fixtures.pill])
                  (fun _ _ _ => Returns None)
                  (fun k => match k with
                            | 1%nat => [ReqStatus; ReqStop]
                            | _ => []
                            end))
           Fixtures.running_state).
  - reflexivity.
  - reflexivity.
  - reflexivity.
  - right. left. reflexivity.
Defined.

Lemma finish_done (self : nat) (ts : list task) (s : task_status) :
  status_of self ts = Some s -> done self (finish self ts) = true.
Proof.
  unfold done, status_of. revert self.
  induction ts as [|t ts IH]; intros [|n]; cbn; try discriminate; auto.
Qed.

(** X11.  When [DatabaseService()] fails as the task takes its first
    step, the task ends with that exception before any tick: nothing is
    logged, and nothing lowers the flag or clears the handle.  From then
    on the status endpoint reports [running] true with [task_active]
    false, and [start] answers "already running" without creating a
    task. *)
Theorem monitor_dies_at_construction
  (self : nat) (user : string) (check_interval : Z) (fuel : nat)
  (env : Env) (st : State) (e : exception) :
  reminder_monitor_running (monitor st) = true ->
  reminder_monitor_task (monitor st) = Some self ->
  status_of self (tasks (monitor st)) = Some Pending ->
  ~ In ReqStop (requests env (awaits st)) ->
  store_init env = Fails e ->
  exists ms,
    run_task self user check_interval fuel env st
    = (Some (Raise e), mkState ms (reads st) (S (awaits st)) (trace st))
    /\ ms = mkMonitor true (Some self) (finish self (tasks (monitor st)))
    /\ get_monitoring_status ms = StatusReport true false
    /\ (forall u iv,
           start_reminder_monitoring u iv ms
           = (Message "Reminder monitoring is already running", ms)).
Proof.
  intros Hrun Hh Hp Hno Hinit.
  assert (Halive : alive self (monitor st)).
  { split; [exact Hrun|]. unfold cancel_requested. now rewrite Hp. }
  eexists. split; [|split; [reflexivity|split]].
  - unfold run_task, monitor_reminders.
    unfold bind at 1.
    rewrite suspend_alive; [|exact Halive|exact Hno].
    rewrite Hinit. cbn [of_reply]. unfold raise.
    cbn [monitor reads awaits trace]. rewrite Hrun, Hh. reflexivity.
  - unfold get_monitoring_status.
    cbn [reminder_monitor_running reminder_monitor_task tasks].
    now rewrite (finish_done self _ _ Hp).
  - intros u iv. reflexivity.
Qed.

Lemma monitor_dies_at_construction_witness :
  exists ms,
    run_task 0 "u1" 60 5 HandlerFixtures.no_database
             (mkState Fixtures.started 0 0 [])
    = (Some (Raise (StoreError 1)), mkState ms 0 1 [])
    /\ ms = mkMonitor true (Some 0%nat) (finish 0 (tasks Fixtures.started))
    /\ get_monitoring_status ms = StatusReport true false
    /\ (forall u iv,
           start_reminder_monitoring u iv ms
           = (Message "Reminder monitoring is already running", ms)).
Proof.
  apply (monitor_dies_at_construction 0 "u1" 60 5 HandlerFixtures.no_database
           (mkState Fixtures.started 0 0 []) (StoreError 1)).
  - reflexivity.
  - reflexivity.
  - reflexivity.
  - intros H. exact H.
  - reflexivity.
Defined.

Lemma bind_val {A B} (m : M A) (k : A -> M B) (env : Env) (st : State) (b : B) :
  fst (bind m k env st) = Val b ->
  exists a st1, m env st = (Val a, st1) /\ fst (k a env st1) = Val b.
Proof.
  unfold bind. destruct (m env st) as [[a|e|] st1]; cbn [fst];
    [|discriminate|discriminate].
  intros H. now exists a, st1.
Qed.

(** With an interval that cannot be slept, the body of the [try] never
    completes. *)
Lemma tick_overflow (self : nat) (user : string) (check_interval : Z)
      (env : Env) (st : State) (a : unit) :
  float_overflow <= check_interval ->
  fst (tick self user check_interval env st) <> Val a.
Proof.
  intros Hge H. unfold tick in H.
  apply bind_val in H. destruct H as (now & st1 & _ & H).
  apply bind_val in H. destruct H as (u1 & st2 & _ & H).
  apply bind_val in H. destruct H as (rs & st3 & _ & H).
  apply bind_val in H. destruct H as (due & st4 & _ & H).
  apply bind_val in H. destruct H as (u2 & st5 & _ & H).
  rewrite asyncio_sleep_overflow in H by exact Hge. discriminate H.
Qed.

Lemma iteration_overflow (self : nat) (user : string) (check_interval : Z)
      (env : Env) (st : State) :
  float_overflow <= check_interval ->
  fst (iteration self user check_interval env st) = Raise FloatOverflowError
  \/ fst (iteration self user check_interval env st) = Cancelled.
Proof.
  intros Hge. unfold iteration, try_except.
  pose proof (fun a => tick_overflow self user check_interval env st a Hge)
    as Hnv.
  destruct (tick self user check_interval env st) as [[a|e|] st1];
    cbn [fst] in *.
  - exfalso. now apply (Hnv a).
  - left. unfold bind at 1, emit. cbv beta iota.
    now rewrite asyncio_sleep_overflow by exact Hge.
  - now right.
Qed.

(** X22.  With a [check_interval] that [asyncio.sleep] cannot take
    ([float_overflow] or more), the loop, once entered with the flag up,
    ends in its first turn, whatever the store and the reminders do: by
    the [OverflowError] of the sleep in the handler, which nothing
    catches, or by the cancellation when a [stop] comes first.  As long
    as no [stop] is served it is the [OverflowError]: the task has ended
    without having slept once, and the flag is still up. *)
Theorem monitor_ends_on_huge_interval
  (self : nat) (user : string) (check_interval : Z) (fuel : nat)
  (env : Env) (st : State) :
  float_overflow <= check_interval ->
  reminder_monitor_running (monitor st) = true ->
  (fst (monitor_loop self user check_interval (S fuel) env st)
   = Some (Raise FloatOverflowError)
   \/ fst (monitor_loop self user check_interval (S fuel) env st)
      = Some Cancelled)
  /\ (cancel_requested self (monitor st) = false ->
      stop_free env (awaits st)
        (awaits (snd (monitor_loop self user check_interval (S fuel) env st))) ->
      fst (monitor_loop self user check_interval (S fuel) env st)
      = Some (Raise FloatOverflowError)
      /\ slept (trace (snd (monitor_loop self user check_interval (S fuel)
                              env st)))
         = slept (trace st)
      /\ reminder_monitor_running
           (monitor (snd (monitor_loop self user check_interval (S fuel)
                            env st))) = true).
Proof.
  intros Hge Hrun. cbn [monitor_loop]. rewrite Hrun. cbn [negb].
  pose proof (iteration_overflow self user check_interval env st Hge) as Hit.
  destruct (calm_iteration self user check_interval env st) as [_ Hpost].
  destruct (iteration self user check_interval env st) as [[a|e|] st1];
    cbn [fst snd] in *.
  - destruct Hit as [Hit|Hit]; discriminate Hit.
  - destruct Hit as [Hit|Hit]; [|discriminate Hit].
    inversion Hit; subst e. split; [now left|].
    intros Hc Hfree.
    destruct (Hpost (conj Hrun Hc) Hfree) as (_ & Hmon & Hsl).
    split; [reflexivity|]. split.
    + now rewrite Hsl, app_nil_r.
    + now rewrite Hmon.
  - split; [now right|].
    intros Hc Hfree.
    destruct (Hpost (conj Hrun Hc) Hfree) as (Hnc & _). congruence.
Qed.

Lemma monitor_ends_on_huge_interval_witness :
  fst (monitor_loop 0 "u1" (10 ^ 400) 3
         (Fixtures.serving [Fixtures.pill] Fixtures.updates_ok Fixtures.nine)
         Fixtures.running_state)
  = Some (Raise FloatOverflowError)
  /\ slept (trace (snd (monitor_loop 0 "u1" (10 ^ 400) 3
                          (Fixtures.serving [Fixtures.pill] Fixtures.updates_ok
                                            Fixtures.nine)
                          Fixtures.running_state)))
     = []
  /\ reminder_monitor_running
       (monitor (snd (monitor_loop 0 "u1" (10 ^ 400) 3
                        (Fixtures.serving [Fixtures.pill] Fixtures.updates_ok
                                          Fixtures.nine)
                        Fixtures.running_state))) = true.
Proof.
  apply (proj2 (monitor_ends_on_huge_interval 0 "u1" (10 ^ 400) 2
                  (Fixtures.serving [Fixtures.pill] Fixtures.updates_ok
                                    Fixtures.nine)
                  Fixtures.running_state ltac:(vm_compute; discriminate)
                  eq_refl)).
  - reflexivity.
  - intros k _ H. exact H.
Defined.

(* ===================================================================== *)
(** ** The request handlers                                               *)
(* ===================================================================== *)

Lemma db_call_eq {A} (c : store_call) (answer : Store -> nat -> reply A)
      (s : Store) (hst : HState) :
  db_call c answer s hst
  = (match answer s (awaits (core hst)) with
     | Returns a => Returned a
     | Fails e => Raised (Uncaught (Builtin e))
     end,
     mkHState (resumed s hst) (hlog hst ++ [Call c])).
Proof.
  unfold db_call, hbind, record, hsuspend, resumed. cbn.
  destruct (answer s (awaits (core hst))); reflexivity.
Qed.

Lemma lift_datetime_now_eq (s : Store) (hst : HState) :
  lift datetime_now s hst
  = (Returned (clock (world s) (reads (core hst))),
     mkHState (clock_read 1 (core hst)) (hlog hst)).
Proof. reflexivity. Qed.

Ltac run_handler :=
  unfold get_reminders, create_reminder, update_reminder, delete_reminder,
         get_due_reminders, snooze_reminder, complete_reminder,
         snooze_instant, try_500, try_http_500, hbind;
  rewrite ?lift_datetime_now_eq, ?db_call_eq;
  cbn [core hlog clock_read reads awaits monitor trace].

Ltac handler_step H :=
  rewrite ?H; cbv beta iota; cbn [found hret hraise record fst snd hlog core];
  rewrite ?lift_datetime_now_eq, ?db_call_eq;
  cbn [core hlog clock_read reads awaits monitor trace resumed].

(** X13.  When the store does not find the reminder, the four handlers
    that act on one reminder answer 404 "Reminder not found": the
    [HTTPException] raised inside the [try] is re-raised as it is, not
    turned into a 500, and no error is logged; [complete_reminder] then
    writes no medication log. *)
Theorem handlers_not_found
  (describe : raised -> string) (s : Store) (hst : HState) (rid : string) :
  (forall update,
      update_reminder_reply s (awaits (core hst)) rid update = Returns None ->
      fst (update_reminder describe rid update s hst)
      = Raised (HTTPException 404 "Reminder not found")
      /\ hlog (snd (update_reminder describe rid update s hst))
         = hlog hst ++ [Call (UpdateReminder rid update)])
  /\ (delete_reminder_reply s (awaits (core hst)) rid = Returns false ->
      fst (delete_reminder describe rid s hst)
      = Raised (HTTPException 404 "Reminder not found")
      /\ hlog (snd (delete_reminder describe rid s hst))
         = hlog hst ++ [Call (DeleteReminder rid)])
  /\ (forall minutes until,
      Calendar.add_minutes (clock (world s) (reads (core hst))) minutes
      = Some until ->
      update_reminder_reply s (awaits (core hst)) rid (SetSnoozeUntil until)
      = Returns None ->
      fst (snooze_reminder describe rid minutes s hst)
      = Raised (HTTPException 404 "Reminder not found")
      /\ hlog (snd (snooze_reminder describe rid minutes s hst))
         = hlog hst ++ [Call (UpdateReminder rid (SetSnoozeUntil until))])
  /\ (forall medication_id,
      update_reminder_reply s (awaits (core hst)) rid
        (SetLastTriggered (clock (world s) (reads (core hst))))
      = Returns None ->
      fst (complete_reminder describe rid medication_id s hst)
      = Raised (HTTPException 404 "Reminder not found")
      /\ hlog (snd (complete_reminder describe rid medication_id s hst))
         = hlog hst
           ++ [Call (UpdateReminder rid
                       (SetLastTriggered
                          (clock (world s) (reads (core hst)))))]).
Proof.
  split; [|split; [|split]].
  - intros update Hnone. run_handler. handler_step Hnone. split; reflexivity.
  - intros Hnone. run_handler. handler_step Hnone. split; reflexivity.
  - intros minutes until Hadd Hnone. run_handler. handler_step Hadd.
    handler_step Hnone. split; reflexivity.
  - intros medication_id Hnone. run_handler. handler_step Hnone.
    split; reflexivity.
Qed.

Lemma handlers_not_found_witness :
  fst (complete_reminder HandlerFixtures.describe "r7" (Some "m1")
         (HandlerFixtures.store (Fixtures.frozen Fixtures.nine)
                                (Returns None) (Returns tt))
         HandlerFixtures.fresh)
  = Raised (HTTPException 404 "Reminder not found")
  /\ hlog (snd (complete_reminder HandlerFixtures.describe "r7" (Some "m1")
                  (HandlerFixtures.store (Fixtures.frozen Fixtures.nine)
                                         (Returns None) (Returns tt))
                  HandlerFixtures.fresh))
     = [Call (UpdateReminder "r7" (SetLastTriggered Fixtures.nine))].
Proof.
  apply (proj2 (proj2 (proj2
           (handlers_not_found HandlerFixtures.describe
              (HandlerFixtures.store (Fixtures.frozen Fixtures.nine)
                                     (Returns None) (Returns tt))
              HandlerFixtures.fresh "r7"))) (Some "m1")).
  reflexivity.
Defined.

(** X14.  When the store fails with [e] on the one call a handler makes,
    the handler logs one error line and answers 500 with the text of
    [e]; this holds for the seven handlers alike. *)
Theorem handlers_store_failure
  (describe : raised -> string) (s : Store) (hst : HState) (e : exception) :
  (forall user active_only,
      store_get_reminders (world s) (awaits (core hst)) user active_only
      = Fails e ->
      fst (get_reminders describe user active_only s hst)
      = Raised (HTTPException 500 (describe (Uncaught (Builtin e))))
      /\ hlog (snd (get_reminders describe user active_only s hst))
         = hlog hst
           ++ [Call (GetReminders user active_only);
               LogErrorLine "Error getting reminders: " (Uncaught (Builtin e))])
  /\ (forall reminder,
      add_reminder_reply s (awaits (core hst)) reminder = Fails e ->
      fst (create_reminder describe reminder s hst)
      = Raised (HTTPException 500 (describe (Uncaught (Builtin e))))
      /\ hlog (snd (create_reminder describe reminder s hst))
         = hlog hst
           ++ [Call (AddReminder reminder);
               LogErrorLine "Error creating reminder: " (Uncaught (Builtin e))])
  /\ (forall rid update,
      update_reminder_reply s (awaits (core hst)) rid update = Fails e ->
      fst (update_reminder describe rid update s hst)
      = Raised (HTTPException 500 (describe (Uncaught (Builtin e))))
      /\ hlog (snd (update_reminder describe rid update s hst))
         = hlog hst
           ++ [Call (UpdateReminder rid update);
               LogErrorLine "Error updating reminder: " (Uncaught (Builtin e))])
  /\ (forall rid,
      delete_reminder_reply s (awaits (core hst)) rid = Fails e ->
      fst (delete_reminder describe rid s hst)
      = Raised (HTTPException 500 (describe (Uncaught (Builtin e))))
      /\ hlog (snd (delete_reminder describe rid s hst))
         = hlog hst
           ++ [Call (DeleteReminder rid);
               LogErrorLine "Error deleting reminder: " (Uncaught (Builtin e))])
  /\ (forall user,
      store_get_reminders (world s) (awaits (core hst)) user true = Fails e ->
      fst (get_due_reminders describe user s hst)
      = Raised (HTTPException 500 (describe (Uncaught (Builtin e))))
      /\ hlog (snd (get_due_reminders describe user s hst))
         = hlog hst
           ++ [Call (GetReminders user true);
               LogErrorLine "Error getting due reminders: "
                            (Uncaught (Builtin e))])
  /\ (forall rid minutes until,
      Calendar.add_minutes (clock (world s) (reads (core hst))) minutes
      = Some until ->
      update_reminder_reply s (awaits (core hst)) rid (SetSnoozeUntil until)
      = Fails e ->
      fst (snooze_reminder describe rid minutes s hst)
      = Raised (HTTPException 500 (describe (Uncaught (Builtin e))))
      /\ hlog (snd (snooze_reminder describe rid minutes s hst))
         = hlog hst
           ++ [Call (UpdateReminder rid (SetSnoozeUntil until));
               LogErrorLine "Error snoozing reminder: " (Uncaught (Builtin e))])
  /\ (forall rid medication_id,
      update_reminder_reply s (awaits (core hst)) rid
        (SetLastTriggered (clock (world s) (reads (core hst)))) = Fails e ->
      fst (complete_reminder describe rid medication_id s hst)
      = Raised (HTTPException 500 (describe (Uncaught (Builtin e))))
      /\ hlog (snd (complete_reminder describe rid medication_id s hst))
         = hlog hst
           ++ [Call (UpdateReminder rid
                       (SetLastTriggered (clock (world s) (reads (core hst)))));
               LogErrorLine "Error completing reminder: "
                            (Uncaught (Builtin e))]).
Proof.
  split; [|split; [|split; [|split; [|split; [|split]]]]].
  - intros user active_only Hf. run_handler. handler_step Hf.
    split; [reflexivity|now rewrite <- app_assoc].
  - intros reminder Hf. run_handler. handler_step Hf.
    split; [reflexivity|now rewrite <- app_assoc].
  - intros rid update Hf. run_handler. handler_step Hf.
    split; [reflexivity|now rewrite <- app_assoc].
  - intros rid Hf. run_handler. handler_step Hf.
    split; [reflexivity|now rewrite <- app_assoc].
  - intros user Hf. run_handler. handler_step Hf.
    split; [reflexivity|now rewrite <- app_assoc].
  - intros rid minutes until Hadd Hf. run_handler. handler_step Hadd.
    handler_step Hf. split; [reflexivity|now rewrite <- app_assoc].
  - intros rid medication_id Hf. run_handler. handler_step Hf.
    split; [reflexivity|now rewrite <- app_assoc].
Qed.

Lemma handlers_store_failure_witness :
  fst (create_reminder HandlerFixtures.describe (CreateBody "{}")
         (HandlerFixtures.store (Fixtures.frozen Fixtures.nine)
                                (Returns None) (Returns tt))
         HandlerFixtures.fresh)
  = Raised (HTTPException 500 "store error")
  /\ hlog (snd (create_reminder HandlerFixtures.describe (CreateBody "{}")
                  (HandlerFixtures.store (Fixtures.frozen Fixtures.nine)
                                         (Returns None) (Returns tt))
                  HandlerFixtures.fresh))
     = [Call (AddReminder (CreateBody "{}"));
        LogErrorLine "Error creating reminder: "
                     (Uncaught (Builtin (StoreError 503)))].
Proof.
  apply (proj1 (proj2
           (handlers_store_failure HandlerFixtures.describe
              (HandlerFixtures.store (Fixtures.frozen Fixtures.nine)
                                     (Returns None) (Returns tt))
              HandlerFixtures.fresh (StoreError 503))) (CreateBody "{}")).
  reflexivity.
Defined.

(** X15.  [complete_reminder] writes the medication log as a best
    effort.  Once the store has updated the reminder, the answer is
    "Reminder marked as completed" with the instant read at the start:
    without a medication identifier (absent or empty) no log is
    written; with one, the log entry carries the owner of the updated
    reminder, the identifier, that same instant, its "HH:MM" and the
    status "taken"; and when writing it fails, the failure is a warning
    and the answer is the same. *)
Theorem complete_reminder_best_effort
  (describe : raised -> string) (s : Store) (hst : HState)
  (rid : string) (updated : Reminder) :
  update_reminder_reply s (awaits (core hst)) rid
    (SetLastTriggered (clock (world s) (reads (core hst))))
  = Returns (Some updated) ->
  (forall medication_id,
      truthy medication_id = None ->
      fst (complete_reminder describe rid medication_id s hst)
      = Returned ("Reminder marked as completed",
                  Calendar.isoformat (clock (world s) (reads (core hst))))
      /\ hlog (snd (complete_reminder describe rid medication_id s hst))
         = hlog hst
           ++ [Call (UpdateReminder rid
                       (SetLastTriggered
                          (clock (world s) (reads (core hst)))))])
  /\ (forall medication_id medication answer,
      truthy medication_id = Some medication ->
      add_medication_log_reply s (S (awaits (core hst)))
        (mkMedicationLog (user_id updated) medication
           (clock (world s) (reads (core hst)))
           (Datetime.strftime_HM (clock (world s) (reads (core hst))))
           "taken") = answer ->
      fst (complete_reminder describe rid medication_id s hst)
      = Returned ("Reminder marked as completed",
                  Calendar.isoformat (clock (world s) (reads (core hst))))
      /\ hlog (snd (complete_reminder describe rid medication_id s hst))
         = hlog hst
           ++ [Call (UpdateReminder rid
                       (SetLastTriggered
                          (clock (world s) (reads (core hst)))));
               Call (AddMedicationLog
                       (mkMedicationLog (user_id updated) medication
                          (clock (world s) (reads (core hst)))
                          (Datetime.strftime_HM
                             (clock (world s) (reads (core hst))))
                          "taken"));
               match answer with
               | Returns _ =>
                   LogInfoLine ("Medication log created for reminder "
                                ++ rid)%string
               | Fails e =>
                   LogWarningLine "Failed to create medication log: "
                                  (Uncaught (Builtin e))
               end]).
Proof.
  intros Hup. split.
  - intros medication_id Hm. run_handler. handler_step Hup. rewrite Hm.
    cbn. split; reflexivity.
  - intros medication_id medication answer Hm Hlog. run_handler.
    handler_step Hup. rewrite Hm. unfold log_medication, hbind.
    rewrite db_call_eq.
    cbn [core hlog clock_read reads awaits monitor trace resumed].
    rewrite Hlog. destruct answer as [u|e]; cbn;
      (split; [reflexivity|now rewrite <- !app_assoc]).
Qed.

Lemma complete_reminder_best_effort_witness :
  fst (complete_reminder HandlerFixtures.describe "r1" (Some "m1")
         (HandlerFixtures.store (Fixtures.frozen Fixtures.nine)
                                (Returns (Some Fixtures.pill))
                                (Fails (StoreError 7)))
         HandlerFixtures.fresh)
  = Returned ("Reminder marked as completed", "2026-11-03T09:00:00")
  /\ hlog (snd (complete_reminder HandlerFixtures.describe "r1" (Some "m1")
                  (HandlerFixtures.store (Fixtures.frozen Fixtures.nine)
                                         (Returns (Some Fixtures.pill))
                                         (Fails (StoreError 7)))
                  HandlerFixtures.fresh))
     = [Call (UpdateReminder "r1" (SetLastTriggered Fixtures.nine));
        Call (AddMedicationLog
                (mkMedicationLog "u1" "m1" Fixtures.nine "09:00" "taken"));
        LogWarningLine "Failed to create medication log: "
                       (Uncaught (Builtin (StoreError 7)))].
Proof.
  apply (proj2
           (complete_reminder_best_effort HandlerFixtures.describe
              (HandlerFixtures.store (Fixtures.frozen Fixtures.nine)
                                     (Returns (Some Fixtures.pill))
                                     (Fails (StoreError 7)))
              HandlerFixtures.fresh "r1" Fixtures.pill eq_refl)
           (Some "m1") "m1" (Fails (StoreError 7)) eq_refl eq_refl).
Defined.

(** What [get_due_reminders] answers, in terms of the store's answer and
    of the due-filter run after the handler's reading of the clock. *)
Lemma get_due_reminders_answer
  (describe : raised -> string) (user : string) (s : Store) (hst : HState) :
  fst (get_due_reminders describe user s hst)
  = match store_get_reminders (world s) (awaits (core hst)) user true with
    | Fails e => Raised (HTTPException 500 (describe (Uncaught (Builtin e))))
    | Returns rs =>
        match fst (collect_due rs
                     (Datetime.strftime_HM (clock (world s) (reads (core hst))))
                     (Datetime.strftime_A (clock (world s) (reads (core hst))))
                     [] (world s) (clock_read 1 (core hst))) with
        | Val due => Returned due
        | Raise e => Raised (HTTPException 500 (describe (Uncaught (Builtin e))))
        | Cancelled => Raised Cancellation
        end
    end.
Proof.
  run_handler.
  destruct (store_get_reminders (world s) (awaits (core hst)) user true)
    as [rs|e]; [|reflexivity].
  cbv beta iota. unfold lift.
  cbn [core hlog world]. unfold resumed.
  cbn [core hlog clock_read reads awaits monitor trace].
  match goal with |- context [collect_due rs ?ct ?cd [] (world s)
                                (mkState ?ms _ ?aw ?tr)] =>
    pose proof (collect_due_frame rs ct cd (world s) []
                  (clock_read 1 (core hst)) ms aw tr) as F end.
  unfold clock_read at 1 in F. cbn [reads] in F. rewrite F.
  destruct (fst (collect_due rs _ _ [] (world s) (clock_read 1 (core hst))));
    reflexivity.
Qed.

Lemma is_reminder_due_true_facts
  (r : Reminder) (ct cd : string) (env : Env) (st : State) :
  fst (is_reminder_due r ct cd env st) = Val true ->
  is_active r = true
  /\ (exists rh rm ch cm,
         unpack_hour_minute (reminder_time r) = Some (rh, rm)
         /\ unpack_hour_minute ct = Some (ch, cm)
         /\ Z.abs ((ch * 60 + cm) - (rh * 60 + rm)) <= 1)
  /\ (forall days, has_days r = Some days -> In cd days).
Proof.
  rewrite is_reminder_due_eq.
  destruct (is_active r); cbn [negb]; [|discriminate]. cbv zeta.
  destruct (match snooze_until r with Some _ => _ | None => false end);
    [discriminate|].
  destruct (unpack_hour_minute (reminder_time r)) as [[rh rm]|];
    [|discriminate].
  destruct (unpack_hour_minute ct) as [[ch cm]|]; [|discriminate].
  cbn [fst snd]. unfold time_diff.
  destruct (Z.abs _ >? 1) eqn:E; [discriminate|].
  destruct (has_days r) as [days|] eqn:Ed.
  - destruct (day_in cd days) eqn:Ein; cbn [negb]; [|discriminate].
    intros _. split; [reflexivity|]. split.
    + exists rh, rm, ch, cm. repeat split.
      rewrite Z.gtb_ltb in E. now apply Z.ltb_ge in E.
    + intros days' H. inversion H; subst. now apply day_in_In.
  - intros _. split; [reflexivity|]. split.
    + exists rh, rm, ch, cm. repeat split.
      rewrite Z.gtb_ltb in E. now apply Z.ltb_ge in E.
    + intros days' H. discriminate H.
Qed.

(** X16.  What [get_due_reminders] returns is a selection of the
    reminders the store has answered, in the store's order; every
    reminder in it is active, has a time within one minute of the
    "HH:MM" of the instant the handler has read, and, if it is recurring
    with days, lists the weekday of that instant. *)
Theorem get_due_reminders_selects
  (describe : raised -> string) (user : string) (s : Store) (hst : HState)
  (due : list Reminder) :
  Datetime.valid_time (clock (world s) (reads (core hst))) ->
  fst (get_due_reminders describe user s hst) = Returned due ->
  exists rs,
    store_get_reminders (world s) (awaits (core hst)) user true = Returns rs
    /\ subsequence due rs
    /\ (forall r, In r due ->
          is_active r = true
          /\ (exists rh rm,
                 unpack_hour_minute (reminder_time r) = Some (rh, rm)
                 /\ Z.abs ((hour (clock (world s) (reads (core hst))) * 60
                            + minute (clock (world s) (reads (core hst))))
                           - (rh * 60 + rm)) <= 1)
          /\ (forall days,
                 has_days r = Some days ->
                 In (Datetime.strftime_A (clock (world s) (reads (core hst))))
                    days)).
Proof.
  intros Hv. rewrite get_due_reminders_answer.
  destruct (store_get_reminders (world s) (awaits (core hst)) user true)
    as [rs|e]; [|discriminate].
  destruct (fst (collect_due rs _ _ [] (world s) (clock_read 1 (core hst))))
    as [l|e|] eqn:E; [|discriminate|discriminate].
  intros H. inversion H; subst l. clear H.
  exists rs. split; [reflexivity|].
  destruct (collect_due_selects _ _ _ _ _ _ _ E) as (picked & Hl & Hsub & Hall).
  cbn in Hl. subst picked. split; [exact Hsub|].
  intros r Hin. destruct (Hall r Hin) as [st0 Hdue].
  destruct (is_reminder_due_true_facts _ _ _ _ _ Hdue)
    as (Ha & (rh & rm & ch & cm & Hr & Hc & Hd) & Hdays).
  rewrite (unpack_strftime _ Hv) in Hc. inversion Hc; subst ch cm.
  split; [exact Ha|]. split; [|exact Hdays].
  exists rh, rm. split; assumption.
Qed.

Lemma get_due_reminders_selects_witness :
  exists rs,
    store_get_reminders
      (world (HandlerFixtures.store
                (Fixtures.serving
                   [Fixtures.walk; Fixtures.snoozed_pill; Fixtures.pill]
                   Fixtures.updates_ok Fixtures.nine)
                (Returns None) (Returns tt)))
      (awaits (core HandlerFixtures.fresh)) "u1" true = Returns rs
    /\ subsequence [Fixtures.walk; Fixtures.pill] rs
    /\ (forall r, In r [Fixtures.walk; Fixtures.pill] ->
          is_active r = true
          /\ (exists rh rm,
                 unpack_hour_minute (reminder_time r) = Some (rh, rm)
                 /\ Z.abs ((hour Fixtures.nine * 60 + minute Fixtures.nine)
                           - (rh * 60 + rm)) <= 1)
          /\ (forall days,
                 has_days r = Some days ->
                 In (Datetime.strftime_A Fixtures.nine) days)).
Proof.
  apply (get_due_reminders_selects HandlerFixtures.describe "u1"
           (HandlerFixtures.store
              (Fixtures.serving
                 [Fixtures.walk; Fixtures.snoozed_pill; Fixtures.pill]
                 Fixtures.updates_ok Fixtures.nine)
              (Returns None) (Returns tt))
           HandlerFixtures.fresh [Fixtures.walk; Fixtures.pill]).
  - unfold Datetime.valid_time. simpl. lia.
  - reflexivity.
Defined.



(** X18.  The endpoint and the monitor apply one rule: in the same world
    and from the same state of the clock, the reminders that
    [get_due_reminders] returns are exactly those that a tick of the
    monitor, when it goes through, notifies and updates, in the same
    order ([check_interval] being one that [asyncio.sleep] can take). *)
Theorem due_endpoint_agrees_with_tick
  (describe : raised -> string) (self : nat) (user : string)
  (check_interval : Z) (s : Store) (hst : HState) (due : list Reminder) :
  check_interval < float_overflow ->
  fst (get_due_reminders describe user s hst) = Returned due ->
  alive self (monitor (core hst)) ->
  stop_free (world s) (awaits (core hst))
            (awaits (core hst) + List.length due + 2) ->
  (forall i x, nth_error due i = Some x ->
     exists v, store_update_reminder (world s) (awaits (core hst) + 1 + i)
                 (id x) (clock (world s) (reads (core hst))) = Returns v) ->
  fst (iteration self user check_interval (world s) (core hst)) = Val tt
  /\ trace (snd (iteration self user check_interval (world s) (core hst)))
     = trace (core hst)
       ++ [LogChecking
             (Datetime.strftime_HM (clock (world s) (reads (core hst))))
             (Datetime.strftime_A (clock (world s) (reads (core hst))));
           CallGetReminders user true]
       ++ match due with
          | [] => []
          | _ :: _ => [LogFound (List.length due)]
          end
       ++ flat_map (notification (clock (world s) (reads (core hst)))) due
       ++ [Sleep check_interval].
Proof.
  intros Hlt. rewrite get_due_reminders_answer.
  destruct (store_get_reminders (world s) (awaits (core hst)) user true)
    as [rs|e] eqn:Hget; [|discriminate].
  destruct (fst (collect_due rs _ _ [] (world s) (clock_read 1 (core hst))))
    as [l|e|] eqn:E; [|discriminate|discriminate].
  intros H Halive Hfree Hup. inversion H; subst l. clear H.
  destruct (iteration_succeeds self user check_interval (world s) (core hst)
              rs due Hlt Halive Hfree Hget E Hup) as [n En].
  rewrite En. split; reflexivity.
Qed.

Lemma due_endpoint_agrees_with_tick_witness :
  trace (snd (iteration 0 "u1" 60
                (Fixtures.serving
                   [Fixtures.walk; Fixtures.snoozed_pill; Fixtures.pill]
                   Fixtures.updates_ok Fixtures.nine)
                Fixtures.running_state))
  = [LogChecking "09:00" "Tuesday"; CallGetReminders "u1" true; LogFound 2;
     LogDue "Walk" "09:00"; CallUpdateReminder "r2" Fixtures.nine;
     LogDue "Pill" "09:00"; CallUpdateReminder "r1" Fixtures.nine;
     Sleep 60].
Proof.
  apply (due_endpoint_agrees_with_tick HandlerFixtures.describe 0 "u1" 60
           (HandlerFixtures.store
              (Fixtures.serving
                 [Fixtures.walk; Fixtures.snoozed_pill; Fixtures.pill]
                 Fixtures.updates_ok Fixtures.nine)
              (Returns None) (Returns tt))
           (mkHState Fixtures.running_state [])
           [Fixtures.walk; Fixtures.pill]).
  - reflexivity.
  - reflexivity.
  - split; reflexivity.
  - intros k _ H. exact H.
  - intros i x _. now exists None.
Defined.

(* ===================================================================== *)
(** ** The calendar arithmetic behind [snooze_reminder]                   *)
(* ===================================================================== *)

(** Days before the month and in the month, by leap flag. *)
Lemma days_in_month_bounds (y m : Z) :
  1 <= m <= 12 -> 28 <= Datetime.days_in_month y m <= 31.
Proof.
  intros Hm. unfold Datetime.days_in_month.
  destruct (m =? 2); [destruct (Datetime.is_leap y); lia|].
  destruct (_ || _); lia.
Qed.

Lemma month_cases (m : Z) :
  1 <= m <= 12 ->
  m = 1 \/ m = 2 \/ m = 3 \/ m = 4 \/ m = 5 \/ m = 6 \/ m = 7 \/ m = 8
  \/ m = 9 \/ m = 10 \/ m = 11 \/ m = 12.
Proof. lia. Qed.

Lemma days_before_month_flag (y m : Z) :
  1 <= m <= 12 ->
  Datetime.days_before_month y m = dbm (Datetime.is_leap y) m
  /\ Datetime.days_in_month y m = dim (Datetime.is_leap y) m.
Proof.
  intros Hm. unfold Datetime.days_before_month, Datetime.days_in_month, dbm, dim.
  destruct (Datetime.is_leap y);
    destruct (month_cases m Hm) as [->|[->|[->|[->|[->|[->|[->|[->|[->|[->|[->| ->]]]]]]]]]]];
    split; reflexivity.
Qed.

Lemma month_day_spec (leap : bool) (n : Z) :
  0 <= n < 365 + Calendar.flag leap ->
  1 <= fst (Calendar.month_day leap n) <= 12
  /\ 1 <= snd (Calendar.month_day leap n)
          <= dim leap (fst (Calendar.month_day leap n))
  /\ dbm leap (fst (Calendar.month_day leap n))
     + snd (Calendar.month_day leap n) = n + 1.
Proof.
  intros Hn.
  assert (Hall : forall b, forallb (fun k => month_day_ok b (Z.of_nat k))
                             (seq 0 (365 + (if b then 1 else 0))) = true)
    by (intros [|]; vm_compute; reflexivity).
  specialize (Hall leap). rewrite forallb_forall in Hall.
  specialize (Hall (Z.to_nat n)). rewrite in_seq in Hall.
  assert (Hin : (0 <= Z.to_nat n < 0 + (365 + (if leap then 1 else 0)))%nat)
    by (destruct leap; cbn in *; lia).
  specialize (Hall Hin). rewrite Z2Nat.id in Hall by lia.
  unfold month_day_ok in Hall.
  rewrite !andb_true_iff in Hall.
  destruct Hall as ((((H1 & H2) & H3) & H4) & H5).
  apply Z.leb_le in H1, H2, H3, H4. apply Z.eqb_eq in H5. lia.
Qed.

Lemma days_before_year_succ (y : Z) :
  Datetime.days_before_year (y + 1)
  = Datetime.days_before_year y + 365 + Calendar.flag (Datetime.is_leap y).
Proof.
  unfold Datetime.days_before_year, Datetime.is_leap, Calendar.flag.
  replace (y + 1 - 1) with y by lia.
  destruct (y mod 4 =? 0) eqn:E4; destruct (y mod 100 =? 0) eqn:E100;
    destruct (y mod 400 =? 0) eqn:E400; cbn [andb orb negb];
    rewrite ?Z.eqb_eq, ?Z.eqb_neq in *;
    Z.div_mod_to_equations; lia.
Qed.

Lemma days_before_year_mono (a b : Z) :
  a <= b -> Datetime.days_before_year a <= Datetime.days_before_year b.
Proof.
  intros H. unfold Datetime.days_before_year.
  Z.div_mod_to_equations. lia.
Qed.

Lemma toordinal_flag (y m d : Z) :
  1 <= m <= 12 ->
  Datetime.toordinal (mkDate y m d)
  = Datetime.days_before_year y + dbm (Datetime.is_leap y) m + d.
Proof.
  intros Hm. unfold Datetime.toordinal. cbn [d_year d_month d_day].
  now rewrite (proj1 (days_before_month_flag y m Hm)).
Qed.

Lemma valid_date_flag (y m d : Z) :
  Calendar.valid_date (mkDate y m d)
  <-> 1 <= y <= 9999 /\ 1 <= m <= 12
      /\ 1 <= d <= dim (Datetime.is_leap y) m.
Proof.
  unfold Calendar.valid_date. cbn [d_year d_month d_day].
  split; intros (Hy & Hm & Hd); repeat split; try lia;
    rewrite (proj2 (days_before_month_flag y m Hm)) in *; lia.
Qed.

Lemma fromordinal_spec (n : Z) :
  1 <= n <= Calendar.MAXORDINAL ->
  Calendar.valid_date (Calendar.fromordinal n)
  /\ Datetime.toordinal (Calendar.fromordinal n) = n.
Proof.
  unfold Calendar.MAXORDINAL. intros Hn. unfold Calendar.fromordinal.
  set (n0 := n - 1).
  set (n400 := n0 / 146097). set (r1 := n0 mod 146097).
  set (n100 := r1 / 36524). set (r2 := r1 mod 36524).
  set (n4 := r2 / 1461). set (r3 := r2 mod 1461).
  set (n1 := r3 / 365). set (r4 := r3 mod 365).
  cbv zeta.
  assert (H400 : 0 <= n400 <= 24 /\ n0 = 146097 * n400 + r1 /\ 0 <= r1 < 146097)
    by (unfold n400, r1, n0; Z.div_mod_to_equations; lia).
  assert (H100 : 0 <= n100 <= 4 /\ r1 = 36524 * n100 + r2 /\ 0 <= r2 < 36524)
    by (unfold n100, r2; Z.div_mod_to_equations; lia).
  assert (H4 : 0 <= n4 <= 24 /\ r2 = 1461 * n4 + r3 /\ 0 <= r3 < 1461)
    by (unfold n4, r3; Z.div_mod_to_equations; lia).
  assert (H1 : 0 <= n1 <= 4 /\ r3 = 365 * n1 + r4 /\ 0 <= r4 < 365)
    by (unfold n1, r4; Z.div_mod_to_equations; lia).
  clearbody n400 r1 n100 r2 n4 r3 n1 r4.
  destruct H400 as (B400 & E400 & R1), H100 as (B100 & E100 & R2),
           H4 as (B4 & E4 & R3), H1 as (B1 & E1 & R4).
  assert (En0 : n0 = n - 1) by reflexivity. clearbody n0.
  set (year := n400 * 400 + 1 + n100 * 100 + n4 * 4 + n1).
  destruct ((n1 =? 4) || (n100 =? 4)) eqn:Elast.
  - (* the last day of a leap year *)
    assert (Hy : (year - 1) mod 4 = 0
                 /\ ((year - 1) mod 100 <> 0 \/ (year - 1) mod 400 = 0)
                 /\ Datetime.days_before_year (year - 1) + 366 = n
                 /\ 1 <= year - 1 <= 9999).
    { apply orb_true_iff in Elast. rewrite !Z.eqb_eq in Elast.
      unfold Datetime.days_before_year, year.
      destruct Elast as [-> | ->].
      - split; [Z.div_mod_to_equations; lia|].
        split; [left|split]; Z.div_mod_to_equations; lia.
      - assert (n4 = 0 /\ n1 = 0 /\ r2 = 0 /\ r4 = 0 /\ n400 <= 23) as (-> & -> & -> & -> & Hb) by lia.
        split; [Z.div_mod_to_equations; lia|].
        split; [right|split]; Z.div_mod_to_equations; lia. }
    destruct Hy as (Y4 & Y100 & Hdby & Hrange).
    assert (Hleap : Datetime.is_leap (year - 1) = true).
    { unfold Datetime.is_leap. rewrite Y4. cbn [Z.eqb andb].
      destruct Y100 as [Y|Y].
      - apply Z.eqb_neq in Y. now rewrite Y.
      - rewrite Y. cbn. apply orb_true_r. }
    split.
    + apply valid_date_flag. rewrite Hleap.
      change (dim true 12) with 31. lia.
    + rewrite toordinal_flag by lia. rewrite Hleap.
      change (dbm true 12) with 335. lia.
  - apply orb_false_iff in Elast. rewrite !Z.eqb_neq in Elast.
    destruct Elast as [N1 N100].
    set (leapyear := (n1 =? 3) && (negb (n4 =? 24) || (n100 =? 3))).
    assert (Hleap : Datetime.is_leap year = leapyear).
    { unfold Datetime.is_leap, leapyear, year.
      destruct (n1 =? 3) eqn:E3; destruct (n4 =? 24) eqn:E24;
        destruct (n100 =? 3) eqn:E1003; cbn [andb orb negb];
        rewrite ?Z.eqb_eq, ?Z.eqb_neq in *;
        repeat match goal with
               | |- context [?a =? 0] =>
                   let E := fresh "E" in
                   destruct (a =? 0) eqn:E;
                   rewrite ?Z.eqb_eq, ?Z.eqb_neq in E
               end; cbn [andb orb negb]; try reflexivity; exfalso;
        Z.div_mod_to_equations; lia. }
    assert (Hdby : Datetime.days_before_year year = n0 - r4).
    { unfold Datetime.days_before_year, year. Z.div_mod_to_equations. lia. }
    assert (Hr4 : 0 <= r4 < 365 + Calendar.flag leapyear)
      by (destruct leapyear; cbn; lia).
    destruct (month_day_spec leapyear r4 Hr4) as (Hm & Hd & Hsum).
    assert (Hyear : 1 <= year <= 9999).
    { unfold year. lia. }
    split.
    + apply valid_date_flag. rewrite Hleap. lia.
    + rewrite toordinal_flag by lia. rewrite Hleap, Hdby. lia.
Qed.

Lemma dbm_bounds (leap : bool) (m d : Z) :
  1 <= m <= 12 -> 1 <= d <= dim leap m ->
  1 <= dbm leap m + d <= 365 + Calendar.flag leap.
Proof.
  intros Hm Hd.
  assert (Ht : 0 <= dbm leap m
               /\ dbm leap m + dim leap m <= 365 + Calendar.flag leap).
  { destruct leap;
      destruct (month_cases m Hm) as [->|[->|[->|[->|[->|[->|[->|[->|[->|[->|[->| ->]]]]]]]]]]];
      vm_compute; split; discriminate. }
  lia.
Qed.

Lemma dbm_next (leap : bool) (m m' : Z) :
  1 <= m -> m < m' -> m' <= 12 ->
  dbm leap m + dim leap m <= dbm leap m'.
Proof.
  intros H1 H2 H3.
  assert (Hm : 1 <= m <= 12) by lia. assert (Hm' : 1 <= m' <= 12) by lia.
  destruct leap;
    destruct (month_cases m Hm) as [->|[->|[->|[->|[->|[->|[->|[->|[->|[->|[->| ->]]]]]]]]]]];
    destruct (month_cases m' Hm') as [->|[->|[->|[->|[->|[->|[->|[->|[->|[->|[->| ->]]]]]]]]]]];
    try lia; vm_compute; discriminate.
Qed.

(** The order of the calendar is the order of the ordinals. *)
Lemma toordinal_lt (y m d y' m' d' : Z) :
  Calendar.valid_date (mkDate y m d) ->
  Calendar.valid_date (mkDate y' m' d') ->
  y < y' \/ (y = y' /\ (m < m' \/ (m = m' /\ d < d'))) ->
  Datetime.toordinal (mkDate y m d) < Datetime.toordinal (mkDate y' m' d').
Proof.
  intros Ha Hb Hlt.
  apply valid_date_flag in Ha, Hb.
  destruct Ha as (Hy & Hm & Hd), Hb as (Hy' & Hm' & Hd').
  rewrite !toordinal_flag by assumption.
  pose proof (dbm_bounds _ _ _ Hm Hd) as Ba.
  pose proof (dbm_bounds _ _ _ Hm' Hd') as Bb.
  destruct Hlt as [Hlt|[-> [Hlt|[-> Hlt]]]].
  - pose proof (days_before_year_succ y) as Hs.
    pose proof (days_before_year_mono (y + 1) y' ltac:(lia)). lia.
  - pose proof (dbm_next (Datetime.is_leap y') m m' ltac:(lia) Hlt ltac:(lia)).
    lia.
  - lia.
Qed.

Lemma gtb_false (n m : Z) : n <= m -> (n >? m) = false.
Proof. intros H. rewrite Z.gtb_ltb. now apply Z.ltb_ge. Qed.

Lemma gtb_true (n m : Z) : m < n -> (n >? m) = true.
Proof. intros H. rewrite Z.gtb_ltb. now apply Z.ltb_lt. Qed.

(** On valid datetimes, [a > b] compares the instants. *)
Lemma gtb_stamp (a b : datetime) :
  Calendar.valid a -> Calendar.valid b ->
  Datetime.gtb a b = (stamp a >? stamp b).
Proof.
  destruct a as [y m d h mi s us], b as [y' m' d' h' mi' s' us'].
  unfold Calendar.valid, stamp, Datetime.gtb, Datetime.fields, Datetime.date_of.
  cbn [year month day hour minute second microsecond Datetime.lex_compare].
  intros (Va & Hh & Hmi & Hs & Hus) (Vb & Hh' & Hmi' & Hs' & Hus').
  pose proof (toordinal_lt y m d y' m' d' Va Vb) as Lab.
  pose proof (toordinal_lt y' m' d' y m d Vb Va) as Lba.
  destruct (Z.compare_spec y y') as [Ey|Ly|Gy];
    [|symmetry; apply gtb_false; specialize (Lab ltac:(lia)); lia
     |symmetry; apply gtb_true; specialize (Lba ltac:(lia)); lia].
  destruct (Z.compare_spec m m') as [Em|Lm|Gm];
    [|symmetry; apply gtb_false; specialize (Lab ltac:(lia)); lia
     |symmetry; apply gtb_true; specialize (Lba ltac:(lia)); lia].
  destruct (Z.compare_spec d d') as [Ed|Ld|Gd];
    [|symmetry; apply gtb_false; specialize (Lab ltac:(lia)); lia
     |symmetry; apply gtb_true; specialize (Lba ltac:(lia)); lia].
  subst y' m' d'. clear Lab Lba.
  destruct (Z.compare_spec h h');
    [|symmetry; apply gtb_false; lia|symmetry; apply gtb_true; lia].
  destruct (Z.compare_spec mi mi');
    [|symmetry; apply gtb_false; lia|symmetry; apply gtb_true; lia].
  destruct (Z.compare_spec s s');
    [|symmetry; apply gtb_false; lia|symmetry; apply gtb_true; lia].
  destruct (Z.compare_spec us us');
    [|symmetry; apply gtb_false; lia|symmetry; apply gtb_true; lia].
  symmetry; apply gtb_false; lia.
Qed.

Lemma toordinal_range (d : date) :
  Calendar.valid_date d -> 1 <= Datetime.toordinal d <= Calendar.MAXORDINAL.
Proof.
  destruct d as [y m d]. intros V.
  pose proof V as V'. apply valid_date_flag in V'.
  destruct V' as (Hy & Hm & Hd).
  rewrite toordinal_flag by assumption.
  pose proof (dbm_bounds _ _ _ Hm Hd).
  pose proof (days_before_year_mono 1 y ltac:(lia)).
  pose proof (days_before_year_mono (y + 1) 10000 ltac:(lia)).
  pose proof (days_before_year_succ y).
  change (Datetime.days_before_year 1) with 0 in *.
  change (Datetime.days_before_year 10000) with 3652059 in *.
  unfold Calendar.MAXORDINAL. lia.
Qed.

(** What [now + timedelta(minutes=minutes)] is, when it exists: a valid
    datetime, [minutes] minutes away from [now]. *)
Lemma add_minutes_stamp (now until : datetime) (minutes : Z) :
  Calendar.valid now ->
  Calendar.add_minutes now minutes = Some until ->
  Calendar.valid until /\ stamp until = stamp now + minutes * 60000000.
Proof.
  intros (Vd & Hh & Hmi & Hs & Hus). unfold Calendar.add_minutes.
  destruct (Z.abs _ >? 999999999); [discriminate|].
  set (total := hour now * 3600 + minute now * 60 + second now
                + (minutes * 60) mod 86400).
  set (days := Datetime.toordinal (Datetime.date_of now)
               + minutes * 60 / 86400 + total / 86400).
  destruct ((0 <? days) && (days <=? Calendar.MAXORDINAL)) eqn:Er;
    [|discriminate].
  apply andb_true_iff in Er. destruct Er as [E0 E1].
  apply Z.ltb_lt in E0. apply Z.leb_le in E1.
  destruct (fromordinal_spec days ltac:(lia)) as [Vu Hord].
  intros H. inversion H; subst until. clear H.
  unfold Calendar.valid, stamp, Datetime.date_of.
  cbn [year month day hour minute second microsecond].
  destruct (Calendar.fromordinal days) as [y' m' d'] eqn:Ef.
  cbn [d_year d_month d_day] in *.
  split.
  - split; [exact Vu|]. Z.div_mod_to_equations. lia.
  - rewrite Hord.
    assert (Hsec : (total mod 86400) mod 60
                   = ((total mod 86400) mod 3600) mod 60).
    { symmetry. apply Z.mod_mod_divide. exists 60. reflexivity. }
    rewrite Hsec.
    pose proof (Z.div_mod (total mod 86400) 3600 ltac:(lia)) as D1.
    pose proof (Z.div_mod ((total mod 86400) mod 3600) 60 ltac:(lia)) as D2.
    pose proof (Z.div_mod total 86400 ltac:(lia)) as D3.
    pose proof (Z.div_mod (minutes * 60) 86400 ltac:(lia)) as D4.
    unfold days, Datetime.date_of. unfold total in D3 at 1. lia.
Qed.

(** X19.  [now + timedelta(minutes=minutes)] on a valid [now]: when it
    exists, it is a valid datetime exactly [minutes] minutes away from
    [now], and it is later than [now] if and only if [minutes] is at
    least 1; it fails (with [OverflowError]) if and only if that instant
    lies before year 1 or after year 9999. *)
Theorem snooze_instant_spec (now : datetime) (minutes : Z) :
  Calendar.valid now ->
  (forall until,
      Calendar.add_minutes now minutes = Some until ->
      Calendar.valid until
      /\ stamp until = stamp now + minutes * 60000000
      /\ (Datetime.gtb until now = true <-> 1 <= minutes))
  /\ (Calendar.add_minutes now minutes = None
      <-> stamp now + minutes * 60000000 < 86400000000
          \/ 3652060 * 86400000000 <= stamp now + minutes * 60000000).
Proof.
  intros Vnow. split.
  - intros later Hadd.
    destruct (add_minutes_stamp now later minutes Vnow Hadd) as [Vu Hs].
    split; [exact Vu|]. split; [exact Hs|].
    rewrite (gtb_stamp later now Vu Vnow), Z.gtb_ltb, Z.ltb_lt. lia.
  - pose proof Vnow as (Vd & Hh & Hmi & Hsec & Hus).
    pose proof (toordinal_range _ Vd) as Hord.
    unfold Calendar.MAXORDINAL in Hord.
    unfold Calendar.add_minutes, stamp, Calendar.MAXORDINAL.
    pose proof (Z.div_mod (minutes * 60) 86400 ltac:(lia)) as D4.
    pose proof (Z.mod_pos_bound (minutes * 60) 86400 ltac:(lia)) as B4.
    set (total := hour now * 3600 + minute now * 60 + second now
                  + (minutes * 60) mod 86400).
    pose proof (Z.div_mod total 86400 ltac:(lia)) as D3.
    pose proof (Z.mod_pos_bound total 86400 ltac:(lia)) as B3.
    assert (Et : total = hour now * 3600 + minute now * 60 + second now
                         + (minutes * 60) mod 86400) by reflexivity.
    clearbody total.
    destruct (Z.abs (minutes * 60 / 86400) >? 999999999) eqn:Ebig.
    + rewrite Z.gtb_ltb in Ebig. apply Z.ltb_lt in Ebig.
      split; [intros _|reflexivity]. lia.
    + rewrite Z.gtb_ltb in Ebig. apply Z.ltb_ge in Ebig.
      destruct ((0 <? _) && (_ <=? 3652059)) eqn:Er.
      * apply andb_true_iff in Er. destruct Er as [E0 E1].
        apply Z.ltb_lt in E0. apply Z.leb_le in E1.
        split; [discriminate|]. intros H. exfalso. lia.
      * split; [intros _|reflexivity].
        apply andb_false_iff in Er.
        destruct Er as [E|E]; [apply Z.ltb_ge in E|apply Z.leb_gt in E]; lia.
Qed.

Lemma snooze_instant_spec_witness :
  Datetime.gtb (mkDatetime 2027 1 1 0 4 30 0) (mkDatetime 2026 12 31 23 59 30 0)
  = true.
Proof.
  assert (V : Calendar.valid (mkDatetime 2026 12 31 23 59 30 0))
    by (vm_compute; repeat split; (discriminate || reflexivity)).
  apply (proj1 (snooze_instant_spec (mkDatetime 2026 12 31 23 59 30 0) 5 V)
           (mkDatetime 2027 1 1 0 4 30 0) eq_refl).
  lia.
Defined.

(** X20.  When [snooze_reminder] answers, it has asked the store to set
    [snooze_until] to the instant [minutes] minutes after the one it has
    read from the clock, and it answers with the message for [minutes]
    and that instant in ISO format.  A reminder that carries that
    [snooze_until] is not due at any instant before it; with [minutes]
    of 0 or less, which the handler accepts, the snooze is over as soon
    as it is set. *)
Theorem snooze_reminder_answer
  (describe : raised -> string) (s : Store) (hst : HState)
  (rid : string) (minutes : Z) (message iso : string) :
  Calendar.valid (clock (world s) (reads (core hst))) ->
  fst (snooze_reminder describe rid minutes s hst) = Returned (message, iso) ->
  exists until,
    Calendar.add_minutes (clock (world s) (reads (core hst))) minutes
    = Some until
    /\ message = ("Reminder snoozed for "
                  ++ NilZero.string_of_int (Z.to_int minutes)
                  ++ " minutes")%string
    /\ iso = Calendar.isoformat until
    /\ hlog (snd (snooze_reminder describe rid minutes s hst))
       = hlog hst ++ [Call (UpdateReminder rid (SetSnoozeUntil until))]
    /\ stamp until
       = stamp (clock (world s) (reads (core hst))) + minutes * 60000000
    /\ (forall r ct cd env st,
           snooze_until r = Some until ->
           Calendar.valid (clock env (reads st)) ->
           stamp (clock env (reads st)) < stamp until ->
           fst (is_reminder_due r ct cd env st) = Val false)
    /\ (minutes <= 0 ->
        Datetime.gtb until (clock (world s) (reads (core hst))) = false).
Proof.
  intros Vnow.
  destruct (Calendar.add_minutes (clock (world s) (reads (core hst))) minutes)
    as [until|] eqn:Hadd.
  - destruct (add_minutes_stamp _ _ _ Vnow Hadd) as [Vu Hs].
    run_handler. handler_step Hadd.
    destruct (update_reminder_reply s (awaits (core hst)) rid
                (SetSnoozeUntil until)) as [[r|]|e];
      cbv beta iota; cbn [found hret hraise record fst snd hlog core];
      intros H; inversion H; subst message iso.
    exists until. repeat split; try assumption.
    + intros r' ct cd env st Hsn Vt Hlt.
      rewrite is_reminder_due_eq, Hsn. cbv zeta.
      rewrite (gtb_stamp until _ Vu Vt), gtb_true by lia.
      now destruct (negb (is_active r')).
    + intros Hm. rewrite (gtb_stamp until _ Vu Vnow). apply gtb_false. lia.
  - run_handler. handler_step Hadd. intros H. discriminate H.
Qed.

Lemma snooze_reminder_answer_witness :
  exists until,
    Calendar.add_minutes Fixtures.nine 5 = Some until
    /\ "Reminder snoozed for 5 minutes"
       = ("Reminder snoozed for " ++ NilZero.string_of_int (Z.to_int 5)
          ++ " minutes")%string
    /\ "2026-11-03T09:05:00" = Calendar.isoformat until
    /\ hlog (snd (snooze_reminder HandlerFixtures.describe "r1" 5
                    (HandlerFixtures.store (Fixtures.frozen Fixtures.nine)
                       (Returns (Some Fixtures.pill)) (Returns tt))
                    HandlerFixtures.fresh))
       = hlog HandlerFixtures.fresh
         ++ [Call (UpdateReminder "r1" (SetSnoozeUntil until))]
    /\ stamp until = stamp Fixtures.nine + 5 * 60000000
    /\ (forall r ct cd env st,
           snooze_until r = Some until ->
           Calendar.valid (clock env (reads st)) ->
           stamp (clock env (reads st)) < stamp until ->
           fst (is_reminder_due r ct cd env st) = Val false)
    /\ (5 <= 0 -> Datetime.gtb until Fixtures.nine = false).
Proof.
  apply (snooze_reminder_answer HandlerFixtures.describe
           (HandlerFixtures.store (Fixtures.frozen Fixtures.nine)
              (Returns (Some Fixtures.pill)) (Returns tt))
           HandlerFixtures.fresh "r1" 5
           "Reminder snoozed for 5 minutes" "2026-11-03T09:05:00").
  - vm_compute; repeat split; (discriminate || reflexivity).
  - reflexivity.
Defined.

(** X21.  When the instant [minutes] minutes away cannot be represented,
    [snooze_reminder] answers 500 with the text of the [OverflowError]
    and one error line, and the store is not called. *)
Theorem snooze_reminder_overflow
  (describe : raised -> string) (s : Store) (hst : HState)
  (rid : string) (minutes : Z) :
  Calendar.add_minutes (clock (world s) (reads (core hst))) minutes = None ->
  fst (snooze_reminder describe rid minutes s hst)
  = Raised (HTTPException 500 (describe (Uncaught OverflowError)))
  /\ hlog (snd (snooze_reminder describe rid minutes s hst))
     = hlog hst
       ++ [LogErrorLine "Error snoozing reminder: " (Uncaught OverflowError)].
Proof.
  intros Hadd. run_handler. handler_step Hadd. split; reflexivity.
Qed.

Lemma snooze_reminder_overflow_witness :
  fst (snooze_reminder HandlerFixtures.describe "r1" 1
         (HandlerFixtures.store
            (Fixtures.frozen (mkDatetime 9999 12 31 23 59 30 0))
            (Returns (Some Fixtures.pill)) (Returns tt))
         HandlerFixtures.fresh)
  = Raised (HTTPException 500 "date value out of range")
  /\ hlog (snd (snooze_reminder HandlerFixtures.describe "r1" 1
                  (HandlerFixtures.store
                     (Fixtures.frozen (mkDatetime 9999 12 31 23 59 30 0))
                     (Returns (Some Fixtures.pill)) (Returns tt))
                  HandlerFixtures.fresh))
     = [LogErrorLine "Error snoozing reminder: " (Uncaught OverflowError)].
Proof.
  apply (snooze_reminder_overflow HandlerFixtures.describe
           (HandlerFixtures.store
              (Fixtures.frozen (mkDatetime 9999 12 31 23 59 30 0))
              (Returns (Some Fixtures.pill)) (Returns tt))
           HandlerFixtures.fresh "r1" 1).
  reflexivity.
Defined.
